(** * FFmpegPlayer: the audio thread (video/audioparserunnable.cpp)

    A shallow embedding of [FFmpegDecoder::audioParseRunnable] and
    [FFmpegDecoder::handleAudioPacket] together with the two file-local
    helpers [getAudioData] and [getChannelLayout].

    The decoder, the resampler, the sink, the packet queue, the wall clock
    and the other threads of the player are collaborators of this code.
    What they answer is supplied by an environment script (one record per
    decoded frame, per handled packet, per queue pop and per pass of the
    main loop); what the code asks of them is recorded as a list of
    events, in program order. *)

From Stdlib Require Import ZArith List Bool Lia Floats Uint63.
Import ListNotations.

Local Open Scope Z_scope.

(* ================================================================== *)
(** ** Machine arithmetic *)

Module CInt.

(** Two's-complement wrap-around of a [w]-bit signed integer. *)
Definition wrap (w : Z) (z : Z) : Z :=
  (z + 2 ^ (w - 1)) mod 2 ^ w - 2 ^ (w - 1).

(** [int] is 32 bits wide. *)
Definition int32 (z : Z) : Z := wrap 32 z.

(** Conversion to [size_t] (64-bit, unsigned). *)
Definition to_size_t (z : Z) : Z := z mod 2 ^ 64.

Definition INT_MIN : Z := - 2 ^ 31.
Definition INT_MAX : Z := 2 ^ 31 - 1.

Definition in_int (z : Z) : Prop := INT_MIN <= z <= INT_MAX.

(** [int * int], wrapped as the compiled code wraps it. *)
Definition mul32 (a b : Z) : Z := int32 (a * b).

End CInt.

(** [double] is IEEE binary64, the kernel's primitive floats. *)
Module CDouble.

(** Conversion of a signed integer of magnitude below [2^63] to
    [double], rounding to nearest. *)
Definition of_Z (z : Z) : float :=
  if z <? 0 then PrimFloat.opp (PrimFloat.of_uint63 (Uint63.of_Z (- z)))
  else PrimFloat.of_uint63 (Uint63.of_Z z).

(** The literals of the source. [0.1] is [0x1.999999999999ap-4] and [0.05]
    is [0x1.999999999999ap-5] once rounded to binary64. *)
Definition c_0_1 : float := 0x1.999999999999ap-4%float.
Definition c_0_05 : float := 0x1.999999999999ap-5%float.
Definition c_m0_05 : float := PrimFloat.opp c_0_05.
Definition zero : float := 0%float.

(** [x > y], [x < y] and [fabs] of the C source. *)
Definition gt (x y : float) : bool := PrimFloat.ltb y x.
Definition lt (x y : float) : bool := PrimFloat.ltb x y.
Definition le (x y : float) : bool := PrimFloat.leb x y.
Definition fabs (x : float) : float := PrimFloat.abs x.

End CDouble.

(* ================================================================== *)
(** ** Data *)

Definition ptr := Z.

Record AVRational := { num : Z; den : Z }.

Record AVStream := { index : Z; time_base : AVRational }.

Record AVPacket := { stream_index : Z; pts : Z; size : Z }.

Definition AV_NOPTS_VALUE : Z := - 2 ^ 63.

(** [av_q2d]: [a.num / (double) a.den]. *)
Definition av_q2d (a : AVRational) : float :=
  PrimFloat.div (CDouble.of_Z (num a)) (CDouble.of_Z (den a)).

(** The fields of [AVFrame] this file reads. [extended_data] is [None] when
    the pointer is null; [av_frame_get_channels] reads [channels]. *)
Record AVFrame := {
  nb_samples : Z;
  format : Z;
  channels : Z;
  channel_layout : Z;
  sample_rate : Z;
  extended_data : option (list ptr);
  data : list ptr
}.

(** The audio parameters record of ffmpegdecoder.h, as far as it is used
    here: [m_audioSettings] (the target) and [m_audioCurrentPref] (the
    cached source format). *)
Record AudioParams := {
  ap_frequency : Z;
  ap_channels : Z;
  ap_channel_layout : Z;
  ap_format : Z
}.

(** The resampler's context, an object of libswresample: only its being
    there and its having been initialised are visible to this code. *)
Record SwrContext := {
  swr_in_layout : Z;
  swr_in_format : Z;
  swr_in_rate : Z;
  swr_initialized : bool
}.

(** What is handed to [WriteAudio]: the first plane of the decoded frame,
    or the start of the scratch buffer. *)
Inductive WriteData :=
| FrameData (p : ptr)
| ResampleOut.

(** The members of [FFmpegDecoder] used by the audio thread.
    [m_isPaused] and [m_isAudioSeekingWhilePaused] are not among them:
    other threads write them at any time, so each read of them is
    answered by the environment, and the one store of this thread (line
    110) is an event. *)
Record Decoder := {
  m_formatContext_streams : Z -> AVStream;
  m_audioStream : AVStream;
  m_audioSwrContext : option SwrContext;
  m_audioSettings : AudioParams;
  m_audioCurrentPref : AudioParams;
  m_videoStartClock : float;
  m_audioPTS : float;
  m_audioPaused : bool
}.

Definition set_audioStream (d : Decoder) (s : AVStream) : Decoder :=
  {| m_formatContext_streams := m_formatContext_streams d;
     m_audioStream := s;
     m_audioSwrContext := m_audioSwrContext d;
     m_audioSettings := m_audioSettings d;
     m_audioCurrentPref := m_audioCurrentPref d;
     m_videoStartClock := m_videoStartClock d;
     m_audioPTS := m_audioPTS d;
     m_audioPaused := m_audioPaused d |}.

Definition set_swr (d : Decoder) (c : option SwrContext) (p : AudioParams)
  : Decoder :=
  {| m_formatContext_streams := m_formatContext_streams d;
     m_audioStream := m_audioStream d;
     m_audioSwrContext := c;
     m_audioSettings := m_audioSettings d;
     m_audioCurrentPref := p;
     m_videoStartClock := m_videoStartClock d;
     m_audioPTS := m_audioPTS d;
     m_audioPaused := m_audioPaused d |}.

Definition set_swrContext (d : Decoder) (c : option SwrContext) : Decoder :=
  set_swr d c (m_audioCurrentPref d).

Definition set_videoStartClock (d : Decoder) (v : float) : Decoder :=
  {| m_formatContext_streams := m_formatContext_streams d;
     m_audioStream := m_audioStream d;
     m_audioSwrContext := m_audioSwrContext d;
     m_audioSettings := m_audioSettings d;
     m_audioCurrentPref := m_audioCurrentPref d;
     m_videoStartClock := v;
     m_audioPTS := m_audioPTS d;
     m_audioPaused := m_audioPaused d |}.

Definition set_audioPTS (d : Decoder) (v : float) : Decoder :=
  {| m_formatContext_streams := m_formatContext_streams d;
     m_audioStream := m_audioStream d;
     m_audioSwrContext := m_audioSwrContext d;
     m_audioSettings := m_audioSettings d;
     m_audioCurrentPref := m_audioCurrentPref d;
     m_videoStartClock := m_videoStartClock d;
     m_audioPTS := v;
     m_audioPaused := m_audioPaused d |}.

Definition set_audioPaused (d : Decoder) (b : bool) : Decoder :=
  {| m_formatContext_streams := m_formatContext_streams d;
     m_audioStream := m_audioStream d;
     m_audioSwrContext := m_audioSwrContext d;
     m_audioSettings := m_audioSettings d;
     m_audioCurrentPref := m_audioCurrentPref d;
     m_videoStartClock := m_videoStartClock d;
     m_audioPTS := m_audioPTS d;
     m_audioPaused := b |}.

(* ================================================================== *)
(** ** Collaborators *)

(** The functions of libavutil the code calls. They are library code, not
    code of the player, and stay abstract in every general theorem. *)
Class AVUtil := {
  av_get_bytes_per_sample : Z -> Z;
  (** [av_samples_get_buffer_size(nullptr, nb_channels, nb_samples, fmt, 1)] *)
  av_samples_get_buffer_size : Z -> Z -> Z -> Z;
  av_get_channel_layout_nb_channels : Z -> Z;
  av_get_default_channel_layout : Z -> Z
}.

(** Calls made to the collaborators, in program order. *)
Inductive Event :=
| EvInitializeThread
| EvDeinitializeThread
| EvWaveOutPause
| EvWaveOutRestart
| EvPop (p : option AVPacket)
| EvUnref (p : AVPacket)
| EvAppendFrameClock (audioPTS : float)
| EvSeekingWhilePausedCleared
| EvAssertFailed
| EvLogPacketSizeZero
| EvLogInterrupted
| EvCodecClose
| EvParametersToContext (stream : Z)
| EvFindDecoder
| EvCodecOpen
| EvSendPacket (p : AVPacket)
| EvReceiveFrame (got : bool)
| EvSwrFree
| EvSwrAlloc (in_layout in_format in_rate : Z)
| EvSwrInit
| EvLogSwrInitError
| EvSwrConvert (out_count in_count : Z)
| EvLogSwrConvertFailed
| EvLogBufferTooSmall
| EvWriteAudio (d : WriteData) (write_size : Z).

(** What the collaborators answer while one decoded frame is processed.
    An answer to a call the code does not make is not looked at. *)
Record FrameEnv := {
  fe_frame : AVFrame;                 (* what avcodec_receive_frame stored *)
  fe_swr_alloc : bool;                (* swr_alloc_set_opts gave a context *)
  fe_swr_init : Z;                    (* swr_init, on a rebuild *)
  fe_swr_convert : Z;                 (* swr_convert *)
  fe_swr_reinit : Z;                  (* swr_init, after the warning *)
  fe_now : float;                     (* GetHiResTime() *)
  fe_startClock_stores : list float;  (* stores of other threads seen by the
                                         compare-exchange on m_videoStartClock *)
  fe_interruption_requested : bool;
  fe_write_audio : bool;              (* WriteAudio *)
  fe_audioPTS_stores : list float     (* likewise for m_audioPTS *)
}.

(** What they answer while one packet is handled. [he_frames] are the
    frames [avcodec_receive_frame] yields before it returns non-zero. *)
Record HandleEnv := {
  he_parameters_to_context : Z;
  he_find_decoder : bool;
  he_open2 : Z;
  he_send_packet : Z;
  he_frames : list FrameEnv
}.

(* ================================================================== *)
(** ** The anonymous namespace *)

Definition getAudioData (audioFrame : AVFrame) : list ptr :=
  match extended_data audioFrame with
  | Some planes => planes
  | None => data audioFrame
  end.

(** [*getAudioData(frame)]. *)
Definition first_plane (audioFrame : AVFrame) : ptr :=
  hd 0 (getAudioData audioFrame).

Section WithAVUtil.

Context {lib : AVUtil}.

Definition getChannelLayout (audioFrame : AVFrame) : Z :=
  let audioFrameChannels := channels audioFrame in
  if negb (channel_layout audioFrame =? 0)
     && (audioFrameChannels
         =? av_get_channel_layout_nb_channels (channel_layout audioFrame))
  then channel_layout audioFrame
  else av_get_default_channel_layout audioFrameChannels.

(* ================================================================== *)
(** ** handleAudioPacket, one decoded frame *)

(** Lines 193-213: is a new swr context required? *)
Definition swr_context_required (d : Decoder) (f : AVFrame) : bool :=
  negb (format f =? ap_format (m_audioCurrentPref d))
  || negb (getChannelLayout f =? ap_channel_layout (m_audioCurrentPref d))
  || negb (sample_rate f =? ap_frequency (m_audioCurrentPref d)).

Definition update_swr_context (d : Decoder) (fe : FrameEnv)
  : Decoder * list Event :=
  let f := fe_frame fe in
  let dec_channel_layout := getChannelLayout f in
  if swr_context_required d f then
    let pref := {| ap_frequency := sample_rate f;
                   ap_channels := channels f;
                   ap_channel_layout := dec_channel_layout;
                   ap_format := format f |} in
    let alloc := EvSwrAlloc dec_channel_layout (format f) (sample_rate f) in
    if fe_swr_alloc fe then
      let failed := fe_swr_init fe <? 0 in
      let ctx := {| swr_in_layout := dec_channel_layout;
                    swr_in_format := format f;
                    swr_in_rate := sample_rate f;
                    swr_initialized := negb failed |} in
      (set_swr d (Some ctx) pref,
       [EvSwrFree; alloc; EvSwrInit]
         ++ (if failed then [EvLogSwrInitError] else []))
    else
      (set_swr d None pref, [EvSwrFree; alloc; EvLogSwrInitError])
  else (d, []).

Definition EXTRA_SPACE : Z := 256.

(** Lines 219-226. The product and the quotient are computed in
    [int64_t] and narrowed to [int]; the division truncates. *)
Definition out_count (d : Decoder) (f : AVFrame) : Z :=
  CInt.int32
    (Z.quot (nb_samples f * ap_frequency (m_audioSettings d)) (sample_rate f)
     + EXTRA_SPACE).

Definition size_multiplier (d : Decoder) : Z :=
  CInt.mul32 (ap_channels (m_audioSettings d))
             (av_get_bytes_per_sample (ap_format (m_audioSettings d))).

Definition buffer_size (d : Decoder) (f : AVFrame) : Z :=
  CInt.to_size_t (CInt.mul32 (out_count d f) (size_multiplier d)).

(** [std::vector<uint8_t>::max_size()], which is [PTRDIFF_MAX] in the
    standard libraries in use. *)
Definition vector_max_size : Z := 2 ^ 63 - 1.

(** [resampleBuffer] is known to this code by its size only: its bytes
    are written by the resampler and read by the sink. Lines 228-231:
    [resize] is called when the vector is smaller than [n]; asked for
    more than [max_size()] it throws [std::length_error] ([None]) and
    leaves the vector as it was. An allocation refused for lack of memory
    is not modelled: a size within [max_size()] is taken to be granted. *)
Definition resize_if_smaller (resampleBuffer : Z) (n : Z) : option Z :=
  if resampleBuffer <? n
  then if vector_max_size <? n then None else Some n
  else Some resampleBuffer.

(** Line 255: [int * int] widened to [int64_t]. *)
Definition converted_write_size (d : Decoder) (converted_size : Z) : Z :=
  CInt.mul32 converted_size (size_multiplier d).

(** Line 257: [int64_t < size_t] compares as unsigned. *)
Definition write_size_assertion (write_size buffer_size : Z) : bool :=
  CInt.to_size_t write_size <? buffer_size.

Inductive Resampled :=
| Ready (d : Decoder) (resampleBuffer : Z)
        (write_data : WriteData) (write_size : Z)
| ConvertFailed (d : Decoder) (resampleBuffer : Z)   (* break *)
| AssertAbort (d : Decoder) (resampleBuffer : Z)     (* assert, debug build *)
| DivisionByZero                                     (* undefined behaviour *)
| LengthError.                                       (* resize threw *)

(** Lines 215-258. [NDEBUG] tells whether [assert] is compiled out. *)
Definition resample (NDEBUG : bool) (d : Decoder) (resampleBuffer : Z)
    (fe : FrameEnv) (original_buffer_size : Z)
  : Resampled * list Event :=
  let f := fe_frame fe in
  match m_audioSwrContext d with
  | None =>
      (Ready d resampleBuffer (FrameData (first_plane f)) original_buffer_size,
       [])
  | Some ctx =>
      if sample_rate f =? 0 then (DivisionByZero, []) else
      let out_count := out_count d f in
      let size_multiplier := size_multiplier d in
      let buffer_size := buffer_size d f in
      match resize_if_smaller resampleBuffer buffer_size with
      | None => (LengthError, [])
      | Some resampleBuffer =>
      let converted_size := fe_swr_convert fe in
      let convert := EvSwrConvert out_count (nb_samples f) in
      if converted_size <? 0 then
        (ConvertFailed d resampleBuffer, [convert; EvLogSwrConvertFailed])
      else
        let '(d, warn) :=
          if converted_size =? out_count then
            (set_swrContext d
               (Some {| swr_in_layout := swr_in_layout ctx;
                        swr_in_format := swr_in_format ctx;
                        swr_in_rate := swr_in_rate ctx;
                        swr_initialized := negb (fe_swr_reinit fe <? 0) |}),
             [EvLogBufferTooSmall; EvSwrInit])
          else (d, []) in
        let write_size := converted_write_size d converted_size in
        if write_size_assertion write_size buffer_size || NDEBUG then
          (Ready d resampleBuffer ResampleOut write_size, convert :: warn)
        else
          (AssertAbort d resampleBuffer,
           convert :: warn ++ [EvAssertFailed])
      end
  end.

(** A compare-exchange retry loop adding [delta] to a shared [double]
    first read as [v]: every store of another thread that arrives before
    the exchange makes it fail and hands its value back in [v]. *)
Fixpoint compare_exchange_add (stores : list float) (v delta : float)
  : float :=
  match stores with
  | [] => PrimFloat.add v delta
  | w :: stores => compare_exchange_add stores w delta
  end.

(** Lines 260-269. *)
Definition sync_delta (d : Decoder) (now : float) : float :=
  PrimFloat.sub (PrimFloat.add (m_videoStartClock d) (m_audioPTS d)) now.

Definition drift_correction (delta : float) : option float :=
  if CDouble.gt (CDouble.fabs delta) CDouble.c_0_1 then
    Some (if CDouble.lt delta CDouble.zero
          then CDouble.c_0_05 else CDouble.c_m0_05)
  else None.

Definition audio_sync (d : Decoder) (fe : FrameEnv) : Decoder :=
  match drift_correction (sync_delta d (fe_now fe)) with
  | Some correction =>
      set_videoStartClock d
        (compare_exchange_add (fe_startClock_stores fe)
           (m_videoStartClock d) correction)
  | None => d
  end.

(** Lines 281-284. The divisor is an [int] product. *)
Definition frame_clock (f : AVFrame) (original_buffer_size : Z) : float :=
  PrimFloat.div
    (CDouble.of_Z original_buffer_size)
    (CDouble.of_Z
       (CInt.mul32 (CInt.mul32 (channels f) (sample_rate f))
                   (av_get_bytes_per_sample (format f)))).

(** Lines 278-290: the increment of [m_audioPTS] after [WriteAudio]
    answered [written], if there is one. *)
Definition pts_advance (f : AVFrame) (original_buffer_size : Z)
    (written : bool) : option float :=
  if negb written && negb (sample_rate f =? 0)
  then Some (frame_clock f original_buffer_size)
  else None.

Inductive FrameOutcome :=
| FrameNext          (* on to the next avcodec_receive_frame *)
| FrameBreak         (* break out of the while loop *)
| FrameReturnFalse   (* return false *)
| FrameAbort         (* a failed assert *)
| FrameUndefined     (* division by zero *)
| FrameThrow.        (* std::length_error leaves handleAudioPacket *)

(** Lines 271-291. *)
Definition deliver (d : Decoder) (fe : FrameEnv)
    (write_data : WriteData) (write_size original_buffer_size : Z)
  : FrameOutcome * Decoder * list Event :=
  if 0 <? write_size then
    if fe_interruption_requested fe then (FrameReturnFalse, d, [])
    else
      let d :=
        match pts_advance (fe_frame fe) original_buffer_size
                (fe_write_audio fe) with
        | Some frame_clock =>
            set_audioPTS d
              (compare_exchange_add (fe_audioPTS_stores fe)
                 (m_audioPTS d) frame_clock)
        | None => d
        end in
      (FrameNext, d, [EvWriteAudio write_data write_size])
  else (FrameNext, d, []).

(** Lines 175-291: the body of the while loop. *)
Definition handle_frame (NDEBUG : bool) (d : Decoder) (resampleBuffer : Z)
    (fe : FrameEnv) : FrameOutcome * Decoder * Z * list Event :=
  let f := fe_frame fe in
  if nb_samples f <=? 0 then (FrameNext, d, resampleBuffer, []) else
  let original_buffer_size :=
    av_samples_get_buffer_size (channels f) (nb_samples f) (format f) in
  let '(d, ev_ctx) := update_swr_context d fe in
  match resample NDEBUG d resampleBuffer fe original_buffer_size with
  | (DivisionByZero, ev) =>
      (FrameUndefined, d, resampleBuffer, ev_ctx ++ ev)
  | (LengthError, ev) =>
      (FrameThrow, d, resampleBuffer, ev_ctx ++ ev)
  | (AssertAbort d resampleBuffer, ev) =>
      (FrameAbort, d, resampleBuffer, ev_ctx ++ ev)
  | (ConvertFailed d resampleBuffer, ev) =>
      (FrameBreak, d, resampleBuffer, ev_ctx ++ ev)
  | (Ready d resampleBuffer write_data write_size, ev) =>
      let d := audio_sync d fe in
      let '(o, d, ev_out) :=
        deliver d fe write_data write_size original_buffer_size in
      (o, d, resampleBuffer, ev_ctx ++ ev ++ ev_out)
  end.

(** What a call of [handleAudioPacket] comes to. *)
Inductive HandleResult :=
| Returned (handled : bool)
| Aborted
| Undefined
| Threw.            (* left by an exception *)

(** Lines 173-292: [while (avcodec_receive_frame(...) == 0)]. *)
Fixpoint handle_frames (NDEBUG : bool) (d : Decoder) (resampleBuffer : Z)
    (frames : list FrameEnv) : HandleResult * Decoder * Z * list Event :=
  match frames with
  | [] => (Returned true, d, resampleBuffer, [EvReceiveFrame false])
  | fe :: frames =>
      let '(o, d, resampleBuffer, ev) :=
        handle_frame NDEBUG d resampleBuffer fe in
      let ev := EvReceiveFrame true :: ev in
      match o with
      | FrameNext =>
          let '(r, d, resampleBuffer, ev') :=
            handle_frames NDEBUG d resampleBuffer frames in
          (r, d, resampleBuffer, ev ++ ev')
      | FrameBreak => (Returned true, d, resampleBuffer, ev)
      | FrameReturnFalse => (Returned false, d, resampleBuffer, ev)
      | FrameAbort => (Aborted, d, resampleBuffer, ev)
      | FrameUndefined => (Undefined, d, resampleBuffer, ev)
      | FrameThrow => (Threw, d, resampleBuffer, ev)
      end
  end.

(** Lines 153-171: the switch to the packet's stream, if it is another
    one, and [avcodec_send_packet]. The flag tells whether the code goes
    on to the while loop; otherwise [handleAudioPacket] returns false. *)
Definition submit_packet (d : Decoder) (packet : AVPacket) (he : HandleEnv)
  : bool * Decoder * list Event :=
  let switch := negb (stream_index packet =? index (m_audioStream d)) in
  let d :=
    if switch
    then set_audioStream d (m_formatContext_streams d (stream_index packet))
    else d in
  let ev_switch :=
    if switch then
      [EvCodecClose; EvParametersToContext (stream_index packet)]
        ++ (if he_parameters_to_context he <? 0 then [] else
              EvFindDecoder
                :: (if he_find_decoder he then [EvCodecOpen] else []))
    else [] in
  if switch
     && ((he_parameters_to_context he <? 0)
         || negb (he_find_decoder he)
         || (he_open2 he <? 0))
  then (false, d, ev_switch)
  else if he_send_packet he <? 0
  then (false, d, ev_switch ++ [EvSendPacket packet])
  else (true, d, ev_switch ++ [EvSendPacket packet]).

(** Lines 149-295. *)
Definition handleAudioPacket (NDEBUG : bool) (d : Decoder)
    (packet : AVPacket) (resampleBuffer : Z) (he : HandleEnv)
  : HandleResult * Decoder * Z * list Event :=
  let '(submitted, d, ev) := submit_packet d packet he in
  if submitted then
    let '(r, d, resampleBuffer, ev') :=
      handle_frames NDEBUG d resampleBuffer (he_frames he) in
    (r, d, resampleBuffer, ev ++ ev')
  else (Returned false, d, resampleBuffer, ev).

End WithAVUtil.

(* ================================================================== *)
(** ** audioParseRunnable *)

(** The locals of [audioParseRunnable]. *)
Record Locals := {
  packet : AVPacket;
  initialized : bool;
  handlePacketPostponed : bool;
  resampleBuffer : Z
}.

Definition set_packet (l : Locals) (p : AVPacket) : Locals :=
  {| packet := p;
     initialized := initialized l;
     handlePacketPostponed := handlePacketPostponed l;
     resampleBuffer := resampleBuffer l |}.

Definition set_initialized (l : Locals) (b : bool) : Locals :=
  {| packet := packet l;
     initialized := b;
     handlePacketPostponed := handlePacketPostponed l;
     resampleBuffer := resampleBuffer l |}.

Definition set_handlePacketPostponed (l : Locals) (b : bool) : Locals :=
  {| packet := packet l;
     initialized := initialized l;
     handlePacketPostponed := b;
     resampleBuffer := resampleBuffer l |}.

Definition set_resampleBuffer (l : Locals) (n : Z) : Locals :=
  {| packet := packet l;
     initialized := initialized l;
     handlePacketPostponed := handlePacketPostponed l;
     resampleBuffer := n |}.

(** [av_packet_unref] leaves a blank packet behind. *)
Definition blank_packet : AVPacket :=
  {| stream_index := 0; pts := AV_NOPTS_VALUE; size := 0 |}.

Definition av_packet_unref (l : Locals) : Locals * list Event :=
  (set_packet l blank_packet, [EvUnref (packet l)]).

(** [packet] is indeterminate until the first pop and is not read before
    it; the vector starts empty. *)
Definition initial_locals : Locals :=
  {| packet := blank_packet;
     initialized := false;
     handlePacketPostponed := false;
     resampleBuffer := 0 |}.

(** Answers during one turn of the inner loop (lines 84-132). Each read
    of [m_isPaused] and [m_isAudioSeekingWhilePaused] has an answer of
    its own: other threads write them at any time. *)
Record PopEnv := {
  pe_pop : option AVPacket;      (* None: pop returned false *)
  pe_seeking_108 : bool;
  pe_handle : HandleEnv;
  pe_isPaused_128 : bool;
  pe_seeking_128 : bool
}.

Inductive WaitOutcome :=
| WaitResumed        (* m_isPaused was seen false *)
| WaitInterrupted    (* the wait threw boost::thread_interrupted *)
| WaitForever.

(** Answers during one pass of the outer loop (lines 47-136). *)
Record PassEnv := {
  pa_isPaused_49 : bool;
  pa_seeking_49 : bool;
  pa_interrupted_57 : bool;
  pa_wait : WaitOutcome;
  pa_seeking_67 : bool;
  pa_seeking_76 : bool;
  pa_postponed : HandleEnv;
  pa_pops : list PopEnv;
  pa_interrupted_135 : bool
}.

Inductive InnerOutcome :=
| InnerBreak
| InnerReturn       (* line 102 *)
| InnerAbort
| InnerUndefined
| InnerBlocked      (* the script is over: pop does not return *)
| InnerThrow.       (* handleAudioPacket threw at line 125 *)

Inductive TurnOutcome :=
| TurnAgain
| TurnStop (o : InnerOutcome).

Section ThreadWithAVUtil.

Context {lib : AVUtil}.

(** Lines 117-131, with [packet] freshly popped. *)
Definition handle_popped (NDEBUG : bool) (d : Decoder) (l : Locals)
    (pe : PopEnv) : TurnOutcome * Decoder * Locals * list Event :=
  let l := set_initialized l true in
  if size (packet l) =? 0 then
    (TurnStop InnerBreak, d, l, [EvLogPacketSizeZero])
  else
    let '(r, d, rb, ev) :=
      handleAudioPacket NDEBUG d (packet l) (resampleBuffer l) (pe_handle pe) in
    let l := set_resampleBuffer l rb in
    match r with
    | Aborted => (TurnStop InnerAbort, d, l, ev)
    | Undefined => (TurnStop InnerUndefined, d, l, ev)
    | Threw => (TurnStop InnerThrow, d, l, ev)
    | Returned handled =>
        let '(l, ev_unref) := av_packet_unref l in
        if negb handled || (pe_isPaused_128 pe && negb (pe_seeking_128 pe))
        then (TurnStop InnerBreak, d, l, ev ++ ev_unref)
        else (TurnAgain, d, l, ev ++ ev_unref)
    end.

(** Modelled from the spec: [FFmpegDecoder::AppendFrameClock] is not in
    this file. Of [AppendFrameClock(0)] the model keeps the notification
    of the clock listeners, with the audio clock it is issued at. *)
Definition AppendFrameClock_0 (d : Decoder) : list Event :=
  [EvAppendFrameClock (m_audioPTS d)].

(** Lines 92-115, with [packet] freshly popped: the first packet sets the
    audio clock. [None] when the code goes on to line 117. *)
Definition establish_baseline (NDEBUG : bool) (d : Decoder) (l : Locals)
    (pe : PopEnv) : option TurnOutcome * Decoder * Locals * list Event :=
  if negb (initialized l) then
    if negb (pts (packet l) =? AV_NOPTS_VALUE) then
      let pts :=
        PrimFloat.mul (av_q2d (time_base (m_audioStream d)))
                      (CDouble.of_Z (pts (packet l))) in
      let d := set_audioPTS d pts in
      let ev := AppendFrameClock_0 d in
      if pe_seeking_108 pe then
        (Some (TurnStop InnerBreak), d, set_handlePacketPostponed l true,
         ev ++ [EvSeekingWhilePausedCleared])
      else (None, d, l, ev)
    else if NDEBUG then (Some (TurnStop InnerReturn), d, l, [])
    else (Some (TurnStop InnerAbort), d, l, [EvAssertFailed])
  else (None, d, l, []).

(** Lines 92-131: one turn of the inner loop after a successful pop. *)
Definition turn_with_packet (NDEBUG : bool) (d : Decoder) (l : Locals)
    (pe : PopEnv) : TurnOutcome * Decoder * Locals * list Event :=
  match establish_baseline NDEBUG d l pe with
  | (Some o, d, l, ev) => (o, d, l, ev)
  | (None, d, l, ev) =>
      let '(o, d, l, ev') := handle_popped NDEBUG d l pe in
      (o, d, l, ev ++ ev')
  end.

(** Lines 84-132. *)
Fixpoint inner_loop (NDEBUG : bool) (d : Decoder) (l : Locals)
    (pops : list PopEnv) : InnerOutcome * Decoder * Locals * list Event :=
  match pops with
  | [] => (InnerBlocked, d, l, [])
  | pe :: pops =>
      match pe_pop pe with
      | None => (InnerBreak, d, l, [EvPop None])
      | Some p =>
          let '(o, d, l, ev) :=
            turn_with_packet NDEBUG d (set_packet l p) pe in
          let ev := EvPop (Some p) :: ev in
          match o with
          | TurnStop o => (o, d, l, ev)
          | TurnAgain =>
              let '(o, d, l, ev') := inner_loop NDEBUG d l pops in
              (o, d, l, ev ++ ev')
          end
      end
  end.

Inductive PassOutcome :=
| PassAgain            (* continue, or the end of the body *)
| PassReturn
| PassInterrupted      (* an exception is thrown: boost::thread_interrupted
                          at an interruption point, or what
                          handleAudioPacket threw *)
| PassAbort
| PassUndefined
| PassBlocked.

(** Lines 73-82. *)
Definition handle_postponed (NDEBUG : bool) (d : Decoder) (l : Locals)
    (pa : PassEnv) : option PassOutcome * Decoder * Locals * list Event :=
  if handlePacketPostponed l then
    let l := set_handlePacketPostponed l false in
    let '(r, d, rb, ev) :=
      if negb (pa_seeking_76 pa) then
        handleAudioPacket NDEBUG d (packet l) (resampleBuffer l)
                          (pa_postponed pa)
      else (Returned true, d, resampleBuffer l, []) in
    let l := set_resampleBuffer l rb in
    match r with
    | Aborted => (Some PassAbort, d, l, ev)
    | Undefined => (Some PassUndefined, d, l, ev)
    | Threw => (Some PassInterrupted, d, l, ev)
    | Returned _ =>
        let '(l, ev_unref) := av_packet_unref l in
        (None, d, l, ev ++ ev_unref)
    end
  else (None, d, l, []).

(** Lines 49-135: the body of the outer loop. *)
Definition pass (NDEBUG : bool) (d : Decoder) (l : Locals) (pa : PassEnv)
  : PassOutcome * Decoder * Locals * list Event :=
  if pa_isPaused_49 pa && negb (pa_seeking_49 pa) then
    let ev := if m_audioPaused d then [] else [EvWaveOutPause] in
    let d := set_audioPaused d true in
    if pa_interrupted_57 pa then (PassInterrupted, d, l, ev)
    else match pa_wait pa with
         | WaitResumed => (PassAgain, d, l, ev)
         | WaitInterrupted => (PassInterrupted, d, l, ev)
         | WaitForever => (PassBlocked, d, l, ev)
         end
  else
    let '(d, ev_restart) :=
      if m_audioPaused d && negb (pa_seeking_67 pa)
      then (set_audioPaused d false, [EvWaveOutRestart])
      else (d, []) in
    match handle_postponed NDEBUG d l pa with
    | (Some o, d, l, ev) => (o, d, l, ev_restart ++ ev)
    | (None, d, l, ev_post) =>
        let '(o, d, l, ev_inner) := inner_loop NDEBUG d l (pa_pops pa) in
        let ev := ev_restart ++ ev_post ++ ev_inner in
        match o with
        | InnerBreak =>
            if pa_interrupted_135 pa then (PassInterrupted, d, l, ev)
            else (PassAgain, d, l, ev)
        | InnerReturn => (PassReturn, d, l, ev)
        | InnerAbort => (PassAbort, d, l, ev)
        | InnerUndefined => (PassUndefined, d, l, ev)
        | InnerBlocked => (PassBlocked, d, l, ev)
        | InnerThrow => (PassInterrupted, d, l, ev)
        end
    end.

(** How the thread is found when the script is over. *)
Inductive ThreadOutcome :=
| ThreadReturned        (* return at line 102 *)
| ThreadInterrupted     (* the exception left the function *)
| ThreadAborted
| ThreadUndefined
| ThreadRunning.        (* still looping, or blocked in a wait *)

(** Lines 138-146, then the scope guard. *)
Definition catch_all (l : Locals) : Locals * list Event :=
  let '(l, ev) :=
    if handlePacketPostponed l then av_packet_unref l else (l, []) in
  (l, ev ++ [EvLogInterrupted; EvDeinitializeThread]).

(** Lines 47-137: [for (;;)] inside [try]. *)
Fixpoint run_passes (NDEBUG : bool) (d : Decoder) (l : Locals)
    (script : list PassEnv) : ThreadOutcome * Decoder * Locals * list Event :=
  match script with
  | [] => (ThreadRunning, d, l, [])
  | pa :: script =>
      let '(o, d, l, ev) := pass NDEBUG d l pa in
      match o with
      | PassAgain =>
          let '(o, d, l, ev') := run_passes NDEBUG d l script in
          (o, d, l, ev ++ ev')
      | PassReturn => (ThreadReturned, d, l, ev ++ [EvDeinitializeThread])
      | PassInterrupted =>
          let '(l, ev') := catch_all l in
          (ThreadInterrupted, d, l, ev ++ ev')
      | PassAbort => (ThreadAborted, d, l, ev)
      | PassUndefined => (ThreadUndefined, d, l, ev)
      | PassBlocked => (ThreadRunning, d, l, ev)
      end
  end.

Definition audioParseRunnable (NDEBUG : bool) (d : Decoder)
    (script : list PassEnv) : ThreadOutcome * Decoder * Locals * list Event :=
  let '(o, d, l, ev) := run_passes NDEBUG d initial_locals script in
  (o, d, l, EvInitializeThread :: ev).

End ThreadWithAVUtil.

(* ================================================================== *)
(** ** The capacity formula in the words of the specification *)

Definition ceil_div (a b : Z) : Z := - ((- a) / b).

(** [ceil(sourceSampleCount * targetRate / sourceRate) + FIXED_HEADROOM]. *)
Definition spec_capacity (sourceSampleCount targetRate sourceRate : Z) : Z :=
  ceil_div (sourceSampleCount * targetRate) sourceRate + 256.

(* ================================================================== *)
(** ** A sample libavutil, for running the code on concrete frames *)

Module Sample.

(** AV_SAMPLE_FMT_U8 .. AV_SAMPLE_FMT_S64P are 0 .. 11. *)
Definition bytes_per_sample (fmt : Z) : Z :=
  match fmt with
  | 0 | 5 => 1
  | 1 | 6 => 2
  | 2 | 3 | 7 | 8 => 4
  | 4 | 9 | 10 | 11 => 8
  | _ => 0
  end.

Definition AVERROR_EINVAL : Z := -22.

Definition samples_get_buffer_size (nb_channels nb_samples fmt : Z) : Z :=
  let sample_size := bytes_per_sample fmt in
  if (sample_size =? 0) || (nb_samples <=? 0) || (nb_channels <=? 0)
  then AVERROR_EINVAL
  else if Z.quot (CInt.INT_MAX - nb_channels) sample_size
          <? nb_channels * nb_samples
  then AVERROR_EINVAL
  else nb_samples * sample_size * nb_channels.

Fixpoint popcount (p : positive) : Z :=
  match p with
  | xH => 1
  | xO p => popcount p
  | xI p => 1 + popcount p
  end.

Definition layout_nb_channels (layout : Z) : Z :=
  match layout with
  | Zpos p => popcount p
  | _ => 0
  end.

(** AV_CH_LAYOUT_MONO is 4, AV_CH_LAYOUT_STEREO is 3. *)
Definition default_channel_layout (nb_channels : Z) : Z :=
  match nb_channels with
  | 1 => 4
  | 2 => 3
  | _ => 0
  end.

Definition libavutil : AVUtil :=
  {| av_get_bytes_per_sample := bytes_per_sample;
     av_samples_get_buffer_size := samples_get_buffer_size;
     av_get_channel_layout_nb_channels := layout_nb_channels;
     av_get_default_channel_layout := default_channel_layout |}.

Definition AV_SAMPLE_FMT_S16 : Z := 1.
Definition AV_SAMPLE_FMT_FLT : Z := 3.
Definition AV_CH_LAYOUT_STEREO : Z := 3.

(** The sink's format: 44100 Hz, stereo, signed 16 bit. *)
Definition settings : AudioParams :=
  {| ap_frequency := 44100;
     ap_channels := 2;
     ap_channel_layout := AV_CH_LAYOUT_STEREO;
     ap_format := AV_SAMPLE_FMT_S16 |}.

Definition stream (i : Z) : AVStream :=
  {| index := i; time_base := {| num := 1; den := 44100 |} |}.

(** A decoder playing stream 0 whose cached source format is [pref] and
    whose swr context is [ctx]. *)
Definition decoder (ctx : option SwrContext) (pref : AudioParams)
  : Decoder :=
  {| m_formatContext_streams := stream;
     m_audioStream := stream 0;
     m_audioSwrContext := ctx;
     m_audioSettings := settings;
     m_audioCurrentPref := pref;
     m_videoStartClock := 0%float;
     m_audioPTS := 0%float;
     m_audioPaused := false |}.

(** A stereo frame of [n] samples at [rate] Hz in format [fmt]. *)
Definition frame (n rate fmt : Z) : AVFrame :=
  {| nb_samples := n;
     format := fmt;
     channels := 2;
     channel_layout := AV_CH_LAYOUT_STEREO;
     sample_rate := rate;
     extended_data := None;
     data := [4096] |}.

Definition params_of (rate fmt : Z) : AudioParams :=
  {| ap_frequency := rate;
     ap_channels := 2;
     ap_channel_layout := AV_CH_LAYOUT_STEREO;
     ap_format := fmt |}.

Definition context_of (rate fmt : Z) (init : bool) : SwrContext :=
  {| swr_in_layout := AV_CH_LAYOUT_STEREO;
     swr_in_format := fmt;
     swr_in_rate := rate;
     swr_initialized := init |}.

(** Answers around a frame: the resampler allocates ([alloc]),
    initialises ([init]), converts ([converted]); the sink answers
    [written]; nobody interrupts unless [interrupt]. *)
Definition frame_env (f : AVFrame) (alloc : bool) (init converted : Z)
    (interrupt written : bool) : FrameEnv :=
  {| fe_frame := f;
     fe_swr_alloc := alloc;
     fe_swr_init := init;
     fe_swr_convert := converted;
     fe_swr_reinit := 0;
     fe_now := 0%float;
     fe_startClock_stores := [];
     fe_interruption_requested := interrupt;
     fe_write_audio := written;
     fe_audioPTS_stores := [] |}.

Definition handle_env (frames : list FrameEnv) : HandleEnv :=
  {| he_parameters_to_context := 0;
     he_find_decoder := true;
     he_open2 := 0;
     he_send_packet := 0;
     he_frames := frames |}.

Definition packet_of (stream pts size : Z) : AVPacket :=
  {| stream_index := stream; pts := pts; size := size |}.

(** The queue answers [p]; nobody is pausing or seeking. *)
Definition pop_env (p : option AVPacket) (he : HandleEnv) : PopEnv :=
  {| pe_pop := p;
     pe_seeking_108 := false;
     pe_handle := he;
     pe_isPaused_128 := false;
     pe_seeking_128 := false |}.

(** A pass of the running thread over [pops]; an interruption is pending
    at the end of the pass if [interrupted]. *)
Definition pass_env (pops : list PopEnv) (interrupted : bool) : PassEnv :=
  {| pa_isPaused_49 := false;
     pa_seeking_49 := false;
     pa_interrupted_57 := false;
     pa_wait := WaitResumed;
     pa_seeking_67 := false;
     pa_seeking_76 := false;
     pa_postponed := handle_env [];
     pa_pops := pops;
     pa_interrupted_135 := interrupted |}.

(** The locals once a first packet has been seen. *)
Definition running_locals : Locals :=
  {| packet := blank_packet;
     initialized := true;
     handlePacketPostponed := false;
     resampleBuffer := 0 |}.

End Sample.

(* ================================================================== *)
(** ** Observations on results and traces *)

(** The scratch buffer a call of [resample] leaves behind. *)
Definition scratch_after (r : Resampled) (before : Z) : Z :=
  match r with
  | Ready _ rb _ _ | ConvertFailed _ rb | AssertAbort _ rb => rb
  | DivisionByZero | LengthError => before
  end.

(** Is the event a delivery to the sink? *)
Definition is_write (e : Event) : bool :=
  match e with EvWriteAudio _ _ => true | _ => false end.

(** Is it a delivery of the decoded frame's own bytes? *)
Definition is_raw_write (e : Event) : bool :=
  match e with EvWriteAudio (FrameData _) _ => true | _ => false end.

(** Is it the construction of a conversion context? *)
Definition is_rebuild (e : Event) : bool :=
  match e with EvSwrAlloc _ _ _ => true | _ => false end.

(** How many conversion contexts a trace builds. *)
Definition rebuilds (ev : list Event) : nat :=
  length (filter is_rebuild ev).

(** The format signature of a frame, and the cached one. *)
Definition signature {lib : AVUtil} (f : AVFrame) : Z * Z * Z :=
  (format f, getChannelLayout f, sample_rate f).

Definition cached_signature (d : Decoder) : Z * Z * Z :=
  (ap_format (m_audioCurrentPref d),
   ap_channel_layout (m_audioCurrentPref d),
   ap_frequency (m_audioCurrentPref d)).

(** [original_buffer_size] of line 183. *)
Definition original_buffer_size {lib : AVUtil} (f : AVFrame) : Z :=
  av_samples_get_buffer_size (channels f) (nb_samples f) (format f).

(** Frames of one signature [s], each with samples. *)
Definition uniform {lib : AVUtil} (s : Z * Z * Z) (frames : list FrameEnv)
  : Prop :=
  Forall (fun fe => signature (fe_frame fe) = s
                    /\ 0 < nb_samples (fe_frame fe)) frames.

(** The frames [pre] have all been processed to the end of the loop
    body: the decoder, the scratch buffer and the trace after them. *)
Fixpoint frames_drained {lib : AVUtil} (NDEBUG : bool) (d : Decoder)
    (rb : Z) (pre : list FrameEnv) : option (Decoder * Z * list Event) :=
  match pre with
  | [] => Some (d, rb, [])
  | fe :: pre =>
      let '(o, d, rb, ev) := handle_frame NDEBUG d rb fe in
      match o with
      | FrameNext =>
          match frames_drained NDEBUG d rb pre with
          | Some (d', rb', ev') =>
              Some (d', rb', (EvReceiveFrame true :: ev) ++ ev')
          | None => None
          end
      | _ => None
      end
  end.


Definition packet_eqb (p q : AVPacket) : bool :=
  (stream_index p =? stream_index q) && (pts p =? pts q)
  && (size p =? size q).

Fixpoint remove_one (p : AVPacket) (held : list AVPacket) : list AVPacket :=
  match held with
  | [] => []
  | q :: held => if packet_eqb p q then held else q :: remove_one p held
  end.

(** The packets a trace has popped and not released, oldest first. *)
Fixpoint unreleased (ev : list Event) (held : list AVPacket)
  : list AVPacket :=
  match ev with
  | [] => held
  | EvPop (Some p) :: ev => unreleased ev (held ++ [p])
  | EvUnref p :: ev => unreleased ev (remove_one p held)
  | _ :: ev => unreleased ev held
  end.




(** The locals after the packet [p] has been popped, given to
    [handleAudioPacket] and released, [rb] being the scratch buffer the
    call left. *)
Definition after_packet (l : Locals) (p : AVPacket) (rb : Z) : Locals :=
  set_packet
    (set_resampleBuffer (set_initialized (set_packet l p) true) rb)
    blank_packet.

(* ================================================================== *)
(** ** Monitors of traces *)

(** The events [handleAudioPacket] gives rise to. *)
Definition is_decode_event (e : Event) : bool :=
  match e with
  | EvCodecClose | EvParametersToContext _ | EvFindDecoder | EvCodecOpen
  | EvSendPacket _ | EvReceiveFrame _
  | EvSwrFree | EvSwrAlloc _ _ _ | EvSwrInit | EvLogSwrInitError
  | EvSwrConvert _ _ | EvLogSwrConvertFailed | EvLogBufferTooSmall
  | EvWriteAudio _ _ | EvAssertFailed => true
  | _ => false
  end.

(** The events of the inner loop itself and of the release of a
    postponed packet. *)
Definition is_loop_event (e : Event) : bool :=
  match e with
  | EvPop _ | EvUnref _
  | EvAppendFrameClock _ | EvSeekingWhilePausedCleared
  | EvAssertFailed | EvLogPacketSizeZero => true
  | _ => false
  end.

Definition is_pause_event (e : Event) : bool :=
  match e with EvWaveOutPause | EvWaveOutRestart => true | _ => false end.

Definition is_lifecycle_event (e : Event) : bool :=
  match e with
  | EvInitializeThread | EvDeinitializeThread => true
  | _ => false
  end.

Definition is_receive (e : Event) : bool :=
  match e with EvReceiveFrame _ => true | _ => false end.

Definition is_deinitialize (e : Event) : bool :=
  match e with EvDeinitializeThread => true | _ => false end.

Definition is_initialize (e : Event) : bool :=
  match e with EvInitializeThread => true | _ => false end.

(** A delivery of at least one byte, or no delivery at all. *)
Definition writes_something (e : Event) : bool :=
  match e with EvWriteAudio _ n => 0 <? n | _ => true end.

(** A delivery from the scratch buffer, or no delivery at all. *)
Definition writes_converted (e : Event) : bool :=
  match e with EvWriteAudio ResampleOut _ => true
             | EvWriteAudio _ _ => false
             | _ => true end.

(** Runs a trace through an automaton that may refuse an event. *)
Fixpoint monitor {S : Type} (step : S -> Event -> option S) (s : S)
    (ev : list Event) : option S :=
  match ev with
  | [] => Some s
  | e :: ev =>
      match step s e with
      | Some s' => monitor step s' ev
      | None => None
      end
  end.

(** The sink's output is paused only while it runs and restarted only
    while it is paused. The state tells whether it is paused. *)
Definition sink_pause_step (paused : bool) (e : Event) : option bool :=
  match e with
  | EvWaveOutPause => if paused then None else Some true
  | EvWaveOutRestart => if paused then Some false else None
  | _ => Some paused
  end.

(** [av_packet_unref] is called on the packet in hand and on nothing
    else. The state is the packet popped last and not released since. *)
Definition release_step (held : option AVPacket) (e : Event)
  : option (option AVPacket) :=
  match e with
  | EvPop (Some p) => Some (Some p)
  | EvUnref p =>
      match held with
      | Some q => if packet_eqb p q then Some None else None
      | None => None
      end
  | _ => Some held
  end.

(** Has the frame any samples (line 175)? *)
Definition has_samples (fe : FrameEnv) : bool :=
  0 <? nb_samples (fe_frame fe).

(** The frames [avcodec_receive_frame] is called for, out of those the
    decoder holds: all up to the first that ends the loop. *)
Definition without_receives (ev : list Event) : list Event :=
  filter (fun e => negb (is_receive e)) ev.

(** Left the function: by [return] or by the exception. *)
Definition left_function (o : ThreadOutcome) : bool :=
  match o with
  | ThreadReturned | ThreadInterrupted => true
  | _ => false
  end.

(** What no part of this file writes to: the target format, the table of
    streams and, inside [handleAudioPacket], the flag of the paused
    sink. *)
Definition same_setup (d d' : Decoder) : Prop :=
  m_audioSettings d' = m_audioSettings d
  /\ m_formatContext_streams d' = m_formatContext_streams d
  /\ m_audioPaused d' = m_audioPaused d.


(* ================================================================== *)
(** * Properties *)

(** ** Machine arithmetic *)

Lemma int32_small (z : Z) : CInt.in_int z -> CInt.int32 z = z.
Proof.
  unfold CInt.in_int, CInt.INT_MIN, CInt.INT_MAX, CInt.int32, CInt.wrap.
  intros Hz. change (2 ^ (32 - 1)) with 2147483648.
  change (2 ^ 32) with 4294967296. change (2 ^ 31) with 2147483648 in Hz.
  rewrite Z.mod_small by lia. lia.
Qed.

Lemma mul32_small (a b : Z) : CInt.in_int (a * b) -> CInt.mul32 a b = a * b.
Proof. apply int32_small. Qed.

Lemma to_size_t_small (z : Z) : 0 <= z < 2 ^ 64 -> CInt.to_size_t z = z.
Proof. intros Hz. unfold CInt.to_size_t. now apply Z.mod_small. Qed.

Lemma in_int_size_t (z : Z) : 0 <= z -> CInt.in_int z -> 0 <= z < 2 ^ 64.
Proof.
  unfold CInt.in_int, CInt.INT_MAX. change (2 ^ 31) with 2147483648.
  change (2 ^ 64) with 18446744073709551616. lia.
Qed.

Lemma resize_if_smaller_some (n m r : Z) :
  resize_if_smaller n m = Some r -> r = Z.max n m.
Proof.
  unfold resize_if_smaller.
  destruct (Z.ltb_spec n m); try destruct (Z.ltb_spec vector_max_size m);
    try discriminate; intros [= <-]; lia.
Qed.

Lemma resize_if_smaller_max (n m : Z) :
  m <= vector_max_size -> resize_if_smaller n m = Some (Z.max n m).
Proof.
  intros Hm. unfold resize_if_smaller.
  destruct (Z.ltb_spec n m); try destruct (Z.ltb_spec vector_max_size m);
    try lia; f_equal; lia.
Qed.

Lemma int_below_vector_max_size (z : Z) :
  CInt.in_int z -> z <= vector_max_size.
Proof.
  unfold CInt.in_int, CInt.INT_MAX, vector_max_size.
  change (2 ^ 31) with 2147483648. change (2 ^ 63) with 9223372036854775808.
  lia.
Qed.

Section Resampling.

Context {lib : AVUtil}.

(** Whenever a context exists, the frame's rate is not zero and the
    buffer's size is one a vector can have, the resampler is asked for
    [out_count] samples and the scratch buffer has been grown to
    [buffer_size] bytes, whatever the conversion answers. *)
Lemma resample_with_context NDEBUG d rb fe obs ctx :
  m_audioSwrContext d = Some ctx ->
  sample_rate (fe_frame fe) <> 0 ->
  buffer_size d (fe_frame fe) <= vector_max_size ->
  let '(r, ev) := resample NDEBUG d rb fe obs in
  hd_error ev
    = Some (EvSwrConvert (out_count d (fe_frame fe)) (nb_samples (fe_frame fe)))
  /\ scratch_after r rb = Z.max rb (buffer_size d (fe_frame fe)).
Proof.
  intros Hctx Hrate Hsize. unfold resample. rewrite Hctx.
  destruct (Z.eqb_spec (sample_rate (fe_frame fe)) 0) as [E|_];
    [contradiction|].
  rewrite (resize_if_smaller_max _ _ Hsize).
  destruct (fe_swr_convert fe <? 0); [now split|].
  destruct (fe_swr_convert fe =? out_count d (fe_frame fe));
    match goal with
    | |- context [write_size_assertion ?a ?b || NDEBUG] =>
        destruct (write_size_assertion a b || NDEBUG)
    end; now split.
Qed.

(** Without wrap-around the capacity is the truncated quotient plus 256. *)
Lemma out_count_floor d f :
  0 <= nb_samples f -> 0 <= ap_frequency (m_audioSettings d) ->
  0 < sample_rate f ->
  nb_samples f * ap_frequency (m_audioSettings d) / sample_rate f + 256
    <= CInt.INT_MAX ->
  out_count d f
  = nb_samples f * ap_frequency (m_audioSettings d) / sample_rate f + 256.
Proof.
  intros Hn Hf Hr Hmax. unfold out_count, EXTRA_SPACE.
  rewrite Z.quot_div_nonneg by nia.
  apply int32_small. split; [|exact Hmax].
  assert (0 <= nb_samples f * ap_frequency (m_audioSettings d) / sample_rate f)
    by (apply Z.div_pos; nia).
  unfold CInt.INT_MIN. change (2 ^ 31) with 2147483648. lia.
Qed.

End Resampling.

(** C2, as stated, fails: for one sample converted from 44100 Hz to
    48000 Hz the code asks for 1 + 256 samples, the ceiling formula of the
    specification gives 2 + 256. *)
Lemma C2_capacity_is_not_the_ceiling :
  let d :=
    {| m_formatContext_streams := Sample.stream;
       m_audioStream := Sample.stream 0;
       m_audioSwrContext := Some (Sample.context_of 44100 1 true);
       m_audioSettings := Sample.params_of 48000 1;
       m_audioCurrentPref := Sample.params_of 44100 1;
       m_videoStartClock := 0%float;
       m_audioPTS := 0%float;
       m_audioPaused := false |} in
  let f := Sample.frame 1 44100 1 in
  let fe := Sample.frame_env f true 0 1 false true in
  @out_count d f = 257
  /\ spec_capacity (nb_samples f) (ap_frequency (m_audioSettings d))
                   (sample_rate f) = 258
  /\ hd_error (snd (@resample Sample.libavutil true d 0 fe 4))
     = Some (EvSwrConvert 257 1).
Proof. vm_compute. repeat split. Qed.

(** C2, amended: with a context in place, a frame of positive rate and
    sample count, and no wrap-around, the capacity asked of the resampler
    is the quotient rounded down plus 256, [buffer_size] is that capacity
    times target channels times bytes per target sample, and the scratch
    buffer ends as the larger of its old size and [buffer_size]. *)
Theorem C2_capacity_rounds_down
    {lib : AVUtil} NDEBUG d rb fe obs ctx :
  let f := fe_frame fe in
  let target := m_audioSettings d in
  let capacity := nb_samples f * ap_frequency target / sample_rate f + 256 in
  let multiplier :=
    ap_channels target * av_get_bytes_per_sample (ap_format target) in
  m_audioSwrContext d = Some ctx ->
  0 < nb_samples f -> 0 < sample_rate f -> 0 <= ap_frequency target ->
  0 <= multiplier -> CInt.in_int multiplier ->
  capacity <= CInt.INT_MAX -> CInt.in_int (capacity * multiplier) ->
  out_count d f = capacity
  /\ buffer_size d f = capacity * multiplier
  /\ hd_error (snd (resample NDEBUG d rb fe obs))
     = Some (EvSwrConvert capacity (nb_samples f))
  /\ scratch_after (fst (resample NDEBUG d rb fe obs)) rb
     = Z.max rb (capacity * multiplier).
Proof.
  intros f target capacity multiplier Hctx Hn Hr Hf Hm0 Hm Hcap Hsize.
  assert (Hout : out_count d f = capacity)
    by (apply out_count_floor; fold target; fold capacity; lia).
  assert (Hmul : size_multiplier d = multiplier)
    by (unfold size_multiplier; now apply mul32_small).
  assert (Hcap0 : 0 <= capacity).
  { unfold capacity.
    assert (0 <= nb_samples f * ap_frequency target / sample_rate f)
      by (apply Z.div_pos; nia).
    lia. }
  assert (Hbuf : buffer_size d f = capacity * multiplier).
  { unfold buffer_size. fold f. rewrite Hout, Hmul.
    rewrite mul32_small by assumption.
    apply to_size_t_small, in_int_size_t; [nia | assumption]. }
  pose proof (resample_with_context NDEBUG d rb fe obs ctx Hctx) as Hres.
  fold f in Hres. rewrite Hout, Hbuf in Hres.
  destruct (resample NDEBUG d rb fe obs) as [r ev]. cbn [fst snd].
  specialize (Hres ltac:(lia) (int_below_vector_max_size _ Hsize)). tauto.
Qed.

Lemma C2_capacity_rounds_down_witness :
  let d := Sample.decoder (Some (Sample.context_of 48000 1 true))
                          (Sample.params_of 48000 1) in
  let fe := Sample.frame_env (Sample.frame 1024 48000 1) true 0 900 false true in
  @out_count d (fe_frame fe) = 1024 * 44100 / 48000 + 256
  /\ @buffer_size Sample.libavutil d (fe_frame fe)
     = (1024 * 44100 / 48000 + 256) * (2 * 2)
  /\ hd_error (snd (@resample Sample.libavutil false d 8192 fe 4096))
     = Some (EvSwrConvert (1024 * 44100 / 48000 + 256) 1024)
  /\ scratch_after (fst (@resample Sample.libavutil false d 8192 fe 4096)) 8192
     = Z.max 8192 ((1024 * 44100 / 48000 + 256) * (2 * 2)).
Proof.
  apply (@C2_capacity_rounds_down Sample.libavutil false
           (Sample.decoder (Some (Sample.context_of 48000 1 true))
                           (Sample.params_of 48000 1))
           8192
           (Sample.frame_env (Sample.frame 1024 48000 1) true 0 900 false true)
           4096 (Sample.context_of 48000 1 true)).
  all: vm_compute; try reflexivity; try (split; discriminate);
    try discriminate.
Defined.

(* ================================================================== *)
(** ** Produced bytes against the capacity of the scratch buffer *)

Section ProducedBytes.

Context {lib : AVUtil}.

(** A conversion that fills less than the capacity it was given stays
    strictly below the buffer's size: the assertion of line 257 holds. *)
Lemma write_size_below_capacity d f converted_size :
  0 <= converted_size < out_count d f ->
  0 < size_multiplier d ->
  CInt.in_int (out_count d f * size_multiplier d) ->
  write_size_assertion (converted_write_size d converted_size)
                       (buffer_size d f) = true.
Proof.
  intros Hc Hm Hin. unfold write_size_assertion, converted_write_size, buffer_size.
  assert (Hin' : CInt.in_int (converted_size * size_multiplier d)).
  { unfold CInt.in_int, CInt.INT_MIN, CInt.INT_MAX in *.
    change (2 ^ 31) with 2147483648 in *. nia. }
  rewrite !mul32_small by assumption.
  rewrite !to_size_t_small by (apply in_int_size_t; [nia | assumption]).
  apply Z.ltb_lt. nia.
Qed.

(** A conversion that returns exactly the capacity produces exactly the
    buffer's size: the assertion of line 257 is false. *)
Lemma write_size_at_capacity d f :
  0 <= out_count d f * size_multiplier d ->
  CInt.in_int (out_count d f * size_multiplier d) ->
  converted_write_size d (out_count d f) = buffer_size d f
  /\ write_size_assertion (converted_write_size d (out_count d f))
                          (buffer_size d f) = false.
Proof.
  intros H0 Hin. unfold write_size_assertion, converted_write_size, buffer_size.
  rewrite !mul32_small by assumption.
  rewrite !to_size_t_small by (apply in_int_size_t; assumption).
  split; [reflexivity | apply Z.ltb_irrefl].
Qed.

End ProducedBytes.

(** C1 at the input where the code leaves it: the resampler fills the
    whole capacity. A frame of 1024 float samples at 48000 Hz meets a
    decoder set to 44100 Hz stereo 16 bit; the capacity is 940 + 256 =
    1196 samples, the buffer 4784 bytes, and the resampler answers 1196.
    Built with assertions the code stops at its own assertion; built
    without, it hands all 4784 bytes of the 4784-byte buffer to the
    sink. *)
Theorem C1_conversion_filling_the_capacity :
  let d := Sample.decoder None Sample.settings in
  let f := Sample.frame 1024 48000 Sample.AV_SAMPLE_FMT_FLT in
  let fe := Sample.frame_env f true 0 1196 false true in
  @out_count d f = 1196
  /\ @buffer_size Sample.libavutil d f = 4784
  /\ (let '(o, _, rb, ev) := @handle_frame Sample.libavutil false d 0 fe in
      (o, rb, ev))
     = (FrameAbort, 4784,
        [EvSwrFree; EvSwrAlloc 3 3 48000; EvSwrInit;
         EvSwrConvert 1196 1024; EvLogBufferTooSmall; EvSwrInit;
         EvAssertFailed])
  /\ (let '(o, _, rb, ev) := @handle_frame Sample.libavutil true d 0 fe in
      (o, rb, ev))
     = (FrameNext, 4784,
        [EvSwrFree; EvSwrAlloc 3 3 48000; EvSwrInit;
         EvSwrConvert 1196 1024; EvLogBufferTooSmall; EvSwrInit;
         EvWriteAudio ResampleOut 4784]).
Proof. vm_compute. repeat split. Qed.

(* ================================================================== *)
(** ** Drift correction *)

Lemma SFcompare_antisym (x y : spec_float) :
  SFcompare y x = option_map CompOpp (SFcompare x y).
Proof.
  destruct x as [sx|sx| |sx mx ex], y as [sy|sy| |sy my ey]; cbn;
    try reflexivity;
    try (destruct sx; reflexivity); try (destruct sy; reflexivity);
    try (destruct sx, sy; reflexivity).
  destruct sx, sy; cbn; try reflexivity;
    rewrite (Z.compare_antisym ey ex);
    destruct (ey ?= ex)%Z; cbn; try reflexivity;
    rewrite (Pos.compare_cont_antisym mx my Eq); cbn;
    destruct (Pos.compare_cont Eq mx my); reflexivity.
Qed.

(** [x > y] excludes [x <= y]. *)
Lemma leb_not_gt_false (x y : float) :
  PrimFloat.ltb y x = true -> PrimFloat.leb x y = false.
Proof.
  rewrite FloatAxioms.leb_spec, FloatAxioms.ltb_spec.
  unfold SFleb, SFltb. rewrite (SFcompare_antisym (Prim2SF x) (Prim2SF y)).
  destruct (SFcompare (Prim2SF x) (Prim2SF y)) as [[ | | ]|];
    cbn; congruence.
Qed.

(** A [double] whose magnitude is above 0.1 is either below zero or above
    it: it is neither a zero nor a NaN. *)
Lemma beyond_band_signed (delta : float) :
  PrimFloat.ltb 0x1.999999999999ap-4 (PrimFloat.abs delta) = true ->
  PrimFloat.ltb delta 0 = negb (PrimFloat.ltb 0 delta).
Proof.
  rewrite !FloatAxioms.ltb_spec, FloatAxioms.abs_spec.
  replace (Prim2SF 0) with (S754_zero false) by reflexivity.
  replace (Prim2SF 0x1.999999999999ap-4)
    with (S754_finite false 7205759403792794 (-56)) by reflexivity.
  destruct (Prim2SF delta) as [s|s| |s m e]; cbn; try discriminate;
    destruct s; reflexivity.
Qed.

Lemma last_cons_default {A} (l : list A) (w v : A) :
  last (w :: l) v = last l w.
Proof.
  revert w v. induction l as [|a l IH]; intros w v; [reflexivity|].
  change (last (w :: a :: l) v) with (last (a :: l) v).
  now rewrite (IH a v), (IH a w).
Qed.

(** The loop without interference adds the correction to the clock; with
    interference it adds it to the last value stored by another thread. *)
Lemma compare_exchange_add_last (stores : list float) (v delta : float) :
  compare_exchange_add stores v delta = PrimFloat.add (last stores v) delta.
Proof.
  revert v. induction stores as [|w stores IH]; intros v; [reflexivity|].
  cbn [compare_exchange_add]. now rewrite IH, last_cons_default.
Qed.

(* ================================================================== *)
(** ** One decoded frame: what each stage leaves alone *)

Section FrameStages.

Context {lib : AVUtil}.

Lemma update_swr_context_fields d fe :
  let d' := fst (update_swr_context d fe) in
  m_audioPTS d' = m_audioPTS d
  /\ m_videoStartClock d' = m_videoStartClock d
  /\ m_audioSettings d' = m_audioSettings d
  /\ m_audioStream d' = m_audioStream d.
Proof.
  unfold update_swr_context.
  destruct (swr_context_required d (fe_frame fe)); [|now cbn].
  destruct (fe_swr_alloc fe); now cbn.
Qed.

Lemma update_swr_context_no_write d fe :
  filter is_write (snd (update_swr_context d fe)) = [].
Proof.
  unfold update_swr_context.
  destruct (swr_context_required d (fe_frame fe)); [|reflexivity].
  destruct (fe_swr_alloc fe); [|reflexivity].
  destruct (fe_swr_init fe <? 0); reflexivity.
Qed.

(** Runs through the branches of [resample] in a goal about it. *)
Ltac resample_cases d fe :=
  unfold resample;
  destruct (m_audioSwrContext d) as [ctx|];
  [ destruct (sample_rate (fe_frame fe) =? 0);
    [ | destruct (resize_if_smaller _ _);
        [ destruct (fe_swr_convert fe <? 0);
          [ | destruct (fe_swr_convert fe =? out_count d (fe_frame fe));
              match goal with
              | |- context [write_size_assertion ?a ?b || ?n] =>
                  destruct (write_size_assertion a b || n)
              end ]
        | ] ]
  | ].

Lemma resample_ready_fields NDEBUG d rb fe obs d' rb' wd ws ev :
  resample NDEBUG d rb fe obs = (Ready d' rb' wd ws, ev) ->
  m_audioPTS d' = m_audioPTS d
  /\ m_videoStartClock d' = m_videoStartClock d
  /\ m_audioCurrentPref d' = m_audioCurrentPref d.
Proof.
  resample_cases d fe; intros [= <- _ _ _ _]; now cbn.
Qed.

Lemma resample_pref NDEBUG d rb fe obs :
  match fst (resample NDEBUG d rb fe obs) with
  | Ready d' _ _ _ | ConvertFailed d' _ | AssertAbort d' _ =>
      m_audioCurrentPref d' = m_audioCurrentPref d
  | DivisionByZero | LengthError => True
  end.
Proof. resample_cases d fe; now cbn. Qed.

Lemma resample_no_write NDEBUG d rb fe obs :
  filter is_write (snd (resample NDEBUG d rb fe obs)) = [].
Proof. resample_cases d fe; reflexivity. Qed.

Lemma resample_no_rebuild NDEBUG d rb fe obs :
  filter is_rebuild (snd (resample NDEBUG d rb fe obs)) = [].
Proof. resample_cases d fe; reflexivity. Qed.

Lemma audio_sync_fields d fe :
  m_audioPTS (audio_sync d fe) = m_audioPTS d
  /\ m_audioCurrentPref (audio_sync d fe) = m_audioCurrentPref d
  /\ m_audioSwrContext (audio_sync d fe) = m_audioSwrContext d.
Proof.
  unfold audio_sync.
  destruct (drift_correction (sync_delta d (fe_now fe))); now cbn.
Qed.

Lemma deliver_pref d fe wd ws obs :
  let '(_, d', _) := deliver d fe wd ws obs in
  m_audioCurrentPref d' = m_audioCurrentPref d.
Proof.
  unfold deliver. destruct (0 <? ws); [|reflexivity].
  destruct (fe_interruption_requested fe); [reflexivity|].
  destruct (pts_advance (fe_frame fe) obs (fe_write_audio fe)); reflexivity.
Qed.

Lemma deliver_no_rebuild d fe wd ws obs :
  let '(_, _, ev) := deliver d fe wd ws obs in filter is_rebuild ev = [].
Proof.
  unfold deliver. destruct (0 <? ws); [|reflexivity].
  destruct (fe_interruption_requested fe); reflexivity.
Qed.

(** If a delivery is in the trace of [deliver], the guard of line 271
    passed and nobody had asked for an interruption. *)
Lemma deliver_written d fe wd ws obs :
  let '(_, _, ev) := deliver d fe wd ws obs in
  filter is_write ev <> [] ->
  (0 <? ws) = true /\ fe_interruption_requested fe = false.
Proof.
  unfold deliver. destruct (0 <? ws); [|now cbn].
  destruct (fe_interruption_requested fe); now cbn.
Qed.

Lemma pts_advance_iff f obs written :
  pts_advance f obs written = Some (frame_clock f obs)
  <-> written = false /\ sample_rate f <> 0.
Proof.
  unfold pts_advance.
  destruct written, (Z.eqb_spec (sample_rate f) 0); cbn;
    intuition congruence.
Qed.

Lemma pts_advance_none f obs written :
  pts_advance f obs written = None
  <-> written = true \/ sample_rate f = 0.
Proof.
  unfold pts_advance.
  destruct written, (Z.eqb_spec (sample_rate f) 0); cbn;
    intuition congruence.
Qed.

End FrameStages.

(* ================================================================== *)
(** ** Advancing the audio clock after a delivery *)

(** C6, as stated, fails for a frame whose [sample_rate] is negative: the
    code tests the rate for being non-zero, so after a write that
    returned false it moves [m_audioPTS] although the rate is not
    positive (here by 4096 / (2 * -44100 * 2) seconds). *)
Lemma C6_negative_rate_advances :
  let d := Sample.decoder None (Sample.params_of (-44100) 1) in
  let f := Sample.frame 1024 (-44100) Sample.AV_SAMPLE_FMT_S16 in
  let fe := Sample.frame_env f false 0 0 false false in
  (0 <? sample_rate f) = false
  /\ fe_write_audio fe = false
  /\ (let '(o, d', _, ev) := @handle_frame Sample.libavutil true d 0 fe in
      (o, ev, m_audioPTS d'))
     = (FrameNext, [EvWriteAudio (FrameData 4096) 4096],
        (0 + 4096 / -176400)%float).
Proof. vm_compute. repeat split. Qed.

(** C6, amended: when a frame has been handed to the sink, [m_audioPTS]
    is advanced (through the compare-exchange loop) by the original byte
    size divided by channels times sample rate times bytes per sample of
    the decoded frame if the write returned false and the frame's sample
    rate is not zero, and is left as it was if the write returned true or
    the rate is zero. *)
Theorem C6_pts_advance_after_write
    {lib : AVUtil} NDEBUG d rb fe o d' rb' ev :
  let f := fe_frame fe in
  handle_frame NDEBUG d rb fe = (o, d', rb', ev) ->
  filter is_write ev <> [] ->
  (fe_write_audio fe = false /\ sample_rate f <> 0 ->
     m_audioPTS d'
     = compare_exchange_add (fe_audioPTS_stores fe) (m_audioPTS d)
         (PrimFloat.div
            (CDouble.of_Z (original_buffer_size f))
            (CDouble.of_Z
               (CInt.mul32 (CInt.mul32 (channels f) (sample_rate f))
                           (av_get_bytes_per_sample (format f))))))
  /\ (fe_write_audio fe = true \/ sample_rate f = 0 ->
        m_audioPTS d' = m_audioPTS d).
Proof.
  intros f. unfold handle_frame. fold f.
  destruct (nb_samples f <=? 0); [intros [= _ _ _ <-]; now cbn|].
  pose proof (update_swr_context_fields d fe) as (Hpts1 & _).
  pose proof (update_swr_context_no_write d fe) as Hw1.
  destruct (update_swr_context d fe) as [d1 ev1]. cbn [fst snd] in *.
  fold (original_buffer_size f).
  pose proof (resample_no_write NDEBUG d1 rb fe (original_buffer_size f)) as Hw2.
  destruct (resample NDEBUG d1 rb fe (original_buffer_size f))
    as [[d2 rb2 wd ws|d2 rb2|d2 rb2| |] ev2] eqn:Hr; cbn [fst snd] in *;
    try (intros [= _ _ _ <-]; rewrite filter_app, Hw1, Hw2; now cbn).
  apply resample_ready_fields in Hr as (Hpts2 & _).
  pose proof (audio_sync_fields d2 fe) as (Hpts3 & _).
  unfold deliver.
  destruct (0 <? ws);
    [|intros [= _ _ _ <-]; rewrite !filter_app, Hw1, Hw2; now cbn].
  destruct (fe_interruption_requested fe);
    [intros [= _ _ _ <-]; rewrite !filter_app, Hw1, Hw2; now cbn|].
  intros [= _ <- _ _] _. split.
  - intros Hadv. apply (pts_advance_iff f (original_buffer_size f)) in Hadv.
    fold f. rewrite Hadv. cbn [m_audioPTS set_audioPTS].
    rewrite Hpts3, Hpts2, Hpts1. reflexivity.
  - intros Hnone. apply (pts_advance_none f (original_buffer_size f)) in Hnone.
    fold f. rewrite Hnone. congruence.
Qed.

Lemma C6_pts_advance_after_write_witness :
  let d := Sample.decoder None (Sample.params_of 44100 1) in
  let fe := Sample.frame_env (Sample.frame 1024 44100 1) true 0 0 false false in
  (fe_write_audio fe = false /\ sample_rate (fe_frame fe) <> 0 ->
   m_audioPTS (set_audioPTS d (4096 / 176400)%float)
   = compare_exchange_add (fe_audioPTS_stores fe) (m_audioPTS d)
       (4096 / 176400)%float)
  /\ (fe_write_audio fe = true \/ sample_rate (fe_frame fe) = 0 ->
      m_audioPTS (set_audioPTS d (4096 / 176400)%float) = m_audioPTS d).
Proof.
  apply (@C6_pts_advance_after_write Sample.libavutil true
           (Sample.decoder None (Sample.params_of 44100 1)) 0
           (Sample.frame_env (Sample.frame 1024 44100 1) true 0 0 false false)
           FrameNext
           (set_audioPTS (Sample.decoder None (Sample.params_of 44100 1))
                         (4096 / 176400)%float)
           0 [EvWriteAudio (FrameData 4096) 4096]).
  - vm_compute. reflexivity.
  - vm_compute. discriminate.
Defined.

(* ================================================================== *)
(** ** When the conversion context is rebuilt *)

Section Rebuilds.

Context {lib : AVUtil}.

Lemma rebuilds_app (a b : list Event) :
  rebuilds (a ++ b) = (rebuilds a + rebuilds b)%nat.
Proof. unfold rebuilds. now rewrite filter_app, length_app. Qed.

Lemma rebuilds_none (a : list Event) :
  filter is_rebuild a = [] -> rebuilds a = 0%nat.
Proof. unfold rebuilds. now intros ->. Qed.

(** The test of lines 194-196 compares the frame's signature with the
    cached one and looks at nothing else. *)
Lemma swr_context_required_iff d f :
  swr_context_required d f = true <-> signature f <> cached_signature d.
Proof.
  unfold swr_context_required, signature, cached_signature.
  destruct (Z.eqb_spec (format f) (ap_format (m_audioCurrentPref d)));
    destruct (Z.eqb_spec (getChannelLayout f)
                (ap_channel_layout (m_audioCurrentPref d)));
    destruct (Z.eqb_spec (sample_rate f) (ap_frequency (m_audioCurrentPref d)));
    cbn; split; congruence.
Qed.

Lemma swr_context_not_required_iff d f :
  swr_context_required d f = false <-> signature f = cached_signature d.
Proof.
  pose proof (swr_context_required_iff d f) as H.
  assert (Hdec : {signature f = cached_signature d}
                 + {signature f <> cached_signature d})
    by (repeat decide equality).
  destruct (swr_context_required d f); split; intros E; try congruence.
  - exfalso. now apply (proj1 H).
  - destruct Hdec as [Hd|Hd]; [exact Hd | apply H in Hd; discriminate].
Qed.

(** One rebuild when the signature differs, none when it does not; in
    both cases the frame's signature is the cached one afterwards. *)
Lemma update_swr_context_rebuilds d fe :
  rebuilds (snd (update_swr_context d fe))
  = (if swr_context_required d (fe_frame fe) then 1 else 0)%nat
  /\ cached_signature (fst (update_swr_context d fe))
     = signature (fe_frame fe).
Proof.
  unfold update_swr_context.
  destruct (swr_context_required d (fe_frame fe)) eqn:Hreq.
  - destruct (fe_swr_alloc fe); [destruct (fe_swr_init fe <? 0)|];
      now cbn.
  - cbn. split; [reflexivity|]. symmetry.
    now apply swr_context_not_required_iff.
Qed.

(** A frame with samples rebuilds as [update_swr_context] does, and
    leaves its signature cached however its processing ends. *)
Lemma handle_frame_rebuilds NDEBUG d rb fe :
  0 < nb_samples (fe_frame fe) ->
  let '(o, d', _, ev) := handle_frame NDEBUG d rb fe in
  rebuilds ev = (if swr_context_required d (fe_frame fe) then 1 else 0)%nat
  /\ cached_signature d' = signature (fe_frame fe).
Proof.
  intros Hn. unfold handle_frame.
  destruct (Z.leb_spec (nb_samples (fe_frame fe)) 0) as [Hle|_]; [lia|].
  pose proof (update_swr_context_rebuilds d fe) as (Hcount & Hsig).
  destruct (update_swr_context d fe) as [d1 ev1]. cbn [fst snd] in *.
  set (obs := av_samples_get_buffer_size _ _ _).
  pose proof (resample_no_rebuild NDEBUG d1 rb fe obs) as Hev2.
  pose proof (resample_pref NDEBUG d1 rb fe obs) as Hpref2.
  destruct (resample NDEBUG d1 rb fe obs)
    as [[d2 rb2 wd ws|d2 rb2|d2 rb2| |] ev2]; cbn [fst snd] in *;
    try (rewrite rebuilds_app, (rebuilds_none ev2 Hev2), Nat.add_0_r;
         split; [exact Hcount|];
         unfold cached_signature in *; now rewrite ?Hpref2).
  pose proof (audio_sync_fields d2 fe) as (_ & Hpref3 & _).
  pose proof (deliver_pref (audio_sync d2 fe) fe wd ws obs) as Hpref4.
  pose proof (deliver_no_rebuild (audio_sync d2 fe) fe wd ws obs) as Hev4.
  destruct (deliver (audio_sync d2 fe) fe wd ws obs) as [[o d4] ev4].
  rewrite !rebuilds_app, (rebuilds_none ev2 Hev2), (rebuilds_none ev4 Hev4).
  rewrite !Nat.add_0_r. split; [exact Hcount|].
  unfold cached_signature in *. now rewrite Hpref4, Hpref3, Hpref2.
Qed.

Lemma handle_frames_cached NDEBUG s frames : forall d rb,
  uniform s frames -> cached_signature d = s ->
  let '(_, d', _, ev) := handle_frames NDEBUG d rb frames in
  rebuilds ev = 0%nat /\ cached_signature d' = s.
Proof.
  induction frames as [|fe frames IH]; intros d rb Hall Hc; [now cbn|].
  apply Forall_cons_iff in Hall as [[Hs Hn] Hrest].
  cbn [handle_frames].
  pose proof (handle_frame_rebuilds NDEBUG d rb fe Hn) as Hf.
  destruct (handle_frame NDEBUG d rb fe) as [[[o d1] rb1] ev1].
  destruct Hf as (Hcount & Hsig).
  assert (Hreq : swr_context_required d (fe_frame fe) = false)
    by (apply swr_context_not_required_iff; congruence).
  rewrite Hreq in Hcount. rewrite Hs in Hsig.
  destruct o; try (now split).
  specialize (IH d1 rb1 Hrest Hsig).
  destruct (handle_frames NDEBUG d1 rb1 frames) as [[[r d2] rb2] ev2].
  destruct IH as (Hcount2 & Hsig2).
  change (EvReceiveFrame true :: ev1) with ([EvReceiveFrame true] ++ ev1).
  rewrite !rebuilds_app, Hcount, Hcount2. now split.
Qed.

End Rebuilds.

(** C7, as stated, fails: a missing context does not by itself cause a
    rebuild. The first frame (float, 48000 Hz) asks for a context and the
    allocation fails; its signature is cached all the same, so the second
    frame of the same format is passed through with no context and no
    second attempt to build one. *)
Lemma C7_no_rebuild_without_context :
  let d := Sample.decoder None Sample.settings in
  let f := Sample.frame 1024 48000 Sample.AV_SAMPLE_FMT_FLT in
  let fe := Sample.frame_env f false 0 0 false true in
  (let '(r, d', _, ev) := @handle_frames Sample.libavutil true d 0 [fe; fe] in
   (r, m_audioSwrContext d', rebuilds ev, ev))
  = (Returned true, None, 1%nat,
     [EvReceiveFrame true; EvSwrFree; EvSwrAlloc 3 3 48000; EvLogSwrInitError;
      EvWriteAudio (FrameData 4096) 8192;
      EvReceiveFrame true;
      EvWriteAudio (FrameData 4096) 8192;
      EvReceiveFrame false]).
Proof. vm_compute. reflexivity. Qed.

(** C7, amended: a frame with samples makes the code discard and rebuild
    the context exactly when its signature (sample format, channel
    layout, sample rate) differs from the cached one, whether or not a
    context exists, and its signature is the cached one afterwards; a
    change of format therefore costs one rebuild, and the frames of the
    same format that follow cost none. *)
Theorem C7_rebuild_iff_signature_differs
    {lib : AVUtil} NDEBUG d rb fe frames :
  0 < nb_samples (fe_frame fe) ->
  uniform (signature (fe_frame fe)) frames ->
  let '(_, d1, rb1, ev1) := handle_frame NDEBUG d rb fe in
  let '(_, _, _, ev2) := handle_frames NDEBUG d1 rb1 frames in
  (rebuilds ev1 = 1%nat <-> signature (fe_frame fe) <> cached_signature d)
  /\ (rebuilds ev1 = 0%nat <-> signature (fe_frame fe) = cached_signature d)
  /\ cached_signature d1 = signature (fe_frame fe)
  /\ rebuilds ev2 = 0%nat.
Proof.
  intros Hn Hall.
  pose proof (handle_frame_rebuilds NDEBUG d rb fe Hn) as Hf.
  destruct (handle_frame NDEBUG d rb fe) as [[[o d1] rb1] ev1].
  destruct Hf as (Hcount & Hsig).
  pose proof (handle_frames_cached NDEBUG _ frames d1 rb1 Hall Hsig) as Hrest.
  destruct (handle_frames NDEBUG d1 rb1 frames) as [[[r d2] rb2] ev2].
  destruct Hrest as (Hrest & _).
  rewrite Hcount, <- swr_context_required_iff, <- swr_context_not_required_iff.
  destruct (swr_context_required d (fe_frame fe));
    repeat split; congruence.
Qed.

Lemma C7_rebuild_iff_signature_differs_witness :
  let d := Sample.decoder None Sample.settings in
  let f := Sample.frame 1024 48000 Sample.AV_SAMPLE_FMT_FLT in
  let fe := Sample.frame_env f true 0 1000 false true in
  let '(_, d1, rb1, ev1) := @handle_frame Sample.libavutil true d 0 fe in
  let '(_, _, _, ev2) :=
    @handle_frames Sample.libavutil true d1 rb1 [fe; fe; fe] in
  (rebuilds ev1 = 1%nat
   <-> @signature Sample.libavutil (fe_frame fe) <> cached_signature d)
  /\ (rebuilds ev1 = 0%nat
      <-> @signature Sample.libavutil (fe_frame fe) = cached_signature d)
  /\ cached_signature d1 = @signature Sample.libavutil (fe_frame fe)
  /\ rebuilds ev2 = 0%nat.
Proof.
  apply (@C7_rebuild_iff_signature_differs Sample.libavutil true
           (Sample.decoder None Sample.settings) 0
           (Sample.frame_env
              (Sample.frame 1024 48000 Sample.AV_SAMPLE_FMT_FLT)
              true 0 1000 false true)).
  - reflexivity.
  - repeat constructor.
Defined.

(* ================================================================== *)
(** ** A context that cannot be built *)

Section FailedContext.

Context {lib : AVUtil}.

(** When the allocation fails no context is left, and the frame's own
    first plane and original byte size go on to delivery. *)
Lemma alloc_failure_passes_raw NDEBUG d rb fe :
  let f := fe_frame fe in
  0 < nb_samples f ->
  swr_context_required d f = true ->
  fe_swr_alloc fe = false ->
  exists d1,
    m_audioSwrContext d1 = None
    /\ handle_frame NDEBUG d rb fe
       = let '(o, d2, ev) :=
           deliver (audio_sync d1 fe) fe (FrameData (first_plane f))
                   (original_buffer_size f) (original_buffer_size f) in
         (o, d2, rb,
          [EvSwrFree; EvSwrAlloc (getChannelLayout f) (format f) (sample_rate f);
           EvLogSwrInitError] ++ ev).
Proof.
  intros f Hn Hreq Halloc. unfold handle_frame, update_swr_context. fold f.
  destruct (Z.leb_spec (nb_samples f) 0) as [Hle|_]; [lia|].
  rewrite Hreq, Halloc. eexists. split; [|unfold resample; cbn; reflexivity].
  reflexivity.
Qed.

(** When the allocation succeeds and the initialisation fails, the
    context stays in [m_audioSwrContext]: the frame goes through the
    conversion branch and its own bytes are never what is delivered. *)
Lemma init_failure_never_passes_raw NDEBUG d rb fe :
  let f := fe_frame fe in
  0 < nb_samples f ->
  swr_context_required d f = true ->
  fe_swr_alloc fe = true ->
  fe_swr_init fe < 0 ->
  let '(o, d', _, ev) := handle_frame NDEBUG d rb fe in
  filter is_raw_write ev = []
  /\ (o <> FrameUndefined -> m_audioSwrContext d' <> None)
  /\ (fe_swr_convert fe < 0 -> sample_rate f <> 0 ->
      o = FrameBreak \/ o = FrameThrow).
Proof.
  intros f Hn Hreq Halloc Hinit. unfold handle_frame, update_swr_context.
  fold f.
  destruct (Z.leb_spec (nb_samples f) 0) as [Hle|_]; [lia|].
  rewrite Hreq, Halloc.
  destruct (Z.ltb_spec (fe_swr_init fe) 0) as [_|Hge]; [|lia].
  unfold resample, deliver. cbn [m_audioSwrContext set_swr fe_frame].
  fold f.
  destruct (Z.eqb_spec (sample_rate f) 0) as [Hz|Hnz].
  { cbn. repeat split; congruence. }
  destruct (resize_if_smaller rb _) as [rb1|];
    [|cbn; repeat split; try congruence; auto].
  destruct (Z.ltb_spec (fe_swr_convert fe) 0) as [Hneg|Hpos].
  { cbn. repeat split; try congruence; auto. }
  match goal with
  | |- context [if ?c =? ?o then _ else _] => destruct (c =? o)
  end;
  match goal with
  | |- context [write_size_assertion ?a ?b || NDEBUG] =>
      destruct (write_size_assertion a b || NDEBUG)
  end; cbn [fst snd];
  try (cbn; repeat split; (congruence || lia));
  match goal with
  | |- context [0 <? ?ws] => destruct (0 <? ws)
  end;
  try destruct (fe_interruption_requested fe);
  cbn; repeat split; try congruence; try lia;
  try match goal with
      | |- context [audio_sync ?d0 fe] =>
          pose proof (audio_sync_fields d0 fe) as (_ & _ & Hc)
      end;
  try destruct (pts_advance _ _ _); cbn; rewrite ?Hc; cbn; congruence.
Qed.

End FailedContext.

(** C8 at the input where the code leaves it: the context is allocated
    and its initialisation fails. A frame of 1024 float samples at 48000
    Hz meets a decoder without a context; [swr_alloc_set_opts] answers
    with a context and [swr_init] with an error. The code logs the error
    and keeps the context, so the frame is handed to [swr_convert]: when
    that fails in turn (first run) the frame is dropped and the loop
    left, and when it converts (second run) the scratch buffer is
    delivered. In neither run do the frame's own 8192 bytes reach the
    sink, as they do when the allocation fails (third run). *)
Theorem C8_initialisation_failure_keeps_the_context :
  let d := Sample.decoder None Sample.settings in
  let f := Sample.frame 1024 48000 Sample.AV_SAMPLE_FMT_FLT in
  let run alloc init converted :=
    let '(o, d', _, ev) :=
      @handle_frame Sample.libavutil true d 0
        (Sample.frame_env f alloc init converted false true) in
    (o, m_audioSwrContext d', ev) in
  run true (-22) (-22)
  = (FrameBreak, Some (Sample.context_of 48000 3 false),
     [EvSwrFree; EvSwrAlloc 3 3 48000; EvSwrInit; EvLogSwrInitError;
      EvSwrConvert 1196 1024; EvLogSwrConvertFailed])
  /\ run true (-22) 940
     = (FrameNext, Some (Sample.context_of 48000 3 false),
        [EvSwrFree; EvSwrAlloc 3 3 48000; EvSwrInit; EvLogSwrInitError;
         EvSwrConvert 1196 1024; EvWriteAudio ResampleOut 3760])
  /\ run false 0 0
     = (FrameNext, None,
        [EvSwrFree; EvSwrAlloc 3 3 48000; EvLogSwrInitError;
         EvWriteAudio (FrameData 4096) 8192]).
Proof. vm_compute. repeat split. Qed.

(* ================================================================== *)
(** ** A packet reported as not handled *)

Section Unhandled.

Context {lib : AVUtil}.

(** A packet that gets past the first-packet block leaves the locals as
    they were. *)
Lemma establish_baseline_passes NDEBUG d l pe d_b l_b ev_b :
  establish_baseline NDEBUG d l pe = (None, d_b, l_b, ev_b) -> l_b = l.
Proof.
  unfold establish_baseline.
  destruct (negb (initialized l)); [|now intros [= _ <- _]].
  destruct (negb (pts (packet l) =? AV_NOPTS_VALUE));
    [|destruct NDEBUG; discriminate].
  destruct (pe_seeking_108 pe); [discriminate | now intros [= _ <- _]].
Qed.

(** Line 128: after a packet that was not handled the inner loop is left
    by [break], with the packet released; what the queue still holds is
    not looked at. *)
Lemma unhandled_breaks_inner_loop
    NDEBUG d l pe pops p d_b l_b ev_b d' rb' ev :
  pe_pop pe = Some p ->
  establish_baseline NDEBUG d (set_packet l p) pe = (None, d_b, l_b, ev_b) ->
  size p <> 0 ->
  handleAudioPacket NDEBUG d_b p (resampleBuffer l) (pe_handle pe)
  = (Returned false, d', rb', ev) ->
  inner_loop NDEBUG d l (pe :: pops)
  = (InnerBreak, d', after_packet l p rb',
     EvPop (Some p) :: ev_b ++ ev ++ [EvUnref p]).
Proof.
  intros Hpop Hbase Hsize Hh. cbn [inner_loop]. rewrite Hpop.
  unfold turn_with_packet. rewrite Hbase.
  apply establish_baseline_passes in Hbase as ->.
  unfold handle_popped.
  cbn [packet set_initialized set_packet resampleBuffer].
  destruct (Z.eqb_spec (size p) 0) as [E|_]; [contradiction|].
  rewrite Hh. reflexivity.
Qed.

(** The outer loop takes a [break] of the inner loop as the end of a
    pass: it goes on with the next pass unless an interruption is
    pending at line 135. *)
Lemma unhandled_ends_pass_only
    NDEBUG d l pa script pe pops p d_b l_b ev_b d' rb' ev :
  pa_isPaused_49 pa = false ->
  m_audioPaused d = false ->
  handlePacketPostponed l = false ->
  pa_pops pa = pe :: pops ->
  pe_pop pe = Some p ->
  establish_baseline NDEBUG d (set_packet l p) pe = (None, d_b, l_b, ev_b) ->
  size p <> 0 ->
  handleAudioPacket NDEBUG d_b p (resampleBuffer l) (pe_handle pe)
  = (Returned false, d', rb', ev) ->
  pa_interrupted_135 pa = false ->
  run_passes NDEBUG d l (pa :: script)
  = let '(o, d'', l'', ev') :=
      run_passes NDEBUG d' (after_packet l p rb') script in
    (o, d'', l'', (EvPop (Some p) :: ev_b ++ ev ++ [EvUnref p]) ++ ev').
Proof.
  intros Hrun Hpaused Hpost Hpops Hpop Hbase Hsize Hh Hint.
  cbn [run_passes]. unfold pass, handle_postponed.
  rewrite Hrun, Hpaused, Hpost, Hpops. cbn [andb].
  rewrite (unhandled_breaks_inner_loop NDEBUG d l pe pops p d_b l_b ev_b
             d' rb' ev Hpop Hbase Hsize Hh).
  rewrite Hint. reflexivity.
Qed.

Lemma handle_frames_app NDEBUG pre : forall d rb rest d0 rb0 ev0,
  frames_drained NDEBUG d rb pre = Some (d0, rb0, ev0) ->
  handle_frames NDEBUG d rb (pre ++ rest)
  = let '(r, d', rb', ev) := handle_frames NDEBUG d0 rb0 rest in
    (r, d', rb', ev0 ++ ev).
Proof.
  induction pre as [|fe pre IH]; intros d rb rest d0 rb0 ev0.
  - cbn. intros [= <- <- <-].
    now destruct (handle_frames NDEBUG d rb rest) as [[[r d'] rb'] ev].
  - cbn [frames_drained handle_frames app].
    destruct (handle_frame NDEBUG d rb fe) as [[[o d1] rb1] ev1].
    destruct o; try discriminate.
    destruct (frames_drained NDEBUG d1 rb1 pre) as [[[d2 rb2] ev2]|] eqn:Hd;
      [|discriminate].
    intros [= <- <- <-]. rewrite (IH d1 rb1 rest d2 rb2 ev2 Hd).
    destruct (handle_frames NDEBUG d2 rb2 rest) as [[[r d'] rb'] ev].
    cbn [app]. now rewrite app_assoc.
Qed.

(** Lines 153-167 for a packet of another stream whose decoder cannot be
    found or opened. *)
Lemma submit_packet_switch_failure d p he :
  stream_index p <> index (m_audioStream d) ->
  he_parameters_to_context he < 0 \/ he_find_decoder he = false
    \/ he_open2 he < 0 ->
  exists ev,
    submit_packet d p he
    = (false, set_audioStream d (m_formatContext_streams d (stream_index p)),
       EvCodecClose :: EvParametersToContext (stream_index p) :: ev)
    /\ incl ev [EvFindDecoder; EvCodecOpen].
Proof.
  intros Hidx Hfail. unfold submit_packet.
  destruct (Z.eqb_spec (stream_index p) (index (m_audioStream d)))
    as [E|_]; [contradiction|].
  cbn [negb andb].
  destruct (Z.ltb_spec (he_parameters_to_context he) 0) as [Hp|Hp].
  - cbn. exists []. split; [reflexivity | apply incl_nil_l].
  - destruct (he_find_decoder he) eqn:Hfind.
    + destruct (Z.ltb_spec (he_open2 he) 0) as [Ho|Ho];
        [|destruct Hfail as [?|[?|?]]; (lia || discriminate)].
      cbn. exists [EvFindDecoder; EvCodecOpen].
      split; [reflexivity | apply incl_refl].
    + cbn. exists [EvFindDecoder].
      split; [reflexivity|]. intros e [<-|[]]. now left.
Qed.

End Unhandled.

(* ================================================================== *)
(** ** Cancellation found at the check before delivery *)

Section Cancellation.

Context {lib : AVUtil}.

Lemma handle_frame_interrupted NDEBUG d rb fe d1 ev1 d2 rb2 wd ws ev2 :
  0 < nb_samples (fe_frame fe) ->
  update_swr_context d fe = (d1, ev1) ->
  resample NDEBUG d1 rb fe (original_buffer_size (fe_frame fe))
  = (Ready d2 rb2 wd ws, ev2) ->
  0 < ws ->
  fe_interruption_requested fe = true ->
  handle_frame NDEBUG d rb fe
  = (FrameReturnFalse, audio_sync d2 fe, rb2, ev1 ++ ev2).
Proof.
  intros Hn Hu Hr Hws Hint. unfold handle_frame.
  destruct (Z.leb_spec (nb_samples (fe_frame fe)) 0) as [Hle|_]; [lia|].
  rewrite Hu. unfold original_buffer_size in Hr. rewrite Hr.
  unfold deliver.
  destruct (Z.ltb_spec 0 ws) as [_|Hle]; [|lia].
  rewrite Hint. now rewrite app_nil_r.
Qed.

End Cancellation.

(** C10: when, for some frame of a packet, the code reaches line 271
    with a positive [write_size] and an interruption has been requested,
    [handleAudioPacket] returns false at once: the frame is not written,
    [avcodec_receive_frame] is not called again for the frames still in
    the decoder, and the inner loop of the thread, after releasing the
    packet, is left by [break]. *)
Theorem C10_cancellation_before_delivery
    {lib : AVUtil} NDEBUG d l pe pops p d_b l_b ev_b d_in ev_in
    pre fe rest d0 rb0 ev0 d1 ev1 d2 rb2 wd ws ev2 :
  let he := pe_handle pe in
  pe_pop pe = Some p ->
  establish_baseline NDEBUG d (set_packet l p) pe = (None, d_b, l_b, ev_b) ->
  size p <> 0 ->
  submit_packet d_b p he = (true, d_in, ev_in) ->
  he_frames he = pre ++ fe :: rest ->
  frames_drained NDEBUG d_in (resampleBuffer l) pre = Some (d0, rb0, ev0) ->
  0 < nb_samples (fe_frame fe) ->
  update_swr_context d0 fe = (d1, ev1) ->
  resample NDEBUG d1 rb0 fe (original_buffer_size (fe_frame fe))
  = (Ready d2 rb2 wd ws, ev2) ->
  0 < ws ->
  fe_interruption_requested fe = true ->
  let ev := ev_in ++ ev0 ++ EvReceiveFrame true :: ev1 ++ ev2 in
  handleAudioPacket NDEBUG d_b p (resampleBuffer l) he
  = (Returned false, audio_sync d2 fe, rb2, ev)
  /\ filter is_write (EvReceiveFrame true :: ev1 ++ ev2) = []
  /\ inner_loop NDEBUG d l (pe :: pops)
     = (InnerBreak, audio_sync d2 fe, after_packet l p rb2,
        EvPop (Some p) :: ev_b ++ ev ++ [EvUnref p]).
Proof.
  intros he Hpop Hbase Hsize Hsub Hframes Hpre Hn Hu Hr Hws Hint ev.
  assert (Hh : handleAudioPacket NDEBUG d_b p (resampleBuffer l) he
               = (Returned false, audio_sync d2 fe, rb2, ev)).
  { unfold handleAudioPacket. rewrite Hsub, Hframes.
    rewrite (handle_frames_app NDEBUG pre d_in (resampleBuffer l) (fe :: rest)
               d0 rb0 ev0 Hpre).
    cbn [handle_frames].
    rewrite (handle_frame_interrupted NDEBUG d0 rb0 fe d1 ev1 d2 rb2 wd ws ev2
               Hn Hu Hr Hws Hint).
    reflexivity. }
  split; [exact Hh|]. split.
  - cbn [filter is_write]. rewrite filter_app.
    pose proof (update_swr_context_no_write d0 fe) as H1.
    pose proof (resample_no_write NDEBUG d1 rb0 fe
                  (original_buffer_size (fe_frame fe))) as H2.
    rewrite Hu in H1. rewrite Hr in H2. cbn [snd] in *.
    now rewrite H1, H2.
  - apply (unhandled_breaks_inner_loop NDEBUG d l pe pops p d_b l_b ev_b _ _ _
             Hpop Hbase Hsize Hh).
Qed.

Lemma C10_cancellation_before_delivery_witness :
  let d := Sample.decoder None Sample.settings in
  let l := Sample.running_locals in
  let p := Sample.packet_of 0 0 100 in
  let f := Sample.frame 1024 44100 Sample.AV_SAMPLE_FMT_S16 in
  let played := Sample.frame_env f true 0 0 false true in
  let cancelled := Sample.frame_env f true 0 0 true true in
  let pe :=
    Sample.pop_env (Some p) (Sample.handle_env [played; cancelled; played]) in
  let ev :=
    [EvSendPacket p]
      ++ [EvReceiveFrame true; EvWriteAudio (FrameData 4096) 4096]
      ++ EvReceiveFrame true :: [] ++ [] in
  @handleAudioPacket Sample.libavutil true d p (resampleBuffer l)
    (pe_handle pe)
  = (Returned false, audio_sync d cancelled, 0, ev)
  /\ filter is_write (EvReceiveFrame true :: [] ++ []) = []
  /\ @inner_loop Sample.libavutil true d l [pe]
     = (InnerBreak, audio_sync d cancelled, after_packet l p 0,
        EvPop (Some p) :: [] ++ ev ++ [EvUnref p]).
Proof.
  apply (@C10_cancellation_before_delivery Sample.libavutil true
           (Sample.decoder None Sample.settings) Sample.running_locals
           (Sample.pop_env (Some (Sample.packet_of 0 0 100))
              (Sample.handle_env
                 [Sample.frame_env (Sample.frame 1024 44100 1) true 0 0
                    false true;
                  Sample.frame_env (Sample.frame 1024 44100 1) true 0 0
                    true true;
                  Sample.frame_env (Sample.frame 1024 44100 1) true 0 0
                    false true]))
           [] (Sample.packet_of 0 0 100)
           (Sample.decoder None Sample.settings)
           (set_packet Sample.running_locals (Sample.packet_of 0 0 100)) []
           (Sample.decoder None Sample.settings)
           [EvSendPacket (Sample.packet_of 0 0 100)]
           [Sample.frame_env (Sample.frame 1024 44100 1) true 0 0 false true]
           (Sample.frame_env (Sample.frame 1024 44100 1) true 0 0 true true)
           [Sample.frame_env (Sample.frame 1024 44100 1) true 0 0 false true]
           (Sample.decoder None Sample.settings) 0
           [EvReceiveFrame true; EvWriteAudio (FrameData 4096) 4096]
           (Sample.decoder None Sample.settings) []
           (Sample.decoder None Sample.settings) 0 (FrameData 4096) 4096 []).
  - reflexivity.
  - reflexivity.
  - discriminate.
  - reflexivity.
  - reflexivity.
  - vm_compute. reflexivity.
  - reflexivity.
  - vm_compute. reflexivity.
  - vm_compute. reflexivity.
  - reflexivity.
  - reflexivity.
Defined.

(* ================================================================== *)
(** ** The first packet *)

Section FirstPacket.

Context {lib : AVUtil}.






End FirstPacket.


(** Two runs: a first packet without a timestamp, then one with the
    timestamp 88200 in a time base of 1/44100, two seconds. *)
Example first_packet_runs :
  let d := Sample.decoder None Sample.settings in
  let f := Sample.frame 1024 44100 Sample.AV_SAMPLE_FMT_S16 in
  let he := Sample.handle_env [Sample.frame_env f true 0 0 false true] in
  let run p :=
    let '(o, d', _, ev) :=
      @audioParseRunnable Sample.libavutil true d
        [Sample.pass_env
           [Sample.pop_env (Some p) he; Sample.pop_env None he] false] in
    (o, m_audioPTS d', ev) in
  run (Sample.packet_of 0 AV_NOPTS_VALUE 100)
  = (ThreadReturned, 0%float,
     [EvInitializeThread; EvPop (Some (Sample.packet_of 0 AV_NOPTS_VALUE 100));
      EvDeinitializeThread])
  /\ run (Sample.packet_of 0 88200 100)
     = (ThreadRunning, 2%float,
        [EvInitializeThread; EvPop (Some (Sample.packet_of 0 88200 100));
         EvAppendFrameClock 2%float;
         EvSendPacket (Sample.packet_of 0 88200 100);
         EvReceiveFrame true; EvWriteAudio (FrameData 4096) 4096;
         EvReceiveFrame false;
         EvUnref (Sample.packet_of 0 88200 100); EvPop None]).
Proof. vm_compute. repeat split. Qed.

(* ================================================================== *)
(** ** Releasing the packet *)

Section Release.

Context {lib : AVUtil}.

(** Lines 125-126: a packet that was given to [handleAudioPacket] is
    released as soon as the call returns, handled or not. *)
Lemma sized_packet_released NDEBUG d l pe :
  size (packet l) <> 0 ->
  let '(o, _, _, ev) := handle_popped NDEBUG d l pe in
  o = TurnStop InnerAbort \/ o = TurnStop InnerUndefined
  \/ o = TurnStop InnerThrow
  \/ exists ev0, ev = ev0 ++ [EvUnref (packet l)].
Proof.
  intros Hsize. unfold handle_popped.
  cbn [packet resampleBuffer set_initialized].
  destruct (Z.eqb_spec (size (packet l)) 0) as [E|_]; [contradiction|].
  destruct (handleAudioPacket NDEBUG d (packet l) (resampleBuffer l)
              (pe_handle pe)) as [[[r d1] rb1] ev1].
  destruct r as [handled| | |]; auto.
  unfold av_packet_unref.
  destruct (negb handled || pe_isPaused_128 pe && negb (pe_seeking_128 pe));
    cbn; right; right; right; now exists ev1.
Qed.

(** Lines 119-123: for a packet of size zero the inner loop is left with
    the packet still in hand. *)
Lemma zero_size_packet_kept NDEBUG d l pe :
  size (packet l) = 0 ->
  handle_popped NDEBUG d l pe
  = (TurnStop InnerBreak, d, set_initialized l true, [EvLogPacketSizeZero]).
Proof.
  intros Hsize. unfold handle_popped. cbn [packet set_initialized].
  now rewrite Hsize.
Qed.

(** Lines 73-82: a postponed packet is released at the start of the next
    pass that gets there, played or not. *)
Lemma postponed_packet_released NDEBUG d l pa :
  handlePacketPostponed l = true ->
  let '(o, _, _, ev) := handle_postponed NDEBUG d l pa in
  o = Some PassAbort \/ o = Some PassUndefined
  \/ o = Some PassInterrupted
  \/ exists ev0, ev = ev0 ++ [EvUnref (packet l)].
Proof.
  intros Hpost. unfold handle_postponed. rewrite Hpost.
  cbn [packet set_handlePacketPostponed resampleBuffer].
  destruct (negb (pa_seeking_76 pa)).
  - destruct (handleAudioPacket NDEBUG d (packet l) (resampleBuffer l)
                (pa_postponed pa)) as [[[r d1] rb1] ev1].
    destruct r; cbn; auto. right; right; right. now exists ev1.
  - cbn. right; right; right. now exists [].
Qed.

(** Lines 140-143: so is it when the exception arrives first. *)
Lemma postponed_packet_released_on_exception l :
  handlePacketPostponed l = true ->
  snd (catch_all l)
  = [EvUnref (packet l); EvLogInterrupted; EvDeinitializeThread].
Proof. intros Hpost. unfold catch_all. now rewrite Hpost. Qed.

End Release.

(** C4 at the input where the code leaves it: a packet of size zero. The
    first packet popped has a timestamp and no payload; line 122 leaves
    the inner loop without [av_packet_unref]. In the first run the next
    pass pops a packet of 100 bytes over it, which is decoded, played and
    released; in the second an interruption is pending at line 135 and
    the handler, which releases a postponed packet only, lets the thread
    end. In both the packet of size zero is the one the trace has popped
    and not released. The third run is the first with 100 bytes in the
    first packet as well: nothing is left. *)
Theorem C4_zero_size_packet_is_not_released :
  let d := Sample.decoder None Sample.settings in
  let f := Sample.frame 1024 44100 Sample.AV_SAMPLE_FMT_S16 in
  let he := Sample.handle_env [Sample.frame_env f true 0 0 false true] in
  let marker := Sample.packet_of 0 0 0 in
  let first := Sample.packet_of 0 0 100 in
  let next := Sample.packet_of 0 1024 100 in
  let run script :=
    let '(o, _, _, ev) := @audioParseRunnable Sample.libavutil true d script in
    (o, ev, unreleased ev []) in
  run [Sample.pass_env [Sample.pop_env (Some marker) he] false;
       Sample.pass_env [Sample.pop_env (Some next) he;
                        Sample.pop_env None he] false]
  = (ThreadRunning,
     [EvInitializeThread;
      EvPop (Some marker); EvAppendFrameClock 0%float; EvLogPacketSizeZero;
      EvPop (Some next); EvSendPacket next; EvReceiveFrame true;
      EvWriteAudio (FrameData 4096) 4096; EvReceiveFrame false;
      EvUnref next; EvPop None],
     [marker])
  /\ run [Sample.pass_env [Sample.pop_env (Some marker) he] true]
     = (ThreadInterrupted,
        [EvInitializeThread;
         EvPop (Some marker); EvAppendFrameClock 0%float; EvLogPacketSizeZero;
         EvLogInterrupted; EvDeinitializeThread],
        [marker])
  /\ run [Sample.pass_env [Sample.pop_env (Some first) he;
                           Sample.pop_env (Some next) he;
                           Sample.pop_env None he] false]
     = (ThreadRunning,
        [EvInitializeThread;
         EvPop (Some first); EvAppendFrameClock 0%float;
         EvSendPacket first; EvReceiveFrame true;
         EvWriteAudio (FrameData 4096) 4096; EvReceiveFrame false;
         EvUnref first;
         EvPop (Some next); EvSendPacket next; EvReceiveFrame true;
         EvWriteAudio (FrameData 4096) 4096; EvReceiveFrame false;
         EvUnref next; EvPop None],
        []).
Proof. vm_compute. repeat split. Qed.

(* ================================================================== *)
(** * Further properties *)

(** ** The shape of one turn of the drain loop *)

Section FrameShape.

Context {lib : AVUtil}.

(** The three ways through lines 271-291. *)
Lemma deliver_cases d fe wd ws obs :
  (ws <= 0 /\ deliver d fe wd ws obs = (FrameNext, d, []))
  \/ (0 < ws /\ fe_interruption_requested fe = true
      /\ deliver d fe wd ws obs = (FrameReturnFalse, d, []))
  \/ (0 < ws /\ fe_interruption_requested fe = false
      /\ deliver d fe wd ws obs
         = (FrameNext,
            match pts_advance (fe_frame fe) obs (fe_write_audio fe) with
            | Some c =>
                set_audioPTS d
                  (compare_exchange_add (fe_audioPTS_stores fe)
                                        (m_audioPTS d) c)
            | None => d
            end,
            [EvWriteAudio wd ws])).
Proof.
  unfold deliver. destruct (Z.ltb_spec 0 ws) as [Hws|Hws]; [|now left].
  right. destruct (fe_interruption_requested fe); [left | right]; auto.
Qed.

(** The ways through lines 175-291. *)
Lemma handle_frame_cases NDEBUG d rb fe :
  let f := fe_frame fe in
  (nb_samples f <= 0 /\ handle_frame NDEBUG d rb fe = (FrameNext, d, rb, []))
  \/ (0 < nb_samples f
      /\ exists d1 ev1 r ev2,
           update_swr_context d fe = (d1, ev1)
           /\ resample NDEBUG d1 rb fe (original_buffer_size f) = (r, ev2)
           /\ match r with
              | DivisionByZero =>
                  handle_frame NDEBUG d rb fe
                  = (FrameUndefined, d1, rb, ev1 ++ ev2)
              | LengthError =>
                  handle_frame NDEBUG d rb fe
                  = (FrameThrow, d1, rb, ev1 ++ ev2)
              | AssertAbort d2 rb2 =>
                  handle_frame NDEBUG d rb fe
                  = (FrameAbort, d2, rb2, ev1 ++ ev2)
              | ConvertFailed d2 rb2 =>
                  handle_frame NDEBUG d rb fe
                  = (FrameBreak, d2, rb2, ev1 ++ ev2)
              | Ready d2 rb2 wd ws =>
                  exists o d3 ev3,
                    deliver (audio_sync d2 fe) fe wd ws
                            (original_buffer_size f) = (o, d3, ev3)
                    /\ handle_frame NDEBUG d rb fe
                       = (o, d3, rb2, ev1 ++ ev2 ++ ev3)
              end).
Proof.
  intros f. unfold handle_frame. fold f.
  destruct (Z.leb_spec (nb_samples f) 0) as [Hn|Hn]; [now left|].
  right. split; [exact Hn|].
  destruct (update_swr_context d fe) as [d1 ev1] eqn:Hu.
  fold (original_buffer_size f).
  destruct (resample NDEBUG d1 rb fe (original_buffer_size f))
    as [r ev2] eqn:Hr.
  exists d1, ev1, r, ev2. split; [reflexivity|]. split; [exact Hr|].
  destruct r as [d2 rb2 wd ws|d2 rb2|d2 rb2| |]; try reflexivity.
  destruct (deliver (audio_sync d2 fe) fe wd ws (original_buffer_size f))
    as [[o d3] ev3] eqn:Hd.
  exists o, d3, ev3. now split.
Qed.

(** The ways through lines 215-258. *)
Lemma resample_cases_of NDEBUG d rb fe obs :
  let f := fe_frame fe in
  (m_audioSwrContext d = None
   /\ resample NDEBUG d rb fe obs
      = (Ready d rb (FrameData (first_plane f)) obs, []))
  \/ (m_audioSwrContext d <> None /\ sample_rate f = 0
      /\ resample NDEBUG d rb fe obs = (DivisionByZero, []))
  \/ (m_audioSwrContext d <> None /\ sample_rate f <> 0
      /\ resize_if_smaller rb (buffer_size d f) = None
      /\ resample NDEBUG d rb fe obs = (LengthError, []))
  \/ (m_audioSwrContext d <> None /\ sample_rate f <> 0
      /\ resize_if_smaller rb (buffer_size d f)
         = Some (Z.max rb (buffer_size d f))
      /\ exists r ev,
           resample NDEBUG d rb fe obs
           = (r, EvSwrConvert (out_count d f) (nb_samples f) :: ev)
           /\ filter is_write ev = []
           /\ match r with
              | Ready d' rb' wd ws =>
                  0 <= fe_swr_convert fe
                  /\ rb' = Z.max rb (buffer_size d f)
                  /\ wd = ResampleOut
                  /\ ws = converted_write_size d (fe_swr_convert fe)
                  /\ m_audioSwrContext d' <> None
              | ConvertFailed d' rb' =>
                  fe_swr_convert fe < 0 /\ d' = d
                  /\ rb' = Z.max rb (buffer_size d f)
                  /\ ev = [EvLogSwrConvertFailed]
              | AssertAbort d' rb' =>
                  0 <= fe_swr_convert fe /\ NDEBUG = false
                  /\ rb' = Z.max rb (buffer_size d f)
              | DivisionByZero | LengthError => False
              end).
Proof.
  intros f. unfold resample. fold f.
  destruct (m_audioSwrContext d) as [ctx|] eqn:Hctx; [|now left].
  right.
  destruct (Z.eqb_spec (sample_rate f) 0) as [Hz|Hnz];
    [left; repeat split; congruence|].
  right.
  destruct (resize_if_smaller rb (buffer_size d f)) as [rb1|] eqn:Hres;
    [|left; repeat split; congruence].
  right. apply resize_if_smaller_some in Hres. subst rb1.
  split; [congruence|]. split; [exact Hnz|]. split; [reflexivity|].
  destruct (Z.ltb_spec (fe_swr_convert fe) 0) as [Hneg|Hpos].
  { eexists _, _. split; [reflexivity|]. now repeat split. }
  destruct (fe_swr_convert fe =? out_count d f);
    match goal with
    | |- context [write_size_assertion ?a ?b || NDEBUG] =>
        destruct (write_size_assertion a b) eqn:Ha; destruct NDEBUG;
        cbn [orb]
    end;
    eexists _, _; (split; [reflexivity|]); (split; [reflexivity|]);
    cbn; repeat split; congruence.
Qed.

End FrameShape.

(* ================================================================== *)
(** ** What a call of handleAudioPacket keeps *)

Lemma no_write_writes_something (ev : list Event) :
  filter is_write ev = [] ->
  forallb writes_something ev = true /\ forallb writes_converted ev = true.
Proof.
  induction ev as [|e ev IH]; [now split|].
  cbn [filter]. destruct e; cbn; try discriminate; exact IH.
Qed.

Lemma same_setup_refl d : same_setup d d.
Proof. now repeat split. Qed.

Lemma same_setup_trans d1 d2 d3 :
  same_setup d1 d2 -> same_setup d2 d3 -> same_setup d1 d3.
Proof. unfold same_setup. intros (? & ? & ?) (? & ? & ?). repeat split; congruence. Qed.

Section HandleKeeps.

Context {lib : AVUtil}.

Lemma update_swr_context_summary d fe :
  let '(d', ev) := update_swr_context d fe in
  same_setup d d' /\ forallb is_decode_event ev = true.
Proof.
  unfold update_swr_context.
  destruct (swr_context_required d (fe_frame fe));
    [|split; [apply same_setup_refl | reflexivity]].
  destruct (fe_swr_alloc fe); [destruct (fe_swr_init fe <? 0)|];
    now repeat split.
Qed.

Lemma audio_sync_setup d fe :
  same_setup d (audio_sync d fe)
  /\ m_audioStream (audio_sync d fe) = m_audioStream d.
Proof.
  unfold audio_sync.
  destruct (drift_correction (sync_delta d (fe_now fe)));
    now repeat split.
Qed.

Lemma resample_summary NDEBUG d rb fe obs :
  let '(r, ev) := resample NDEBUG d rb fe obs in
  forallb is_decode_event ev = true
  /\ match r with
     | Ready d' rb' _ _ | ConvertFailed d' rb' | AssertAbort d' rb' =>
         rb <= rb' /\ same_setup d d' /\ m_audioStream d' = m_audioStream d
     | DivisionByZero | LengthError => True
     end.
Proof.
  unfold resample.
  destruct (m_audioSwrContext d) as [ctx|];
    [|split; [reflexivity|]; split; [lia|]; split;
      [apply same_setup_refl | reflexivity]].
  destruct (sample_rate (fe_frame fe) =? 0); [now split|].
  destruct (resize_if_smaller rb _) as [rb1|] eqn:Hres; [|now split].
  apply resize_if_smaller_some in Hres. subst rb1.
  destruct (fe_swr_convert fe <? 0).
  { split; [reflexivity|]. split; [lia|]. split;
      [apply same_setup_refl | reflexivity]. }
  destruct (fe_swr_convert fe =? out_count d (fe_frame fe));
    match goal with
    | |- context [write_size_assertion ?a ?b || NDEBUG] =>
        destruct (write_size_assertion a b || NDEBUG)
    end;
    (split; [reflexivity|]); (split; [lia|]); now repeat split.
Qed.

(** One frame: the scratch buffer does not shrink, only decode events
    are issued, nothing empty is written, and the setup is left alone. *)
Lemma handle_frame_summary NDEBUG d rb fe :
  let '(_, d', rb', ev) := handle_frame NDEBUG d rb fe in
  rb <= rb'
  /\ forallb is_decode_event ev = true
  /\ forallb writes_something ev = true
  /\ same_setup d d'
  /\ m_audioStream d' = m_audioStream d.
Proof.
  destruct (handle_frame_cases NDEBUG d rb fe)
    as [(_ & ->)|(_ & d1 & ev1 & r & ev2 & Hu & Hr & Hf)].
  { repeat split; try reflexivity; try lia. }
  pose proof (update_swr_context_summary d fe) as Hs1.
  pose proof (update_swr_context_fields d fe) as (_ & _ & _ & Hst1).
  pose proof (update_swr_context_no_write d fe) as Hw1.
  rewrite Hu in Hs1, Hst1, Hw1. cbn [fst snd] in *.
  destruct Hs1 as (Hsetup1 & Hdec1).
  pose proof (resample_summary NDEBUG d1 rb fe
                (original_buffer_size (fe_frame fe))) as Hs2.
  pose proof (resample_no_write NDEBUG d1 rb fe
                (original_buffer_size (fe_frame fe))) as Hw2.
  rewrite Hr in Hs2, Hw2. cbn [fst snd] in *.
  destruct Hs2 as (Hdec2 & Hkeep).
  destruct (no_write_writes_something ev1 Hw1) as (Hp1 & _).
  destruct (no_write_writes_something ev2 Hw2) as (Hp2 & _).
  destruct r as [d2 rb2 wd ws|d2 rb2|d2 rb2| |].
  - destruct Hf as (o & d3 & ev3 & Hd & ->).
    destruct Hkeep as (Hrb & Hsetup2 & Hst2).
    destruct (audio_sync_setup d2 fe) as (Hsetup3 & Hst3).
    rewrite !forallb_app, Hdec1, Hdec2, Hp1, Hp2.
    destruct (deliver_cases (audio_sync d2 fe) fe wd ws
                (original_buffer_size (fe_frame fe)))
      as [(_ & E)|[(_ & _ & E)|(Hws & _ & E)]];
      rewrite E in Hd; injection Hd as <- <- <-.
    + repeat split; try reflexivity; try exact Hrb; try congruence;
        destruct Hsetup1 as (? & ? & ?), Hsetup2 as (? & ? & ?),
                 Hsetup3 as (? & ? & ?); congruence.
    + repeat split; try reflexivity; try exact Hrb; try congruence;
        destruct Hsetup1 as (? & ? & ?), Hsetup2 as (? & ? & ?),
                 Hsetup3 as (? & ? & ?); congruence.
    + assert (Hpos : (0 <? ws) = true) by now apply Z.ltb_lt.
      cbn [forallb is_decode_event writes_something andb]. rewrite Hpos.
      destruct (pts_advance (fe_frame fe) _ (fe_write_audio fe));
        repeat split; try reflexivity; try exact Hrb;
        cbn [m_audioSettings m_formatContext_streams m_audioPaused
             m_audioStream set_audioPTS];
        destruct Hsetup1 as (? & ? & ?), Hsetup2 as (? & ? & ?),
                 Hsetup3 as (? & ? & ?); congruence.
  - rewrite Hf. destruct Hkeep as (Hrb & Hsetup2 & Hst2).
    rewrite !forallb_app, Hdec1, Hdec2, Hp1, Hp2.
    repeat split; try reflexivity; try exact Hrb; try congruence;
      destruct Hsetup1 as (? & ? & ?), Hsetup2 as (? & ? & ?); congruence.
  - rewrite Hf. destruct Hkeep as (Hrb & Hsetup2 & Hst2).
    rewrite !forallb_app, Hdec1, Hdec2, Hp1, Hp2.
    repeat split; try reflexivity; try exact Hrb; try congruence;
      destruct Hsetup1 as (? & ? & ?), Hsetup2 as (? & ? & ?); congruence.
  - rewrite Hf. rewrite !forallb_app, Hdec1, Hdec2, Hp1, Hp2.
    repeat split; try reflexivity; try lia; try congruence;
      destruct Hsetup1 as (? & ? & ?); congruence.
  - rewrite Hf. rewrite !forallb_app, Hdec1, Hdec2, Hp1, Hp2.
    repeat split; try reflexivity; try lia; try congruence;
      destruct Hsetup1 as (? & ? & ?); congruence.
Qed.

Lemma handle_frames_summary NDEBUG frames : forall d rb,
  let '(_, d', rb', ev) := handle_frames NDEBUG d rb frames in
  rb <= rb'
  /\ forallb is_decode_event ev = true
  /\ forallb writes_something ev = true
  /\ same_setup d d'
  /\ m_audioStream d' = m_audioStream d.
Proof.
  induction frames as [|fe frames IH]; intros d rb.
  { cbn. repeat split; try reflexivity; try lia. }
  cbn [handle_frames].
  pose proof (handle_frame_summary NDEBUG d rb fe) as Hf.
  destruct (handle_frame NDEBUG d rb fe) as [[[o d1] rb1] ev1].
  destruct Hf as (Hrb & Hdec & Hpos & Hsetup & Hst).
  destruct o;
    try (cbn [forallb is_decode_event writes_something andb];
         split; [exact Hrb|]; split; [exact Hdec|]; split; [exact Hpos|];
         split; assumption).
  specialize (IH d1 rb1).
  destruct (handle_frames NDEBUG d1 rb1 frames) as [[[r d2] rb2] ev2].
  destruct IH as (Hrb2 & Hdec2 & Hpos2 & Hsetup2 & Hst2).
  rewrite !forallb_app.
  cbn [forallb is_decode_event writes_something andb].
  rewrite Hdec, Hdec2, Hpos, Hpos2.
  repeat split; try reflexivity; try lia; try congruence;
    destruct Hsetup as (? & ? & ?), Hsetup2 as (? & ? & ?); congruence.
Qed.

Lemma submit_packet_summary d p he :
  let '(_, d', ev) := submit_packet d p he in
  forallb is_decode_event ev = true
  /\ forallb writes_something ev = true
  /\ same_setup d d'
  /\ m_audioPTS d' = m_audioPTS d
  /\ m_videoStartClock d' = m_videoStartClock d
  /\ m_audioSwrContext d' = m_audioSwrContext d
  /\ m_audioCurrentPref d' = m_audioCurrentPref d.
Proof.
  unfold submit_packet.
  destruct (negb (stream_index p =? index (m_audioStream d))); cbn [andb].
  - destruct (he_parameters_to_context he <? 0); cbn [orb app].
    + now repeat split.
    + destruct (he_find_decoder he); cbn [negb orb].
      * destruct (he_open2 he <? 0); [now repeat split|].
        destruct (he_send_packet he <? 0); now repeat split.
      * now repeat split.
  - destruct (he_send_packet he <? 0); now repeat split.
Qed.

(** A call of [handleAudioPacket]. *)
Lemma handleAudioPacket_summary NDEBUG d p rb he :
  let '(_, d', rb', ev) := handleAudioPacket NDEBUG d p rb he in
  rb <= rb'
  /\ forallb is_decode_event ev = true
  /\ forallb writes_something ev = true
  /\ same_setup d d'.
Proof.
  unfold handleAudioPacket.
  pose proof (submit_packet_summary d p he) as Hs.
  destruct (submit_packet d p he) as [[ok d1] ev1].
  destruct Hs as (Hdec & Hpos & Hsetup & _).
  destruct ok;
    [|split; [lia|]; split; [exact Hdec|]; split; [exact Hpos|exact Hsetup]].
  pose proof (handle_frames_summary NDEBUG (he_frames he) d1 rb) as Hf.
  destruct (handle_frames NDEBUG d1 rb (he_frames he)) as [[[r d2] rb2] ev2].
  destruct Hf as (Hrb & Hdec2 & Hpos2 & Hsetup2 & _).
  rewrite !forallb_app, Hdec, Hdec2, Hpos, Hpos2.
  split; [exact Hrb|]. split; [reflexivity|]. split; [reflexivity|].
  exact (same_setup_trans _ _ _ Hsetup Hsetup2).
Qed.

End HandleKeeps.
(* ================================================================== *)
(** ** Drift correction of a processed frame *)

(** C3: for a frame that reaches the synchronisation of lines 260-269 (it
    has samples and neither the conversion nor the assertion stopped it),
    with [delta = m_videoStartClock + m_audioPTS - GetHiResTime()] on the
    clocks the frame found: when [fabs delta > 0.1], [delta] is below or
    above zero and the frame leaves in [m_videoStartClock] the value the
    compare-exchange loop saw last plus 0.05 when [delta < 0], minus 0.05
    when [delta > 0]; when [fabs delta > 0.1] does not hold, and so when
    [fabs delta <= 0.1], the frame leaves [m_videoStartClock] as it found
    it. *)
Theorem C3_drift_correction
    {lib : AVUtil} NDEBUG d rb fe o d' rb' ev :
  let delta :=
    PrimFloat.sub (PrimFloat.add (m_videoStartClock d) (m_audioPTS d))
                  (fe_now fe) in
  let seen := last (fe_startClock_stores fe) (m_videoStartClock d) in
  handle_frame NDEBUG d rb fe = (o, d', rb', ev) ->
  0 < nb_samples (fe_frame fe) ->
  o = FrameNext \/ o = FrameReturnFalse ->
  (PrimFloat.ltb 0x1.999999999999ap-4 (PrimFloat.abs delta) = true ->
   PrimFloat.ltb delta 0 = true ->
   m_videoStartClock d' = PrimFloat.add seen 0x1.999999999999ap-5)
  /\ (PrimFloat.ltb 0x1.999999999999ap-4 (PrimFloat.abs delta) = true ->
      PrimFloat.ltb 0 delta = true ->
      m_videoStartClock d'
      = PrimFloat.add seen (PrimFloat.opp 0x1.999999999999ap-5))
  /\ (PrimFloat.ltb 0x1.999999999999ap-4 (PrimFloat.abs delta) = true ->
      PrimFloat.ltb delta 0 = true \/ PrimFloat.ltb 0 delta = true)
  /\ (PrimFloat.ltb 0x1.999999999999ap-4 (PrimFloat.abs delta) = false ->
      m_videoStartClock d' = m_videoStartClock d)
  /\ (PrimFloat.leb (PrimFloat.abs delta) 0x1.999999999999ap-4 = true ->
      m_videoStartClock d' = m_videoStartClock d).
Proof.
  intros delta seen Hh Hn Ho.
  destruct (handle_frame_cases NDEBUG d rb fe)
    as [(Hle & _)|(_ & d1 & ev1 & r & ev2 & Hu & Hr & Hf)]; [lia|].
  destruct r as [d2 rb2 wd ws|d2 rb2|d2 rb2| |];
    try (rewrite Hf in Hh; injection Hh as <- _ _ _;
         destruct Ho; discriminate).
  destruct Hf as (o3 & d3 & ev3 & Hd & Hf). rewrite Hf in Hh.
  injection Hh as _ <- _ _.
  pose proof (update_swr_context_fields d fe) as (Hpts1 & Hclk1 & _).
  rewrite Hu in Hpts1, Hclk1. cbn [fst] in Hpts1, Hclk1.
  apply resample_ready_fields in Hr as (Hpts2 & Hclk2 & _).
  assert (Hclk3 : m_videoStartClock d3
                  = m_videoStartClock (audio_sync d2 fe)).
  { destruct (deliver_cases (audio_sync d2 fe) fe wd ws
                (original_buffer_size (fe_frame fe)))
      as [(_ & E)|[(_ & _ & E)|(_ & _ & E)]];
      rewrite E in Hd; injection Hd as _ <- _; try reflexivity.
    now destruct (pts_advance (fe_frame fe) _ (fe_write_audio fe)). }
  rewrite Hclk3. clear Hclk3 Hd.
  unfold audio_sync, drift_correction, sync_delta.
  rewrite Hclk2, Hclk1, Hpts2, Hpts1. fold delta.
  change (CDouble.gt (CDouble.fabs delta) CDouble.c_0_1)
    with (PrimFloat.ltb 0x1.999999999999ap-4 (PrimFloat.abs delta)).
  change (CDouble.lt delta CDouble.zero) with (PrimFloat.ltb delta 0).
  destruct (PrimFloat.ltb 0x1.999999999999ap-4 (PrimFloat.abs delta))
    eqn:Hband.
  - pose proof (beyond_band_signed delta Hband) as Hsign.
    cbn [m_videoStartClock set_videoStartClock].
    rewrite compare_exchange_add_last. fold seen.
    rewrite (leb_not_gt_false _ _ Hband).
    destruct (PrimFloat.ltb 0 delta); cbn [negb] in Hsign; rewrite Hsign.
    + split; [discriminate|]. split; [reflexivity|]. split; [auto|].
      split; discriminate.
    + split; [reflexivity|]. split; [discriminate|]. split; [auto|].
      split; discriminate.
  - split; [discriminate|]. split; [discriminate|].
    split; [discriminate|]. split; intros _; congruence.
Qed.

Lemma C3_drift_correction_witness :
  let d :=
    set_videoStartClock (Sample.decoder None Sample.settings)
                        (-0.25)%float in
  let fe :=
    Sample.frame_env (Sample.frame 1024 44100 Sample.AV_SAMPLE_FMT_S16)
                     true 0 0 false true in
  m_videoStartClock
    (snd (fst (fst (@handle_frame Sample.libavutil true d 0 fe))))
  = (-0.25 + 0x1.999999999999ap-5)%float.
Proof.
  intros d fe.
  refine (proj1 (@C3_drift_correction Sample.libavutil true d 0 fe
                   (fst (fst (fst (@handle_frame Sample.libavutil true d 0
                                                 fe))))
                   (snd (fst (fst (@handle_frame Sample.libavutil true d 0
                                                 fe))))
                   (snd (fst (@handle_frame Sample.libavutil true d 0 fe)))
                   (snd (@handle_frame Sample.libavutil true d 0 fe))
                   _ _ _) _ _).
  - vm_compute. reflexivity.
  - vm_compute. reflexivity.
  - left. vm_compute. reflexivity.
  - vm_compute. reflexivity.
  - vm_compute. reflexivity.
Defined.

(** Three runs of the synchronisation: the audio clock late by a quarter
    of a second, early by a quarter, and within the band. *)
Example audio_sync_runs :
  let d v := set_videoStartClock (Sample.decoder None Sample.settings) v in
  let fe := Sample.frame_env (Sample.frame 1024 44100 1) true 0 0 false true in
  m_videoStartClock (audio_sync (d (-0.25)%float) fe) = (-0.25 + 0x1.999999999999ap-5)%float
  /\ m_videoStartClock (audio_sync (d 0.25%float) fe) = (0.25 - 0x1.999999999999ap-5)%float
  /\ m_videoStartClock (audio_sync (d 0.0625%float) fe) = 0.0625%float.
Proof. vm_compute. repeat split. Qed.
(* ================================================================== *)
(** ** A packet of another stream *)

(** C9: for a packet whose stream index is not that of [m_audioStream],
    [handleAudioPacket] calls [avcodec_close] and
    [avcodec_parameters_to_context] first, leaves the stream of the
    packet's index in [m_audioStream], and then looks for the decoder and
    opens it as far as the calls before succeeded; when all succeeded the
    next call is [avcodec_send_packet] on the packet. When one of them
    failed, nothing else is called (no packet sent, no frame received or
    written), false is returned, the scratch buffer and every other
    member are as before, and the audio thread that made the call from
    line 125 releases the packet, leaves the inner loop and carries on
    with its next pass. *)
Theorem C9_stream_switch_failure
    {lib : AVUtil} NDEBUG d l pa script pe pops p d_b l_b ev_b r d' rb' ev :
  let he := pe_handle pe in
  let attempt :=
    if he_parameters_to_context he <? 0 then []
    else EvFindDecoder :: (if he_find_decoder he then [EvCodecOpen] else []) in
  let failed :=
    (he_parameters_to_context he <? 0) || negb (he_find_decoder he)
    || (he_open2 he <? 0) in
  stream_index p <> index (m_audioStream d_b) ->
  handleAudioPacket NDEBUG d_b p (resampleBuffer l) he = (r, d', rb', ev) ->
  m_audioStream d' = m_formatContext_streams d_b (stream_index p)
  /\ (exists rest,
        ev = EvCodecClose :: EvParametersToContext (stream_index p)
               :: attempt ++ rest
        /\ (failed = true -> rest = [])
        /\ (failed = false -> hd_error rest = Some (EvSendPacket p)))
  /\ (failed = true ->
      r = Returned false
      /\ rb' = resampleBuffer l
      /\ m_formatContext_streams d' = m_formatContext_streams d_b
      /\ m_audioSwrContext d' = m_audioSwrContext d_b
      /\ m_audioSettings d' = m_audioSettings d_b
      /\ m_audioCurrentPref d' = m_audioCurrentPref d_b
      /\ m_videoStartClock d' = m_videoStartClock d_b
      /\ m_audioPTS d' = m_audioPTS d_b
      /\ m_audioPaused d' = m_audioPaused d_b
      /\ (pa_isPaused_49 pa = false -> m_audioPaused d = false ->
          handlePacketPostponed l = false ->
          pa_pops pa = pe :: pops -> pe_pop pe = Some p ->
          establish_baseline NDEBUG d (set_packet l p) pe
          = (None, d_b, l_b, ev_b) ->
          size p <> 0 ->
          pa_interrupted_135 pa = false ->
          run_passes NDEBUG d l (pa :: script)
          = let '(o, d'', l'', ev') :=
              run_passes NDEBUG d' (after_packet l p rb') script in
            (o, d'', l'',
             (EvPop (Some p) :: ev_b ++ ev ++ [EvUnref p]) ++ ev'))).
Proof.
  intros he attempt failed Hidx Hh.
  assert (Hsub :
            submit_packet d_b p he
            = (negb failed && negb (he_send_packet he <? 0),
               set_audioStream d_b
                 (m_formatContext_streams d_b (stream_index p)),
               EvCodecClose :: EvParametersToContext (stream_index p)
                 :: attempt ++ (if failed then [] else [EvSendPacket p]))).
  { unfold submit_packet, attempt, failed.
    destruct (Z.eqb_spec (stream_index p) (index (m_audioStream d_b)))
      as [E|_]; [contradiction|].
    cbn [negb andb].
    destruct (he_parameters_to_context he <? 0); cbn [orb negb andb app];
      [reflexivity|].
    destruct (he_find_decoder he); cbn [orb negb andb app];
      [|reflexivity].
    destruct (he_open2 he <? 0); cbn [negb andb app]; [reflexivity|].
    destruct (he_send_packet he <? 0); reflexivity. }
  pose proof Hh as Hcall.
  unfold handleAudioPacket in Hh. rewrite Hsub in Hh.
  destruct failed eqn:Hfailed; cbn [negb andb] in Hh.
  - injection Hh as <- <- <- <-.
    split; [reflexivity|]. split.
    { exists []. split; [reflexivity|]. split; [reflexivity|discriminate]. }
    intros _. do 9 (split; [reflexivity|]).
    intros Hrun Hpaused Hpost Hpops Hpop Hbase Hsize Hint.
    exact (unhandled_ends_pass_only NDEBUG d l pa script pe pops p d_b l_b
             ev_b _ _ _ Hrun Hpaused Hpost Hpops Hpop Hbase Hsize Hcall
             Hint).
  - destruct (he_send_packet he <? 0); cbn [negb] in Hh.
    + injection Hh as <- <- <- <-.
      split; [reflexivity|]. split; [|discriminate].
      exists [EvSendPacket p]. split; [reflexivity|].
      split; [discriminate | reflexivity].
    + pose proof (handle_frames_summary NDEBUG (he_frames he)
                    (set_audioStream d_b
                       (m_formatContext_streams d_b (stream_index p)))
                    (resampleBuffer l)) as Hs.
      destruct (handle_frames NDEBUG _ (resampleBuffer l) (he_frames he))
        as [[[r2 d2] rb2] ev2].
      destruct Hs as (_ & _ & _ & _ & Hst).
      injection Hh as <- <- <- <-.
      split; [exact Hst|]. split; [|discriminate].
      exists (EvSendPacket p :: ev2).
      split; [now rewrite <- !app_assoc|].
      split; [discriminate | reflexivity].
Qed.

Lemma C9_stream_switch_failure_witness :
  let d := Sample.decoder None Sample.settings in
  let l := Sample.running_locals in
  let p := Sample.packet_of 1 0 100 in
  let he :=
    {| he_parameters_to_context := 0;
       he_find_decoder := false;
       he_open2 := 0;
       he_send_packet := 0;
       he_frames := [] |} in
  let pa := Sample.pass_env [Sample.pop_env (Some p) he] false in
  let call :=
    @handleAudioPacket Sample.libavutil true d p (resampleBuffer l) he in
  m_audioStream (snd (fst (fst call))) = Sample.stream 1
  /\ fst (fst (fst call)) = Returned false
  /\ @run_passes Sample.libavutil true d l [pa]
     = let '(o, d'', l'', ev') :=
         @run_passes Sample.libavutil true (snd (fst (fst call)))
           (after_packet l p (snd (fst call))) [] in
       (o, d'', l'',
        (EvPop (Some p) :: [] ++ snd call ++ [EvUnref p]) ++ ev').
Proof.
  intros d l p he pa call.
  pose proof (@C9_stream_switch_failure Sample.libavutil true d l pa []
                (Sample.pop_env (Some p) he) [] p d (set_packet l p) []
                (fst (fst (fst call))) (snd (fst (fst call)))
                (snd (fst call)) (snd call)) as H.
  cbv zeta in H.
  assert (Hidx : stream_index p <> index (m_audioStream d))
    by (vm_compute; discriminate).
  assert (Hcall :
            @handleAudioPacket Sample.libavutil true d p (resampleBuffer l)
              (pe_handle (Sample.pop_env (Some p) he))
            = (fst (fst (fst call)), snd (fst (fst call)), snd (fst call),
               snd call))
    by (vm_compute; reflexivity).
  destruct (H Hidx Hcall) as (Hstream & _ & Hfail).
  destruct (Hfail eq_refl)
    as (Hr & _ & _ & _ & _ & _ & _ & _ & _ & Hthread).
  split; [exact Hstream|]. split; [exact Hr|].
  apply Hthread.
  - reflexivity.
  - reflexivity.
  - reflexivity.
  - reflexivity.
  - reflexivity.
  - reflexivity.
  - vm_compute. discriminate.
  - reflexivity.
Defined.

(* ================================================================== *)
(** ** Edge behaviour of the drain loop *)

Section DrainLoop.

Context {lib : AVUtil}.

Lemma resample_pts NDEBUG d rb fe obs :
  match fst (resample NDEBUG d rb fe obs) with
  | Ready d' _ _ _ | ConvertFailed d' _ | AssertAbort d' _ =>
      m_audioPTS d' = m_audioPTS d
  | DivisionByZero | LengthError => True
  end.
Proof.
  unfold resample. destruct (m_audioSwrContext d) as [ctx|]; [|reflexivity].
  destruct (sample_rate (fe_frame fe) =? 0); [exact I|].
  destruct (resize_if_smaller rb _); [|exact I].
  destruct (fe_swr_convert fe <? 0); [reflexivity|].
  destruct (fe_swr_convert fe =? out_count d (fe_frame fe));
    match goal with
    | |- context [write_size_assertion ?a ?b || NDEBUG] =>
        destruct (write_size_assertion a b || NDEBUG)
    end; reflexivity.
Qed.

Lemma handle_frame_return_false NDEBUG d rb fe d' rb' ev :
  handle_frame NDEBUG d rb fe = (FrameReturnFalse, d', rb', ev) ->
  has_samples fe = true /\ fe_interruption_requested fe = true.
Proof.
  intros H.
  destruct (handle_frame_cases NDEBUG d rb fe)
    as [(_ & E)|(Hn & d1 & ev1 & r & ev2 & _ & _ & Hf)];
    [congruence|].
  split; [now apply Z.ltb_lt|].
  destruct r as [d2 rb2 wd ws|d2 rb2|d2 rb2| |]; try congruence.
  destruct Hf as (o & d3 & ev3 & Hd & E).
  destruct (deliver_cases (audio_sync d2 fe) fe wd ws
              (original_buffer_size (fe_frame fe)))
    as [(_ & E')|[(_ & Hi & _)|(_ & _ & E')]]; congruence.
Qed.

Lemma handle_frames_false NDEBUG frames : forall d rb d' rb' ev,
  handle_frames NDEBUG d rb frames = (Returned false, d', rb', ev) ->
  Exists (fun fe => has_samples fe = true
                    /\ fe_interruption_requested fe = true) frames.
Proof.
  induction frames as [|fe frames IH]; intros d rb d' rb' ev;
    [discriminate|].
  cbn [handle_frames].
  destruct (handle_frame NDEBUG d rb fe) as [[[o d1] rb1] ev1] eqn:Hf.
  destruct o; try discriminate.
  - destruct (handle_frames NDEBUG d1 rb1 frames) as [[[r d2] rb2] ev2] eqn:Hr.
    intros [= -> _ _ _]. right. exact (IH _ _ _ _ _ Hr).
  - intros _. left. exact (handle_frame_return_false _ _ _ _ _ _ _ Hf).
Qed.

Lemma handle_frame_pts_kept NDEBUG d rb fe :
  fe_write_audio fe = true \/ sample_rate (fe_frame fe) = 0 ->
  let '(_, d', _, _) := handle_frame NDEBUG d rb fe in
  m_audioPTS d' = m_audioPTS d.
Proof.
  intros Hacc.
  destruct (handle_frame_cases NDEBUG d rb fe)
    as [(_ & ->)|(_ & d1 & ev1 & r & ev2 & Hu & Hr & Hf)]; [reflexivity|].
  pose proof (update_swr_context_fields d fe) as (H1 & _).
  pose proof (resample_pts NDEBUG d1 rb fe
                (original_buffer_size (fe_frame fe))) as H2.
  rewrite Hu in H1. rewrite Hr in H2. cbn [fst] in *.
  destruct r as [d2 rb2 wd ws|d2 rb2|d2 rb2| |];
    try (rewrite Hf; congruence).
  destruct Hf as (o & d3 & ev3 & Hd & ->).
  destruct (audio_sync_fields d2 fe) as (H3 & _).
  apply (pts_advance_none (fe_frame fe)
           (original_buffer_size (fe_frame fe))) in Hacc.
  destruct (deliver_cases (audio_sync d2 fe) fe wd ws
              (original_buffer_size (fe_frame fe)))
    as [(_ & E)|[(_ & _ & E)|(_ & _ & E)]];
    rewrite E in Hd; injection Hd as <- <- <-;
    rewrite ?Hacc; congruence.
Qed.

End DrainLoop.

(** X3: A frame with samples and a sample rate of zero that finds a context
    in place after the check of lines 194-213 makes line 219 divide by
    zero, and nothing else does. *)
Theorem division_by_zero_iff {lib : AVUtil} NDEBUG d rb fe :
  fst (fst (fst (handle_frame NDEBUG d rb fe))) = FrameUndefined
  <-> 0 < nb_samples (fe_frame fe)
      /\ sample_rate (fe_frame fe) = 0
      /\ m_audioSwrContext (fst (update_swr_context d fe)) <> None.
Proof.
  destruct (handle_frame_cases NDEBUG d rb fe)
    as [(Hn & ->)|(Hn & d1 & ev1 & r & ev2 & Hu & Hr & Hf)].
  { cbn. split; [discriminate | lia]. }
  rewrite Hu. cbn [fst].
  destruct (resample_cases_of NDEBUG d1 rb fe
              (original_buffer_size (fe_frame fe)))
    as [(Hc & E)|[(Hc & Hz & E)|[(Hc & Hnz & _ & E)
                                |(Hc & Hnz & _ & r' & ev' & E & _ & Hr')]]];
    rewrite E in Hr; injection Hr as <- <-.
  - destruct Hf as (o & d3 & ev3 & Hd & ->). cbn [fst].
    split; [|tauto].
    destruct (deliver_cases (audio_sync d1 fe) fe
                (FrameData (first_plane (fe_frame fe)))
                (original_buffer_size (fe_frame fe))
                (original_buffer_size (fe_frame fe)))
      as [(_ & E')|[(_ & _ & E')|(_ & _ & E')]];
      rewrite E' in Hd; injection Hd as <- _ _; discriminate.
  - rewrite Hf. cbn. tauto.
  - rewrite Hf. cbn [fst]. split; [discriminate|tauto].
  - split; [|tauto]. destruct r' as [d2 rb2 wd ws|d2 rb2|d2 rb2| |];
      try (rewrite Hf; discriminate); try contradiction.
    destruct Hf as (o & d3 & ev3 & Hd & ->). cbn [fst].
    destruct (deliver_cases (audio_sync d2 fe) fe wd ws
                (original_buffer_size (fe_frame fe)))
      as [(_ & E')|[(_ & _ & E')|(_ & _ & E')]];
      rewrite E' in Hd; injection Hd as <- _ _; discriminate.
Qed.

(** X4: A frame of sample rate zero whose format is not the cached one and
    for which [swr_alloc_set_opts] gives a context runs into that
    division, whatever [swr_init] answers: the context stays in place
    also when its initialisation fails. *)
Theorem zero_rate_frame_divides_by_zero {lib : AVUtil} NDEBUG d rb fe :
  0 < nb_samples (fe_frame fe) ->
  sample_rate (fe_frame fe) = 0 ->
  ap_frequency (m_audioCurrentPref d) <> 0 ->
  fe_swr_alloc fe = true ->
  fst (fst (fst (handle_frame NDEBUG d rb fe))) = FrameUndefined
  /\ filter is_write (snd (handle_frame NDEBUG d rb fe)) = [].
Proof.
  intros Hn Hz Hpref Halloc.
  assert (Hreq : swr_context_required d (fe_frame fe) = true).
  { unfold swr_context_required. rewrite Hz.
    destruct (Z.eqb_spec 0 (ap_frequency (m_audioCurrentPref d)));
      [congruence|]. cbn. now rewrite !orb_true_r. }
  unfold handle_frame, update_swr_context.
  destruct (Z.leb_spec (nb_samples (fe_frame fe)) 0); [lia|].
  rewrite Hreq, Halloc. unfold resample.
  cbn [m_audioSwrContext set_swr]. rewrite Hz. cbn [Z.eqb fst snd].
  split; [reflexivity|]. rewrite filter_app.
  destruct (fe_swr_init fe <? 0); reflexivity.
Qed.

Lemma zero_rate_frame_divides_by_zero_witness :
  let d := Sample.decoder None Sample.settings in
  let fe :=
    Sample.frame_env (Sample.frame 1024 0 Sample.AV_SAMPLE_FMT_S16)
                     true (-22) 0 false true in
  fst (fst (fst (@handle_frame Sample.libavutil true d 0 fe)))
  = FrameUndefined
  /\ filter is_write (snd (@handle_frame Sample.libavutil true d 0 fe)) = [].
Proof.
  apply (@zero_rate_frame_divides_by_zero Sample.libavutil true
           (Sample.decoder None Sample.settings) 0
           (Sample.frame_env (Sample.frame 1024 0 Sample.AV_SAMPLE_FMT_S16)
                             true (-22) 0 false true)).
  - reflexivity.
  - reflexivity.
  - discriminate.
  - reflexivity.
Defined.

(** X5: When the scratch buffer can be brought to [buffer_size] (the size
    asked of [resize] at line 230 is at most [max_size]) and [swr_convert]
    then fails, the frame is dropped and the while loop is left by
    [break]: the frames still in the decoder are not received, and the
    packet counts as handled. *)
Theorem convert_failure_leaves_the_loop
    {lib : AVUtil} NDEBUG d rb fe rest d1 ev1 :
  let f := fe_frame fe in
  0 < nb_samples f ->
  update_swr_context d fe = (d1, ev1) ->
  m_audioSwrContext d1 <> None ->
  sample_rate f <> 0 ->
  buffer_size d1 f <= vector_max_size ->
  fe_swr_convert fe < 0 ->
  handle_frames NDEBUG d rb (fe :: rest)
  = (Returned true, d1, Z.max rb (buffer_size d1 f),
     EvReceiveFrame true
       :: ev1 ++ [EvSwrConvert (out_count d1 f) (nb_samples f);
                  EvLogSwrConvertFailed]).
Proof.
  intros f Hn Hu Hctx Hrate Hsize Hneg. cbn [handle_frames].
  unfold handle_frame. fold f.
  destruct (Z.leb_spec (nb_samples f) 0); [lia|].
  rewrite Hu. unfold resample. fold f.
  destruct (m_audioSwrContext d1) as [ctx|]; [|contradiction].
  destruct (Z.eqb_spec (sample_rate f) 0); [contradiction|].
  rewrite (resize_if_smaller_max _ _ Hsize).
  destruct (Z.ltb_spec (fe_swr_convert fe) 0); [|lia].
  reflexivity.
Qed.

Lemma convert_failure_leaves_the_loop_witness :
  let d := Sample.decoder (Some (Sample.context_of 48000 3 true))
                          (Sample.params_of 48000 3) in
  let f := Sample.frame 1024 48000 Sample.AV_SAMPLE_FMT_FLT in
  let fe := Sample.frame_env f true 0 (-22) false true in
  @handle_frames Sample.libavutil true d 0 [fe; fe; fe]
  = (Returned true, d, Z.max 0 (@buffer_size Sample.libavutil d f),
     EvReceiveFrame true
       :: [] ++ [EvSwrConvert (@out_count d f) (nb_samples f);
                 EvLogSwrConvertFailed]).
Proof.
  apply (@convert_failure_leaves_the_loop Sample.libavutil true
           (Sample.decoder (Some (Sample.context_of 48000 3 true))
                           (Sample.params_of 48000 3)) 0
           (Sample.frame_env (Sample.frame 1024 48000 3) true 0 (-22)
                             false true)).
  - reflexivity.
  - reflexivity.
  - discriminate.
  - discriminate.
  - vm_compute. discriminate.
  - reflexivity.
Defined.

(** X7: [handleAudioPacket] reports a packet as not handled only when the
    packet could not be submitted (the stream's decoder could not be
    opened, or [avcodec_send_packet] refused it) or when an interruption
    was requested at a frame with samples: a failed conversion or an
    undersized buffer never does. *)
Theorem unhandled_only_by_submission_or_interruption
    {lib : AVUtil} NDEBUG d p rb he d' rb' ev :
  handleAudioPacket NDEBUG d p rb he = (Returned false, d', rb', ev) ->
  fst (fst (submit_packet d p he)) = false
  \/ Exists (fun fe => has_samples fe = true
                       /\ fe_interruption_requested fe = true)
            (he_frames he).
Proof.
  unfold handleAudioPacket.
  destruct (submit_packet d p he) as [[ok d1] ev1]. cbn [fst].
  destruct ok; [|now left].
  destruct (handle_frames NDEBUG d1 rb (he_frames he))
    as [[[r d2] rb2] ev2] eqn:Hr.
  intros [= -> _ _ _]. right. exact (handle_frames_false _ _ _ _ _ _ _ Hr).
Qed.

Lemma unhandled_only_by_submission_or_interruption_witness :
  let d := Sample.decoder None Sample.settings in
  let p := Sample.packet_of 0 0 100 in
  let f := Sample.frame 1024 44100 Sample.AV_SAMPLE_FMT_S16 in
  let he := Sample.handle_env [Sample.frame_env f true 0 0 true true] in
  fst (fst (submit_packet d p he)) = false
  \/ Exists (fun fe => has_samples fe = true
                       /\ fe_interruption_requested fe = true)
            (he_frames he).
Proof.
  apply (@unhandled_only_by_submission_or_interruption Sample.libavutil true
           (Sample.decoder None Sample.settings) (Sample.packet_of 0 0 100) 0
           (Sample.handle_env
              [Sample.frame_env (Sample.frame 1024 44100 1) true 0 0
                                true true])
           (Sample.decoder None Sample.settings) 0
           [EvSendPacket (Sample.packet_of 0 0 100); EvReceiveFrame true]).
  vm_compute. reflexivity.
Defined.

(** X8: While the sink takes every buffer at once (or the frames have no
    sample rate), a call of [handleAudioPacket] leaves [m_audioPTS] as it
    found it, however many frames it plays. *)
Theorem accepted_writes_keep_the_audio_clock
    {lib : AVUtil} NDEBUG d p rb he :
  Forall (fun fe => fe_write_audio fe = true
                    \/ sample_rate (fe_frame fe) = 0) (he_frames he) ->
  m_audioPTS (snd (fst (fst (handleAudioPacket NDEBUG d p rb he))))
  = m_audioPTS d.
Proof.
  intros Hall. unfold handleAudioPacket.
  pose proof (submit_packet_summary d p he) as Hs.
  destruct (submit_packet d p he) as [[ok d1] ev1].
  destruct Hs as (_ & _ & _ & Hpts & _).
  destruct ok; [|exact Hpts].
  rewrite <- Hpts. clear Hpts. revert d1 rb.
  induction Hall as [|fe frames Hacc _ IH]; intros d1 rb;
    [reflexivity|].
  cbn [handle_frames].
  pose proof (handle_frame_pts_kept NDEBUG d1 rb fe Hacc) as Hf.
  destruct (handle_frame NDEBUG d1 rb fe) as [[[o d2] rb2] ev2].
  destruct o; try exact Hf.
  specialize (IH d2 rb2).
  destruct (handle_frames NDEBUG d2 rb2 frames) as [[[r d3] rb3] ev3].
  cbn [fst snd] in *. congruence.
Qed.

Lemma accepted_writes_keep_the_audio_clock_witness :
  let d := Sample.decoder None Sample.settings in
  let p := Sample.packet_of 0 0 100 in
  let f := Sample.frame 1024 44100 Sample.AV_SAMPLE_FMT_S16 in
  let he := Sample.handle_env [Sample.frame_env f true 0 0 false true;
                               Sample.frame_env f true 0 0 false true] in
  m_audioPTS
    (snd (fst (fst (@handleAudioPacket Sample.libavutil true d p 0 he))))
  = m_audioPTS d.
Proof.
  apply (@accepted_writes_keep_the_audio_clock Sample.libavutil true
           (Sample.decoder None Sample.settings) (Sample.packet_of 0 0 100) 0
           (Sample.handle_env
              [Sample.frame_env (Sample.frame 1024 44100 1) true 0 0
                                false true;
               Sample.frame_env (Sample.frame 1024 44100 1) true 0 0
                                false true])).
  repeat constructor.
Defined.

(** X2: What a frame hands to the sink is decided by the context alone: with
    no context in place after the check of lines 194-213 it is the
    frame's first plane with its original byte size, with a context it is
    the scratch buffer with the converted sample count times the target's
    bytes per sample frame; and it is never empty. *)
Theorem written_buffer
    {lib : AVUtil} NDEBUG d rb fe o d' rb' ev wd ws :
  let f := fe_frame fe in
  let d1 := fst (update_swr_context d fe) in
  handle_frame NDEBUG d rb fe = (o, d', rb', ev) ->
  In (EvWriteAudio wd ws) ev ->
  0 < ws
  /\ ((m_audioSwrContext d1 = None
       /\ wd = FrameData (first_plane f)
       /\ ws = original_buffer_size f)
      \/ (m_audioSwrContext d1 <> None
          /\ wd = ResampleOut
          /\ 0 <= fe_swr_convert fe
          /\ ws = converted_write_size d1 (fe_swr_convert fe))).
Proof.
  intros f d1' Hh Hin. subst d1'.
  destruct (handle_frame_cases NDEBUG d rb fe)
    as [(_ & E)|(_ & d1 & ev1 & r & ev2 & Hu & Hr & Hf)].
  { rewrite E in Hh. injection Hh as _ _ _ <-. destruct Hin. }
  rewrite Hu. cbn [fst]. fold f in Hr, Hf.
  pose proof (update_swr_context_no_write d fe) as Hw1.
  pose proof (resample_no_write NDEBUG d1 rb fe (original_buffer_size f))
    as Hw2.
  rewrite Hu in Hw1. rewrite Hr in Hw2. cbn [snd] in *.
  assert (Hnot : forall l, filter is_write l = [] ->
                           ~ In (EvWriteAudio wd ws) l).
  { intros l Hl Hi.
    assert (Hf' : In (EvWriteAudio wd ws) (filter is_write l))
      by (apply filter_In; now split).
    rewrite Hl in Hf'. destruct Hf'. }
  assert (Hdel : exists d2 rb2 wd0 ws0 d3 o3,
            r = Ready d2 rb2 wd0 ws0
            /\ deliver (audio_sync d2 fe) fe wd0 ws0 (original_buffer_size f)
               = (o3, d3, [EvWriteAudio wd ws])).
  { destruct r as [d2 rb2 wd0 ws0|d2 rb2|d2 rb2| |];
      try (rewrite Hf in Hh; injection Hh as _ _ _ <-;
           apply in_app_or in Hin as [Hi|Hi]; exfalso;
           [exact (Hnot ev1 Hw1 Hi) | exact (Hnot ev2 Hw2 Hi)]).
    destruct Hf as (o3 & d3 & ev3 & Hd & E). rewrite E in Hh.
    injection Hh as _ _ _ <-.
    apply in_app_or in Hin as [Hi|Hi]; [now apply (Hnot ev1) in Hi|].
    apply in_app_or in Hi as [Hi|Hi]; [now apply (Hnot ev2) in Hi|].
    exists d2, rb2, wd0, ws0, d3, o3. split; [reflexivity|].
    destruct (deliver_cases (audio_sync d2 fe) fe wd0 ws0
                (original_buffer_size f))
      as [(_ & E')|[(_ & _ & E')|(_ & _ & E')]];
      rewrite E' in Hd; injection Hd as <- <- <-;
      try (now destruct Hi).
    destruct Hi as [[= -> ->]|[]]. exact E'. }
  destruct Hdel as (d2 & rb2 & wd0 & ws0 & d3 & o3 & -> & Hd).
  assert (Hsame : wd0 = wd /\ ws0 = ws /\ 0 < ws).
  { destruct (deliver_cases (audio_sync d2 fe) fe wd0 ws0
                (original_buffer_size f))
      as [(_ & E')|[(_ & _ & E')|(Hws & _ & E')]];
      rewrite E' in Hd; try discriminate.
    injection Hd as _ _ <- <-. auto. }
  destruct Hsame as (-> & -> & Hws). split; [exact Hws|].
  destruct (resample_cases_of NDEBUG d1 rb fe (original_buffer_size f))
    as [(Hc & E)|[(Hc & Hz & E)|[(Hc & Hnz & _ & E)
                                |(Hc & Hnz & _ & r' & ev' & E & _ & Hr')]]];
    fold f in E; rewrite E in Hr; try discriminate.
  - injection Hr as _ _ <- <- _. left. auto.
  - injection Hr as -> _. destruct Hr' as (Hpos & _ & -> & -> & _).
    right. auto.
Qed.

Lemma written_buffer_witness :
  let d := Sample.decoder None Sample.settings in
  let f := Sample.frame 1024 48000 Sample.AV_SAMPLE_FMT_FLT in
  let fe := Sample.frame_env f true 0 940 false true in
  let d1 := fst (@update_swr_context Sample.libavutil d fe) in
  0 < 3760
  /\ ((m_audioSwrContext d1 = None
       /\ ResampleOut = FrameData (first_plane f)
       /\ 3760 = @original_buffer_size Sample.libavutil f)
      \/ (m_audioSwrContext d1 <> None
          /\ ResampleOut = ResampleOut
          /\ 0 <= fe_swr_convert fe
          /\ 3760
             = @converted_write_size Sample.libavutil d1 (fe_swr_convert fe))).
Proof.
  apply (@written_buffer Sample.libavutil true
           (Sample.decoder None Sample.settings) 0
           (Sample.frame_env
              (Sample.frame 1024 48000 Sample.AV_SAMPLE_FMT_FLT)
              true 0 940 false true)
           FrameNext
           (set_swr (Sample.decoder None Sample.settings)
              (Some (Sample.context_of 48000 3 true))
              (Sample.params_of 48000 3))
           4784
           [EvSwrFree; EvSwrAlloc 3 3 48000; EvSwrInit;
            EvSwrConvert 1196 1024; EvWriteAudio ResampleOut 3760]).
  - vm_compute. reflexivity.
  - do 4 right. left. reflexivity.
Defined.

(** X6: Frames without samples (line 175) only cost a call of the decoder:
    with them or without them the drain loop ends the same way, leaves
    the same decoder and scratch buffer, and makes the same calls apart
    from those of [avcodec_receive_frame]. *)
Theorem empty_frames_are_skipped {lib : AVUtil} NDEBUG frames : forall d rb,
  let '(r, d1, rb1, ev1) := handle_frames NDEBUG d rb frames in
  let '(r', d2, rb2, ev2) :=
    handle_frames NDEBUG d rb (filter has_samples frames) in
  r = r' /\ d1 = d2 /\ rb1 = rb2
  /\ without_receives ev1 = without_receives ev2.
Proof.
  induction frames as [|fe frames IH]; intros d rb; [now cbn|].
  cbn [filter]. unfold has_samples at 1.
  destruct (Z.ltb_spec 0 (nb_samples (fe_frame fe))) as [Hn|Hn].
  - cbn [handle_frames].
    destruct (handle_frame NDEBUG d rb fe) as [[[o d1] rb1] ev1].
    destruct o; try now repeat split.
    specialize (IH d1 rb1).
    destruct (handle_frames NDEBUG d1 rb1 frames) as [[[r d2] rb2] ev2].
    destruct (handle_frames NDEBUG d1 rb1 (filter has_samples frames))
      as [[[r' d3] rb3] ev3].
    destruct IH as (-> & -> & -> & Hev). repeat split.
    unfold without_receives in *.
    change (EvReceiveFrame true :: ev1) with ([EvReceiveFrame true] ++ ev1).
    rewrite !filter_app. now rewrite Hev.
  - cbn [handle_frames].
    destruct (handle_frame_cases NDEBUG d rb fe) as [(_ & ->)|(Hn' & _)];
      [|lia].
    specialize (IH d rb).
    destruct (handle_frames NDEBUG d rb frames) as [[[r d2] rb2] ev2].
    destruct (handle_frames NDEBUG d rb (filter has_samples frames))
      as [[[r' d3] rb3] ev3].
    destruct IH as (-> & -> & -> & Hev). repeat split. exact Hev.
Qed.
(* ================================================================== *)
(** ** A scratch buffer too large for a vector *)

Lemma int32_in_int (z : Z) : CInt.in_int (CInt.int32 z).
Proof.
  unfold CInt.in_int, CInt.INT_MIN, CInt.INT_MAX, CInt.int32, CInt.wrap.
  change (2 ^ (32 - 1)) with 2147483648.
  change (2 ^ 32) with 4294967296. change (2 ^ 31) with 2147483648.
  pose proof (Z.mod_pos_bound (z + 2147483648) 4294967296 ltac:(lia)). lia.
Qed.

(** Line 226: a negative [int] becomes a [size_t] beyond [max_size()],
    any other [int] stays below it. *)
Lemma to_size_t_of_int (z : Z) :
  CInt.in_int z ->
  (z < 0 -> vector_max_size < CInt.to_size_t z)
  /\ (0 <= z -> CInt.to_size_t z <= vector_max_size).
Proof.
  unfold CInt.in_int, CInt.INT_MIN, CInt.INT_MAX, CInt.to_size_t,
    vector_max_size.
  change (2 ^ 31) with 2147483648. change (2 ^ 63) with 9223372036854775808.
  change (2 ^ 64) with 18446744073709551616. intros Hz. split; intros Hs.
  - replace z with (z + 18446744073709551616 - 1 * 18446744073709551616)
      by lia.
    rewrite Zminus_mod, Z_mod_mult, Z.sub_0_r, Z.mod_mod by lia.
    rewrite Z.mod_small by lia. lia.
  - rewrite Z.mod_small by lia. lia.
Qed.

Lemma resize_if_smaller_none (n m : Z) :
  resize_if_smaller n m = None <-> n < m /\ vector_max_size < m.
Proof.
  unfold resize_if_smaller.
  destruct (Z.ltb_spec n m), (Z.ltb_spec vector_max_size m);
    split; try discriminate; try reflexivity; intros; lia.
Qed.

Section Throwing.

Context {lib : AVUtil}.

Lemma deliver_never_throws d fe wd ws obs :
  fst (fst (deliver d fe wd ws obs)) <> FrameThrow.
Proof.
  destruct (deliver_cases d fe wd ws obs)
    as [(_ & E)|[(_ & _ & E)|(_ & _ & E)]]; rewrite E; discriminate.
Qed.

(** Line 128 is not reached when the call of line 125 throws: the inner
    loop is left by the exception, the packet still in hand. *)
Lemma thrown_leaves_inner_loop
    NDEBUG d l pe pops p d_b l_b ev_b d' rb' ev :
  pe_pop pe = Some p ->
  establish_baseline NDEBUG d (set_packet l p) pe = (None, d_b, l_b, ev_b) ->
  size p <> 0 ->
  handleAudioPacket NDEBUG d_b p (resampleBuffer l) (pe_handle pe)
  = (Threw, d', rb', ev) ->
  inner_loop NDEBUG d l (pe :: pops)
  = (InnerThrow, d',
     set_resampleBuffer (set_initialized (set_packet l p) true) rb',
     EvPop (Some p) :: ev_b ++ ev).
Proof.
  intros Hpop Hbase Hsize Hh. cbn [inner_loop]. rewrite Hpop.
  unfold turn_with_packet. rewrite Hbase.
  apply establish_baseline_passes in Hbase as ->.
  unfold handle_popped.
  cbn [packet set_initialized set_packet resampleBuffer].
  destruct (Z.eqb_spec (size p) 0) as [E|_]; [contradiction|].
  rewrite Hh. reflexivity.
Qed.

End Throwing.

(** X18: With a scratch buffer of a size a vector can have, a frame makes
    [resampleBuffer.resize] throw [std::length_error] exactly when it has
    samples and a sample rate other than zero, finds a context in place
    after the check of lines 194-213, and the [int] product of line 226 is
    negative; the frame then ends after that check, before [swr_convert],
    with the scratch buffer as it was, and the while loop is left by the
    exception whatever the decoder still holds. *)
Theorem resize_throws_iff {lib : AVUtil} NDEBUG d rb fe :
  let f := fe_frame fe in
  let d1 := fst (update_swr_context d fe) in
  rb <= vector_max_size ->
  (fst (fst (fst (handle_frame NDEBUG d rb fe))) = FrameThrow
   <-> 0 < nb_samples f
       /\ sample_rate f <> 0
       /\ m_audioSwrContext d1 <> None
       /\ CInt.mul32 (out_count d1 f) (size_multiplier d1) < 0)
  /\ (fst (fst (fst (handle_frame NDEBUG d rb fe))) = FrameThrow ->
      handle_frame NDEBUG d rb fe
      = (FrameThrow, d1, rb, snd (update_swr_context d fe))
      /\ forall rest,
           handle_frames NDEBUG d rb (fe :: rest)
           = (Threw, d1, rb,
              EvReceiveFrame true :: snd (update_swr_context d fe))).
Proof.
  intros f d1' Hrb. subst f d1'.
  destruct (handle_frame_cases NDEBUG d rb fe)
    as [(Hn & ->)|(Hn & d1 & ev1 & r & ev2 & Hu & Hr & Hf)].
  { cbn [fst]. split; [split; [discriminate | lia] | discriminate]. }
  rewrite Hu. cbn [fst snd].
  destruct (to_size_t_of_int
              (CInt.mul32 (out_count d1 (fe_frame fe))
                          (size_multiplier d1))
              (int32_in_int _)) as (Hneg & Hpos).
  fold (buffer_size d1 (fe_frame fe)) in Hneg, Hpos.
  destruct (resample_cases_of NDEBUG d1 rb fe
              (original_buffer_size (fe_frame fe)))
    as [(Hc & E)|[(Hc & Hz & E)|[(Hc & Hnz & Hres & E)
                                |(Hc & Hnz & Hres & r' & ev' & E & _ & Hr')]]];
    rewrite E in Hr; injection Hr as <- <-.
  - destruct Hf as (o & d3 & ev3 & Hd & ->). cbn [fst].
    pose proof (deliver_never_throws (audio_sync d1 fe) fe
                  (FrameData (first_plane (fe_frame fe)))
                  (original_buffer_size (fe_frame fe))
                  (original_buffer_size (fe_frame fe))) as Hno.
    rewrite Hd in Hno. cbn [fst] in Hno.
    split; [split; [contradiction | tauto] | contradiction].
  - rewrite Hf. cbn [fst].
    split; [split; [discriminate | tauto] | discriminate].
  - rewrite Hf. cbn [fst]. rewrite app_nil_r.
    apply resize_if_smaller_none in Hres as (_ & Hover).
    split; [|intros _; split; [reflexivity|];
              intros rest; cbn [handle_frames]; now rewrite Hf, app_nil_r].
    split; [intros _ | reflexivity].
    repeat split; try assumption.
    destruct (Z.lt_ge_cases
                (CInt.mul32 (out_count d1 (fe_frame fe))
                            (size_multiplier d1)) 0)
      as [Hlt|Hge]; [exact Hlt|]. specialize (Hpos Hge). lia.
  - assert (Hnot : ~ CInt.mul32 (out_count d1 (fe_frame fe))
                                (size_multiplier d1) < 0).
    { intros Hlt. specialize (Hneg Hlt).
      assert (Hnone : resize_if_smaller rb (buffer_size d1 (fe_frame fe))
                      = None)
        by (apply resize_if_smaller_none; lia).
      congruence. }
    destruct r' as [d2 rb2 wd ws|d2 rb2|d2 rb2| |]; try contradiction.
    + destruct Hf as (o & d3 & ev3 & Hd & ->). cbn [fst].
      pose proof (deliver_never_throws (audio_sync d2 fe) fe wd ws
                    (original_buffer_size (fe_frame fe))) as Hno.
      rewrite Hd in Hno. cbn [fst] in Hno.
      split; [split; [contradiction | tauto] | contradiction].
    + rewrite Hf. cbn [fst].
      split; [split; [discriminate | tauto] | discriminate].
    + rewrite Hf. cbn [fst].
      split; [split; [discriminate | tauto] | discriminate].
Qed.

Lemma resize_throws_iff_witness :
  let d := Sample.decoder None Sample.settings in
  let fe :=
    Sample.frame_env (Sample.frame 1024 (-44100) Sample.AV_SAMPLE_FMT_S16)
                     true 0 0 false true in
  @handle_frame Sample.libavutil true d 0 fe
  = (FrameThrow, fst (@update_swr_context Sample.libavutil d fe), 0,
     [EvSwrFree; EvSwrAlloc 3 1 (-44100); EvSwrInit]).
Proof.
  intros d fe.
  refine (proj1 (proj2 (@resize_throws_iff Sample.libavutil true d 0 fe _)
                   _)).
  - vm_compute. discriminate.
  - refine (proj2 (proj1 (@resize_throws_iff Sample.libavutil true d 0 fe
                            _)) _).
    + vm_compute. discriminate.
    + vm_compute. repeat split; discriminate.
Defined.

(** X19: When the call of [handleAudioPacket] at line 125 is left by an
    exception, as it is when [resize] throws, the packet is not
    released: line 126 is not reached, and the handler of lines 138-146,
    finding [handlePacketPostponed] false, only logs and throws again.
    The thread ends there, whatever the queue still holds. *)
Theorem thrown_packet_is_not_released
    {lib : AVUtil} NDEBUG d l pa script pe pops p d_b l_b ev_b d' rb' ev :
  pa_isPaused_49 pa = false ->
  m_audioPaused d = false ->
  handlePacketPostponed l = false ->
  pa_pops pa = pe :: pops ->
  pe_pop pe = Some p ->
  establish_baseline NDEBUG d (set_packet l p) pe = (None, d_b, l_b, ev_b) ->
  size p <> 0 ->
  handleAudioPacket NDEBUG d_b p (resampleBuffer l) (pe_handle pe)
  = (Threw, d', rb', ev) ->
  run_passes NDEBUG d l (pa :: script)
  = (ThreadInterrupted, d',
     set_resampleBuffer (set_initialized (set_packet l p) true) rb',
     EvPop (Some p)
       :: ev_b ++ ev ++ [EvLogInterrupted; EvDeinitializeThread])
  /\ filter (fun e => match e with EvUnref _ => true | _ => false end)
            (EvPop (Some p)
               :: ev_b ++ ev ++ [EvLogInterrupted; EvDeinitializeThread])
     = [].
Proof.
  intros Hrun Hpaused Hpost Hpops Hpop Hbase Hsize Hh.
  split.
  - cbn [run_passes]. unfold pass, handle_postponed.
    rewrite Hrun, Hpaused, Hpost, Hpops. cbn [andb].
    rewrite (thrown_leaves_inner_loop NDEBUG d l pe pops p d_b l_b ev_b
               d' rb' ev Hpop Hbase Hsize Hh).
    unfold catch_all.
    cbn [handlePacketPostponed set_resampleBuffer set_initialized
         set_packet].
    rewrite Hpost. cbn [app]. now rewrite <- app_assoc.
  - pose proof (handleAudioPacket_summary NDEBUG d_b p (resampleBuffer l)
                  (pe_handle pe)) as Hs.
    rewrite Hh in Hs. destruct Hs as (_ & Hdec & _).
    assert (Hev : forall evs, forallb is_decode_event evs = true ->
              filter (fun e => match e with EvUnref _ => true | _ => false
                               end) evs = []).
    { induction evs as [|e evs IH]; [reflexivity|].
      cbn [forallb filter]. intros H.
      apply andb_prop in H as (He & Hrest).
      destruct e; try discriminate; now apply IH. }
    cbn [filter]. rewrite !filter_app, (Hev ev Hdec). cbn [filter app].
    rewrite app_nil_r.
    unfold establish_baseline, AppendFrameClock_0 in Hbase.
    destruct (negb (initialized (set_packet l p)));
      [|now injection Hbase as _ _ <-].
    destruct (negb (pts (packet (set_packet l p)) =? AV_NOPTS_VALUE));
      [|destruct NDEBUG; discriminate].
    destruct (pe_seeking_108 pe); [discriminate|].
    now injection Hbase as _ _ <-.
Qed.

Lemma thrown_packet_is_not_released_witness :
  let d := Sample.decoder None Sample.settings in
  let l := Sample.running_locals in
  let p := Sample.packet_of 0 0 100 in
  let fe :=
    Sample.frame_env (Sample.frame 1024 (-44100) Sample.AV_SAMPLE_FMT_S16)
                     true 0 0 false true in
  let he := Sample.handle_env [fe; fe] in
  let pa := Sample.pass_env [Sample.pop_env (Some p) he] false in
  @run_passes Sample.libavutil true d l [pa; pa]
  = (ThreadInterrupted, fst (@update_swr_context Sample.libavutil d fe),
     set_resampleBuffer (set_initialized (set_packet l p) true) 0,
     [EvPop (Some p); EvSendPacket p; EvReceiveFrame true;
      EvSwrFree; EvSwrAlloc 3 1 (-44100); EvSwrInit;
      EvLogInterrupted; EvDeinitializeThread]).
Proof.
  intros d l p fe he pa.
  refine (proj1 (@thrown_packet_is_not_released Sample.libavutil true d l
                   pa [pa] (Sample.pop_env (Some p) he) [] p d
                   (set_packet l p) []
                   (fst (@update_swr_context Sample.libavutil d fe)) 0
                   [EvSendPacket p; EvReceiveFrame true;
                    EvSwrFree; EvSwrAlloc 3 1 (-44100); EvSwrInit]
                   _ _ _ _ _ _ _ _)).
  - reflexivity.
  - reflexivity.
  - reflexivity.
  - reflexivity.
  - reflexivity.
  - reflexivity.
  - vm_compute. discriminate.
  - vm_compute. reflexivity.
Defined.

(* ================================================================== *)
(** ** The events of the loops *)

Section LoopEvents.

Context {lib : AVUtil}.

Variable Q : Event -> bool.
Hypothesis Q_loop : forall e, is_loop_event e = true -> Q e = true.
Hypothesis Q_handle : forall NDEBUG d p rb he,
  forallb Q (snd (handleAudioPacket NDEBUG d p rb he)) = true.

Lemma handle_popped_events NDEBUG d l pe :
  forallb Q (snd (handle_popped NDEBUG d l pe)) = true.
Proof.
  unfold handle_popped, av_packet_unref.
  destruct (size (packet (set_initialized l true)) =? 0).
  { cbn. now rewrite Q_loop. }
  pose proof (Q_handle NDEBUG d (packet (set_initialized l true))
                (resampleBuffer (set_initialized l true)) (pe_handle pe))
    as Hq.
  destruct (handleAudioPacket NDEBUG d _ _ (pe_handle pe))
    as [[[r d1] rb1] ev1].
  cbn [snd] in Hq.
  destruct r as [handled| | |]; try exact Hq.
  destruct (negb handled || pe_isPaused_128 pe && negb (pe_seeking_128 pe));
    cbn [snd]; rewrite forallb_app, Hq; cbn; now rewrite Q_loop.
Qed.

Lemma establish_baseline_events NDEBUG d l pe :
  forallb Q (snd (establish_baseline NDEBUG d l pe)) = true.
Proof.
  unfold establish_baseline, AppendFrameClock_0.
  destruct (negb (initialized l)); [|reflexivity].
  destruct (negb (pts (packet l) =? AV_NOPTS_VALUE)).
  - destruct (pe_seeking_108 pe); cbn; now rewrite !Q_loop.
  - destruct NDEBUG; cbn; now rewrite ?Q_loop.
Qed.

Lemma turn_with_packet_events NDEBUG d l pe :
  forallb Q (snd (turn_with_packet NDEBUG d l pe)) = true.
Proof.
  unfold turn_with_packet.
  pose proof (establish_baseline_events NDEBUG d l pe) as Hb.
  destruct (establish_baseline NDEBUG d l pe) as [[[[o|] d1] l1] ev1];
    cbn [snd] in *; [exact Hb|].
  pose proof (handle_popped_events NDEBUG d1 l1 pe) as Hp.
  destruct (handle_popped NDEBUG d1 l1 pe) as [[[o d2] l2] ev2].
  cbn [snd] in *. now rewrite forallb_app, Hb, Hp.
Qed.

Lemma inner_loop_events NDEBUG pops : forall d l,
  forallb Q (snd (inner_loop NDEBUG d l pops)) = true.
Proof.
  induction pops as [|pe pops IH]; intros d l; [reflexivity|].
  cbn [inner_loop]. destruct (pe_pop pe) as [p|];
    [|cbn; now rewrite Q_loop].
  pose proof (turn_with_packet_events NDEBUG d (set_packet l p) pe) as Ht.
  destruct (turn_with_packet NDEBUG d (set_packet l p) pe)
    as [[[o d1] l1] ev1].
  cbn [snd] in Ht.
  destruct o as [|o].
  - specialize (IH d1 l1).
    destruct (inner_loop NDEBUG d1 l1 pops) as [[[o2 d2] l2] ev2].
    cbn [snd] in *. cbn [app forallb].
    now rewrite forallb_app, Ht, IH, Q_loop.
  - cbn. now rewrite Ht, Q_loop.
Qed.

Lemma handle_postponed_events NDEBUG d l pa :
  forallb Q (snd (handle_postponed NDEBUG d l pa)) = true.
Proof.
  unfold handle_postponed, av_packet_unref.
  destruct (handlePacketPostponed l); [|reflexivity].
  destruct (negb (pa_seeking_76 pa)).
  - pose proof (Q_handle NDEBUG d
                  (packet (set_handlePacketPostponed l false))
                  (resampleBuffer (set_handlePacketPostponed l false))
                  (pa_postponed pa)) as Hq.
    destruct (handleAudioPacket NDEBUG d _ _ (pa_postponed pa))
      as [[[r d1] rb1] ev1].
    cbn [snd] in Hq.
    destruct r; try exact Hq.
    cbn [snd]. rewrite forallb_app, Hq. cbn. now rewrite Q_loop.
  - cbn. now rewrite Q_loop.
Qed.

Hypothesis Q_pause : forall e, is_pause_event e = true -> Q e = true.

Lemma pass_events NDEBUG d l pa :
  forallb Q (snd (pass NDEBUG d l pa)) = true.
Proof.
  unfold pass.
  destruct (pa_isPaused_49 pa && negb (pa_seeking_49 pa)).
  - destruct (m_audioPaused d), (pa_interrupted_57 pa), (pa_wait pa);
      cbn; now rewrite ?Q_pause.
  - set (restart := if m_audioPaused d && negb (pa_seeking_67 pa)
                    then (set_audioPaused d false, [EvWaveOutRestart])
                    else (d, [])).
    assert (Hr : forallb Q (snd restart) = true)
      by (unfold restart;
          destruct (m_audioPaused d && negb (pa_seeking_67 pa)); cbn;
          now rewrite ?Q_pause).
    destruct restart as [d1 ev1]. cbn [snd] in Hr.
    pose proof (handle_postponed_events NDEBUG d1 l pa) as Hp.
    destruct (handle_postponed NDEBUG d1 l pa) as [[[[o|] d2] l2] ev2];
      cbn [snd] in *; [now rewrite forallb_app, Hr, Hp|].
    pose proof (inner_loop_events NDEBUG (pa_pops pa) d2 l2) as Hi.
    destruct (inner_loop NDEBUG d2 l2 (pa_pops pa)) as [[[o d3] l3] ev3].
    cbn [snd] in Hi.
    assert (Hall : forallb Q (ev1 ++ ev2 ++ ev3) = true)
      by now rewrite !forallb_app, Hr, Hp, Hi.
    destruct o; try destruct (pa_interrupted_135 pa); exact Hall.
Qed.

End LoopEvents.

Lemma forallb_impl (P Q : Event -> bool) (ev : list Event) :
  (forall e, P e = true -> Q e = true) ->
  forallb P ev = true -> forallb Q ev = true.
Proof.
  intros Himp. induction ev as [|e ev IH]; [reflexivity|].
  cbn. intros H. apply andb_prop in H as (He & Hev).
  now rewrite (Himp e He), IH.
Qed.

Lemma forallb_negb_filter (P : Event -> bool) (ev : list Event) :
  forallb (fun e => negb (P e)) ev = true -> filter P ev = [].
Proof.
  induction ev as [|e ev IH]; [reflexivity|].
  cbn. intros H. apply andb_prop in H as (He & Hev).
  destruct (P e); [discriminate | now apply IH].
Qed.

Lemma monitor_app {S : Type} (step : S -> Event -> option S) a : forall s b,
  monitor step s (a ++ b)
  = match monitor step s a with
    | Some s' => monitor step s' b
    | None => None
    end.
Proof.
  induction a as [|e a IH]; intros s b; [reflexivity|].
  cbn. destruct (step s e); [apply IH | reflexivity].
Qed.

(** A trace none of whose events the automaton reacts to leaves its
    state alone. *)
Lemma monitor_ignored {S : Type} (step : S -> Event -> option S)
    (P : Event -> bool) (ev : list Event) :
  (forall s e, P e = true -> step s e = Some s) ->
  forallb P ev = true -> forall s, monitor step s ev = Some s.
Proof.
  intros Hstep. induction ev as [|e ev IH]; [reflexivity|].
  cbn. intros H s. apply andb_prop in H as (He & Hev).
  rewrite (Hstep s e He). now apply IH.
Qed.

(* ================================================================== *)
(** ** What the thread keeps *)

Section ThreadKeeps.

Context {lib : AVUtil}.

Lemma handle_popped_keeps NDEBUG d l pe :
  let '(_, d', l', _) := handle_popped NDEBUG d l pe in
  same_setup d d' /\ resampleBuffer l <= resampleBuffer l'.
Proof.
  unfold handle_popped, av_packet_unref.
  destruct (size (packet (set_initialized l true)) =? 0).
  { split; [apply same_setup_refl | cbn; lia]. }
  pose proof (handleAudioPacket_summary NDEBUG d
                (packet (set_initialized l true))
                (resampleBuffer (set_initialized l true)) (pe_handle pe))
    as Hs.
  destruct (handleAudioPacket NDEBUG d _ _ (pe_handle pe))
    as [[[r d1] rb1] ev1].
  destruct Hs as (Hrb & _ & _ & Hsetup). cbn [resampleBuffer set_initialized] in Hrb.
  destruct r as [handled| | |]; try (split; [exact Hsetup | exact Hrb]).
  destruct (negb handled || pe_isPaused_128 pe && negb (pe_seeking_128 pe));
    (split; [exact Hsetup | exact Hrb]).
Qed.

Lemma establish_baseline_keeps NDEBUG d l pe :
  let '(_, d', l', _) := establish_baseline NDEBUG d l pe in
  same_setup d d' /\ resampleBuffer l' = resampleBuffer l
  /\ m_audioStream d' = m_audioStream d.
Proof.
  unfold establish_baseline.
  destruct (negb (initialized l)); [|now repeat split].
  destruct (negb (pts (packet l) =? AV_NOPTS_VALUE)).
  - destruct (pe_seeking_108 pe); now repeat split.
  - destruct NDEBUG; now repeat split.
Qed.

Lemma turn_with_packet_keeps NDEBUG d l pe :
  let '(_, d', l', _) := turn_with_packet NDEBUG d l pe in
  same_setup d d' /\ resampleBuffer l <= resampleBuffer l'.
Proof.
  unfold turn_with_packet.
  pose proof (establish_baseline_keeps NDEBUG d l pe) as Hb.
  destruct (establish_baseline NDEBUG d l pe) as [[[[o|] d1] l1] ev1];
    destruct Hb as (Hsetup & Hrb & _); [split; [exact Hsetup | lia]|].
  pose proof (handle_popped_keeps NDEBUG d1 l1 pe) as Hp.
  destruct (handle_popped NDEBUG d1 l1 pe) as [[[o d2] l2] ev2].
  destruct Hp as (Hsetup2 & Hrb2).
  split; [exact (same_setup_trans _ _ _ Hsetup Hsetup2) | lia].
Qed.

Lemma inner_loop_keeps NDEBUG pops : forall d l,
  let '(_, d', l', _) := inner_loop NDEBUG d l pops in
  same_setup d d' /\ resampleBuffer l <= resampleBuffer l'.
Proof.
  induction pops as [|pe pops IH]; intros d l;
    [split; [apply same_setup_refl | cbn; lia]|].
  cbn [inner_loop]. destruct (pe_pop pe) as [p|];
    [|split; [apply same_setup_refl | lia]].
  pose proof (turn_with_packet_keeps NDEBUG d (set_packet l p) pe) as Ht.
  destruct (turn_with_packet NDEBUG d (set_packet l p) pe)
    as [[[o d1] l1] ev1].
  destruct Ht as (Hsetup & Hrb). cbn [resampleBuffer set_packet] in Hrb.
  destruct o as [|o]; [|split; [exact Hsetup | exact Hrb]].
  specialize (IH d1 l1).
  destruct (inner_loop NDEBUG d1 l1 pops) as [[[o2 d2] l2] ev2].
  destruct IH as (Hsetup2 & Hrb2).
  split; [exact (same_setup_trans _ _ _ Hsetup Hsetup2) | lia].
Qed.

Lemma handle_postponed_keeps NDEBUG d l pa :
  let '(_, d', l', _) := handle_postponed NDEBUG d l pa in
  same_setup d d' /\ resampleBuffer l <= resampleBuffer l'.
Proof.
  unfold handle_postponed, av_packet_unref.
  destruct (handlePacketPostponed l);
    [|split; [apply same_setup_refl | lia]].
  destruct (negb (pa_seeking_76 pa)).
  - pose proof (handleAudioPacket_summary NDEBUG d
                  (packet (set_handlePacketPostponed l false))
                  (resampleBuffer (set_handlePacketPostponed l false))
                  (pa_postponed pa)) as Hs.
    destruct (handleAudioPacket NDEBUG d _ _ (pa_postponed pa))
      as [[[r d1] rb1] ev1].
    destruct Hs as (Hrb & _ & _ & Hsetup).
    cbn [resampleBuffer set_handlePacketPostponed] in Hrb.
    destruct r; (split; [exact Hsetup | exact Hrb]).
  - split; [apply same_setup_refl | cbn; lia].
Qed.

(** A pass leaves the target format and the table of streams alone and
    does not shrink the scratch buffer; the trace it adds moves the sink
    between running and paused as [m_audioPaused] says. *)
Lemma pass_keeps NDEBUG d l pa :
  let '(_, d', l', ev) := pass NDEBUG d l pa in
  m_audioSettings d' = m_audioSettings d
  /\ m_formatContext_streams d' = m_formatContext_streams d
  /\ resampleBuffer l <= resampleBuffer l'
  /\ monitor sink_pause_step (m_audioPaused d) ev = Some (m_audioPaused d').
Proof.
  unfold pass.
  destruct (pa_isPaused_49 pa && negb (pa_seeking_49 pa)).
  - destruct (m_audioPaused d) eqn:Hp, (pa_interrupted_57 pa), (pa_wait pa);
      cbn; rewrite ?Hp; repeat split; lia.
  - set (restart := if m_audioPaused d && negb (pa_seeking_67 pa)
                    then (set_audioPaused d false, [EvWaveOutRestart])
                    else (d, [])).
    assert (Hr : m_audioSettings (fst restart) = m_audioSettings d
                 /\ m_formatContext_streams (fst restart)
                    = m_formatContext_streams d
                 /\ monitor sink_pause_step (m_audioPaused d) (snd restart)
                    = Some (m_audioPaused (fst restart))).
    { unfold restart. destruct (m_audioPaused d) eqn:Hp; cbn [andb];
        [destruct (negb (pa_seeking_67 pa))|]; cbn; rewrite ?Hp;
        now repeat split. }
    destruct restart as [d1 ev1]. cbn [fst snd] in Hr.
    destruct Hr as (Hset1 & Hstr1 & Hmon1).
    assert (Hq : forall NDEBUG d p rb he,
              forallb (fun e => negb (is_pause_event e))
                      (snd (handleAudioPacket NDEBUG d p rb he)) = true).
    { intros N d0 p rb he.
      pose proof (handleAudioPacket_summary N d0 p rb he) as Hs.
      destruct (handleAudioPacket N d0 p rb he) as [[[r d'] rb'] ev].
      destruct Hs as (_ & Hdec & _). cbn [snd].
      apply (forallb_impl is_decode_event); [|exact Hdec].
      now intros []. }
    assert (Hl : forall e, is_loop_event e = true
                           -> negb (is_pause_event e) = true)
      by now intros [].
    assert (Hign : forall (s : bool) e,
              negb (is_pause_event e) = true
              -> sink_pause_step s e = Some s) by now intros s [].
    pose proof (handle_postponed_events _ Hl Hq NDEBUG d1 l pa) as Hev2.
    pose proof (handle_postponed_keeps NDEBUG d1 l pa) as Hk2.
    destruct (handle_postponed NDEBUG d1 l pa) as [[[o2 d2] l2] ev2].
    cbn [snd] in Hev2. destruct Hk2 as ((Hset2 & Hstr2 & Hp2) & Hrb2).
    assert (Hmon2 : monitor sink_pause_step (m_audioPaused d) (ev1 ++ ev2)
                    = Some (m_audioPaused d2)).
    { rewrite monitor_app, Hmon1.
      rewrite (monitor_ignored _ _ ev2 Hign Hev2). now rewrite Hp2. }
    destruct o2 as [o2|].
    { repeat split; try congruence; try lia. }
    pose proof (inner_loop_events _ Hl Hq NDEBUG (pa_pops pa) d2 l2) as Hev3.
    pose proof (inner_loop_keeps NDEBUG (pa_pops pa) d2 l2) as Hk3.
    destruct (inner_loop NDEBUG d2 l2 (pa_pops pa)) as [[[o3 d3] l3] ev3].
    cbn [snd] in Hev3. destruct Hk3 as ((Hset3 & Hstr3 & Hp3) & Hrb3).
    assert (Hmon3 : monitor sink_pause_step (m_audioPaused d)
                            (ev1 ++ ev2 ++ ev3)
                    = Some (m_audioPaused d3)).
    { rewrite app_assoc, monitor_app, Hmon2.
      rewrite (monitor_ignored _ _ ev3 Hign Hev3). now rewrite Hp3. }
    destruct o3; try destruct (pa_interrupted_135 pa);
      repeat split; try congruence; try lia.
Qed.

End ThreadKeeps.

Section ThreadRuns.

Context {lib : AVUtil}.

Lemma catch_all_shape l :
  catch_all l
  = (if handlePacketPostponed l then set_packet l blank_packet else l,
     (if handlePacketPostponed l then [EvUnref (packet l)] else [])
       ++ [EvLogInterrupted; EvDeinitializeThread]).
Proof.
  unfold catch_all, av_packet_unref. now destruct (handlePacketPostponed l).
Qed.

Lemma run_passes_keeps NDEBUG script : forall d l,
  let '(_, d', l', ev) := run_passes NDEBUG d l script in
  m_audioSettings d' = m_audioSettings d
  /\ m_formatContext_streams d' = m_formatContext_streams d
  /\ resampleBuffer l <= resampleBuffer l'
  /\ monitor sink_pause_step (m_audioPaused d) ev = Some (m_audioPaused d').
Proof.
  induction script as [|pa script IH]; intros d l.
  { cbn. repeat split; lia. }
  cbn [run_passes].
  pose proof (pass_keeps NDEBUG d l pa) as Hp.
  destruct (pass NDEBUG d l pa) as [[[o d1] l1] ev1].
  destruct Hp as (Hset & Hstr & Hrb & Hmon).
  destruct o.
  - specialize (IH d1 l1).
    destruct (run_passes NDEBUG d1 l1 script) as [[[o2 d2] l2] ev2].
    destruct IH as (Hset2 & Hstr2 & Hrb2 & Hmon2).
    rewrite monitor_app, Hmon.
    repeat split; try congruence; lia.
  - rewrite monitor_app, Hmon. now repeat split.
  - rewrite catch_all_shape, monitor_app, Hmon.
    destruct (handlePacketPostponed l1); now repeat split.
  - now repeat split.
  - now repeat split.
  - now repeat split.
Qed.

End ThreadRuns.

(** X12: The sink's output is paused only while it runs and restarted only
    while it is paused, at most once per pause: in every run of the
    thread [WaveOutPause] and [WaveOutRestart] alternate, starting from
    what [m_audioPaused] said at the start and ending at what it says at
    the end. *)
Theorem pause_and_restart_alternate
    {lib : AVUtil} NDEBUG d script :
  let '(_, d', _, ev) := audioParseRunnable NDEBUG d script in
  monitor sink_pause_step (m_audioPaused d) ev = Some (m_audioPaused d').
Proof.
  unfold audioParseRunnable.
  pose proof (run_passes_keeps NDEBUG script d initial_locals) as H.
  destruct (run_passes NDEBUG d initial_locals script) as [[[o d'] l'] ev].
  destruct H as (_ & _ & _ & Hmon). exact Hmon.
Qed.

(** X16: The loop of the thread never writes to the target format or to the
    table of streams, and the scratch buffer it passes from packet to
    packet never gets smaller. *)
Theorem loop_keeps_target_and_scratch
    {lib : AVUtil} NDEBUG d l script :
  let '(_, d', l', _) := run_passes NDEBUG d l script in
  m_audioSettings d' = m_audioSettings d
  /\ m_formatContext_streams d' = m_formatContext_streams d
  /\ resampleBuffer l <= resampleBuffer l'.
Proof.
  pose proof (run_passes_keeps NDEBUG script d l) as H.
  destruct (run_passes NDEBUG d l script) as [[[o d'] l'] ev].
  destruct H as (Hset & Hstr & Hrb & _). auto.
Qed.

(** X11: Whatever the thread hands to the sink has at least one byte. *)
Theorem thread_never_writes_nothing {lib : AVUtil} NDEBUG d script :
  forallb writes_something (snd (audioParseRunnable NDEBUG d script)) = true.
Proof.
  assert (Hl : forall e, is_loop_event e = true -> writes_something e = true)
    by now intros [].
  assert (Hp : forall e, is_pause_event e = true -> writes_something e = true)
    by now intros [].
  assert (Hq : forall NDEBUG d p rb he,
            forallb writes_something
                    (snd (handleAudioPacket NDEBUG d p rb he)) = true).
  { intros N d0 p rb he.
    pose proof (handleAudioPacket_summary N d0 p rb he) as Hs.
    destruct (handleAudioPacket N d0 p rb he) as [[[r d'] rb'] ev].
    now destruct Hs as (_ & _ & Hw & _). }
  unfold audioParseRunnable.
  assert (Hrun : forall script d l,
            forallb writes_something (snd (run_passes NDEBUG d l script))
            = true).
  { clear d script. induction script as [|pa script IH]; intros d l;
      [reflexivity|].
    cbn [run_passes].
    pose proof (pass_events _ Hl Hq Hp NDEBUG d l pa) as Hpass.
    destruct (pass NDEBUG d l pa) as [[[o d1] l1] ev1]. cbn [snd] in Hpass.
    destruct o; try exact Hpass.
    - specialize (IH d1 l1).
      destruct (run_passes NDEBUG d1 l1 script) as [[[o2 d2] l2] ev2].
      cbn [snd] in *. now rewrite forallb_app, Hpass, IH.
    - cbn [snd]. now rewrite forallb_app, Hpass.
    - rewrite catch_all_shape. cbn [snd]. rewrite forallb_app, Hpass.
      now destruct (handlePacketPostponed l1). }
  specialize (Hrun script d initial_locals).
  destruct (run_passes NDEBUG d initial_locals script) as [[[o d'] l'] ev].
  exact Hrun.
Qed.

(** X13: [InitializeThread] is called once, before anything else, and
    [DeinitializeThread] once, as the last thing, exactly when the thread
    leaves the function by its [return] or by the exception; while it is
    still inside, neither is called again. *)
Theorem sink_thread_lifecycle {lib : AVUtil} NDEBUG d script :
  let '(o, _, _, ev) := audioParseRunnable NDEBUG d script in
  hd_error ev = Some EvInitializeThread
  /\ filter is_lifecycle_event ev
     = EvInitializeThread
         :: (if left_function o then [EvDeinitializeThread] else [])
  /\ (left_function o = true
      -> last ev EvInitializeThread = EvDeinitializeThread).
Proof.
  set (Q := fun e => negb (is_lifecycle_event e)).
  assert (Hl : forall e, is_loop_event e = true -> Q e = true)
    by now intros [].
  assert (Hp : forall e, is_pause_event e = true -> Q e = true)
    by now intros [].
  assert (Hq : forall NDEBUG d p rb he,
            forallb Q (snd (handleAudioPacket NDEBUG d p rb he)) = true).
  { intros N d0 p rb he.
    pose proof (handleAudioPacket_summary N d0 p rb he) as Hs.
    destruct (handleAudioPacket N d0 p rb he) as [[[r d'] rb'] ev].
    destruct Hs as (_ & Hdec & _). cbn [snd].
    apply (forallb_impl is_decode_event); [|exact Hdec]. now intros []. }
  assert (Hrun : forall script d l,
            let '(o, _, _, ev) := run_passes NDEBUG d l script in
            filter is_lifecycle_event ev
            = (if left_function o then [EvDeinitializeThread] else [])
            /\ (left_function o = true
                -> exists pre, ev = pre ++ [EvDeinitializeThread])).
  { clear d script. induction script as [|pa script IH]; intros d l;
      [cbn; split; [reflexivity | discriminate]|].
    cbn [run_passes].
    pose proof (pass_events Q Hl Hq Hp NDEBUG d l pa) as Hpass.
    destruct (pass NDEBUG d l pa) as [[[o d1] l1] ev1]. cbn [snd] in Hpass.
    apply forallb_negb_filter in Hpass.
    destruct o.
    - specialize (IH d1 l1).
      destruct (run_passes NDEBUG d1 l1 script) as [[[o2 d2] l2] ev2].
      destruct IH as (Hf & Hlast). rewrite filter_app, Hpass, Hf.
      split; [reflexivity|]. intros Ho.
      destruct (Hlast Ho) as (pre & ->). exists (ev1 ++ pre).
      now rewrite app_assoc.
    - rewrite filter_app, Hpass. split; [reflexivity|]. intros _.
      now exists ev1.
    - rewrite catch_all_shape. rewrite filter_app, Hpass.
      split; [now destruct (handlePacketPostponed l1)|]. intros _.
      exists (ev1 ++ (if handlePacketPostponed l1
                      then [EvUnref (packet l1)] else [])
                  ++ [EvLogInterrupted]).
      rewrite <- !app_assoc. reflexivity.
    - split; [exact Hpass | discriminate].
    - split; [exact Hpass | discriminate].
    - split; [exact Hpass | discriminate]. }
  unfold audioParseRunnable.
  specialize (Hrun script d initial_locals).
  destruct (run_passes NDEBUG d initial_locals script) as [[[o d'] l'] ev].
  destruct Hrun as (Hf & Hlast).
  split; [reflexivity|]. split; [cbn; now rewrite Hf|].
  intros Ho. destruct (Hlast Ho) as (pre & ->).
  change (EvInitializeThread :: pre ++ [EvDeinitializeThread])
    with ((EvInitializeThread :: pre) ++ [EvDeinitializeThread]).
  apply last_last.
Qed.

(* ================================================================== *)
(** ** Which packet is released *)

Lemma packet_eqb_refl p : packet_eqb p p = true.
Proof. unfold packet_eqb. now rewrite !Z.eqb_refl. Qed.

Lemma release_step_decode (h : option AVPacket) e :
  is_decode_event e = true -> release_step h e = Some h.
Proof. now destruct e. Qed.

Section Released.

Context {lib : AVUtil}.

Lemma handleAudioPacket_releases_nothing NDEBUG d p rb he h :
  monitor release_step h (snd (handleAudioPacket NDEBUG d p rb he)) = Some h.
Proof.
  pose proof (handleAudioPacket_summary NDEBUG d p rb he) as Hs.
  destruct (handleAudioPacket NDEBUG d p rb he) as [[[r d'] rb'] ev].
  destruct Hs as (_ & Hdec & _). cbn [snd].
  exact (monitor_ignored release_step is_decode_event ev
           release_step_decode Hdec h).
Qed.

(** One turn of the inner loop, entered with the packet just popped in
    hand: the packet is still in hand afterwards, or has been released
    once; it is in hand whenever it has been postponed. *)
Lemma turn_release NDEBUG d l pe :
  handlePacketPostponed l = false ->
  let '(o, _, l', ev) := turn_with_packet NDEBUG d l pe in
  exists h',
    monitor release_step (Some (packet l)) ev = Some h'
    /\ (handlePacketPostponed l' = true -> h' = Some (packet l'))
    /\ (o = TurnAgain -> handlePacketPostponed l' = false).
Proof.
  intros Hpost. unfold turn_with_packet, establish_baseline,
    AppendFrameClock_0.
  destruct (negb (initialized l)).
  - destruct (negb (pts (packet l) =? AV_NOPTS_VALUE)).
    + destruct (pe_seeking_108 pe).
      * eexists. cbn. repeat split; try reflexivity; try discriminate.
      * unfold handle_popped, av_packet_unref.
        cbn [packet resampleBuffer set_initialized].
        destruct (size (packet l) =? 0).
        { eexists. cbn. repeat split; try reflexivity; try congruence;
          try discriminate. }
        pose proof (handleAudioPacket_releases_nothing NDEBUG
                      (set_audioPTS d
                         (PrimFloat.mul
                            (av_q2d (time_base (m_audioStream d)))
                            (CDouble.of_Z (pts (packet l)))))
                      (packet l) (resampleBuffer l) (pe_handle pe)
                      (Some (packet l))) as Hm.
        destruct (handleAudioPacket NDEBUG _ (packet l) (resampleBuffer l)
                    (pe_handle pe)) as [[[r d1] rb1] ev1].
        cbn [snd] in Hm.
        destruct r as [handled| | |].
        -- destruct (negb handled
                     || pe_isPaused_128 pe && negb (pe_seeking_128 pe));
             exists None; cbn [app monitor release_step];
             rewrite monitor_app, Hm; cbn; rewrite packet_eqb_refl;
             repeat split; try reflexivity; try congruence; try discriminate.
        -- exists (Some (packet l)). cbn [app monitor release_step].
           rewrite Hm. cbn. repeat split; try congruence; try discriminate.
        -- exists (Some (packet l)). cbn [app monitor release_step].
           rewrite Hm. cbn. repeat split; try congruence; try discriminate.
        -- exists (Some (packet l)). cbn [app monitor release_step].
           rewrite Hm. cbn. repeat split; try congruence; try discriminate.
    + destruct NDEBUG; eexists; cbn; repeat split; try reflexivity;
        try congruence; try discriminate.
  - unfold handle_popped, av_packet_unref.
    cbn [packet resampleBuffer set_initialized].
    destruct (size (packet l) =? 0).
    { eexists. cbn. repeat split; try reflexivity; try congruence;
      try discriminate. }
    pose proof (handleAudioPacket_releases_nothing NDEBUG d
                  (packet l) (resampleBuffer l) (pe_handle pe)
                  (Some (packet l))) as Hm.
    destruct (handleAudioPacket NDEBUG d (packet l) (resampleBuffer l)
                (pe_handle pe)) as [[[r d1] rb1] ev1].
    cbn [snd] in Hm.
    destruct r as [handled| | |].
    + destruct (negb handled
                || pe_isPaused_128 pe && negb (pe_seeking_128 pe));
        exists None; cbn [app monitor release_step];
        rewrite monitor_app, Hm; cbn; rewrite packet_eqb_refl;
        repeat split; try reflexivity; try congruence; try discriminate.
    + exists (Some (packet l)). cbn [app]. rewrite Hm. cbn.
      repeat split; try congruence; try discriminate.
    + exists (Some (packet l)). cbn [app]. rewrite Hm. cbn.
      repeat split; try congruence; try discriminate.
    + exists (Some (packet l)). cbn [app]. rewrite Hm. cbn.
      repeat split; try congruence; try discriminate.
Qed.

Lemma inner_loop_release NDEBUG pops : forall d l h,
  handlePacketPostponed l = false ->
  let '(_, _, l', ev) := inner_loop NDEBUG d l pops in
  exists h',
    monitor release_step h ev = Some h'
    /\ (handlePacketPostponed l' = true -> h' = Some (packet l')).
Proof.
  induction pops as [|pe pops IH]; intros d l h Hpost.
  { exists h. split; [reflexivity | congruence]. }
  cbn [inner_loop]. destruct (pe_pop pe) as [p|].
  2:{ exists h. split; [reflexivity | congruence]. }
  pose proof (turn_release NDEBUG d (set_packet l p) pe Hpost) as Ht.
  destruct (turn_with_packet NDEBUG d (set_packet l p) pe)
    as [[[o d1] l1] ev1].
  destruct Ht as (h1 & Hm1 & Hinv1 & Hagain).
  cbn [packet set_packet] in Hm1.
  destruct o as [|o].
  - specialize (IH d1 l1 h1 (Hagain eq_refl)).
    destruct (inner_loop NDEBUG d1 l1 pops) as [[[o2 d2] l2] ev2].
    destruct IH as (h2 & Hm2 & Hinv2). exists h2.
    cbn [app monitor release_step]. now rewrite monitor_app, Hm1.
  - exists h1. cbn [monitor release_step]. now split.
Qed.

Lemma handle_postponed_release NDEBUG d l pa h :
  (handlePacketPostponed l = true -> h = Some (packet l)) ->
  let '(_, _, l', ev) := handle_postponed NDEBUG d l pa in
  exists h',
    monitor release_step h ev = Some h'
    /\ handlePacketPostponed l' = false.
Proof.
  intros Hinv. unfold handle_postponed, av_packet_unref.
  destruct (handlePacketPostponed l) eqn:Hpost;
    [|exists h; now split].
  rewrite (Hinv eq_refl).
  cbn [packet resampleBuffer set_handlePacketPostponed].
  destruct (negb (pa_seeking_76 pa)).
  - pose proof (handleAudioPacket_releases_nothing NDEBUG d (packet l)
                  (resampleBuffer l) (pa_postponed pa) (Some (packet l)))
      as Hm.
    destruct (handleAudioPacket NDEBUG d (packet l) (resampleBuffer l)
                (pa_postponed pa)) as [[[r d1] rb1] ev1].
    cbn [snd] in Hm.
    destruct r.
    + exists None. rewrite monitor_app, Hm. cbn.
      now rewrite packet_eqb_refl.
    + exists (Some (packet l)). now split.
    + exists (Some (packet l)). now split.
    + exists (Some (packet l)). now split.
  - exists None. cbn. now rewrite packet_eqb_refl.
Qed.

Lemma pass_release NDEBUG d l pa h :
  (handlePacketPostponed l = true -> h = Some (packet l)) ->
  let '(_, _, l', ev) := pass NDEBUG d l pa in
  exists h',
    monitor release_step h ev = Some h'
    /\ (handlePacketPostponed l' = true -> h' = Some (packet l')).
Proof.
  intros Hinv. unfold pass.
  destruct (pa_isPaused_49 pa && negb (pa_seeking_49 pa)).
  - destruct (m_audioPaused d), (pa_interrupted_57 pa), (pa_wait pa);
      exists h; now split.
  - set (restart := if m_audioPaused d && negb (pa_seeking_67 pa)
                    then (set_audioPaused d false, [EvWaveOutRestart])
                    else (d, [])).
    assert (Hr : monitor release_step h (snd restart) = Some h)
      by (unfold restart;
          now destruct (m_audioPaused d && negb (pa_seeking_67 pa))).
    destruct restart as [d1 ev1]. cbn [snd] in Hr.
    pose proof (handle_postponed_release NDEBUG d1 l pa h Hinv) as Hp.
    destruct (handle_postponed NDEBUG d1 l pa) as [[[o2 d2] l2] ev2].
    destruct Hp as (h2 & Hm2 & Hpost2).
    destruct o2 as [o2|].
    { exists h2. rewrite monitor_app, Hr. split; [exact Hm2 | congruence]. }
    pose proof (inner_loop_release NDEBUG (pa_pops pa) d2 l2 h2 Hpost2)
      as Hi.
    destruct (inner_loop NDEBUG d2 l2 (pa_pops pa)) as [[[o3 d3] l3] ev3].
    destruct Hi as (h3 & Hm3 & Hinv3).
    assert (Hall : monitor release_step h (ev1 ++ ev2 ++ ev3) = Some h3)
      by now rewrite monitor_app, Hr, monitor_app, Hm2.
    destruct o3; try destruct (pa_interrupted_135 pa);
      exists h3; now split.
Qed.

Lemma run_passes_release NDEBUG script : forall d l h,
  (handlePacketPostponed l = true -> h = Some (packet l)) ->
  exists h',
    monitor release_step h (snd (run_passes NDEBUG d l script)) = Some h'.
Proof.
  induction script as [|pa script IH]; intros d l h Hinv;
    [now exists h|].
  cbn [run_passes].
  pose proof (pass_release NDEBUG d l pa h Hinv) as Hp.
  destruct (pass NDEBUG d l pa) as [[[o d1] l1] ev1].
  destruct Hp as (h1 & Hm1 & Hinv1).
  destruct o; cbn [snd]; try (now exists h1).
  - destruct (IH d1 l1 h1 Hinv1) as (h2 & Hm2).
    destruct (run_passes NDEBUG d1 l1 script) as [[[o2 d2] l2] ev2].
    cbn [snd] in *. exists h2. now rewrite monitor_app, Hm1.
  - exists h1. now rewrite monitor_app, Hm1.
  - rewrite catch_all_shape. cbn [snd]. rewrite monitor_app, Hm1.
    destruct (handlePacketPostponed l1) eqn:Hpost.
    + rewrite (Hinv1 eq_refl). exists None. cbn.
      now rewrite packet_eqb_refl.
    + now exists h1.
Qed.

End Released.

(** X14: [av_packet_unref] is only ever called on the packet that was popped
    last and has not been released since: in no run of the thread is a
    packet released twice, or anything released before a pop. *)
Theorem only_the_packet_in_hand_is_released
    {lib : AVUtil} NDEBUG d script :
  exists held,
    monitor release_step None (snd (audioParseRunnable NDEBUG d script))
    = Some held.
Proof.
  unfold audioParseRunnable.
  destruct (run_passes_release NDEBUG script d initial_locals None)
    as (h & Hm); [discriminate|].
  destruct (run_passes NDEBUG d initial_locals script) as [[[o d'] l'] ev].
  exists h. exact Hm.
Qed.

(* ================================================================== *)
(** ** How the thread returns *)

Section Returns.

Context {lib : AVUtil}.

Lemma turn_returns NDEBUG d l pe :
  let '(o, _, l', ev) := turn_with_packet NDEBUG d l pe in
  o = TurnStop InnerReturn ->
  NDEBUG = true /\ pts (packet l) = AV_NOPTS_VALUE
  /\ initialized l' = false /\ ev = [].
Proof.
  unfold turn_with_packet, establish_baseline.
  destruct (initialized l) eqn:Hinit; cbn [negb].
  - unfold handle_popped.
    destruct (size (packet (set_initialized l true)) =? 0);
      [discriminate|].
    destruct (handleAudioPacket NDEBUG d _ _ (pe_handle pe))
      as [[[r d1] rb1] ev1].
    destruct r as [handled| | |]; try discriminate.
    unfold av_packet_unref.
    destruct (negb handled || pe_isPaused_128 pe && negb (pe_seeking_128 pe));
      discriminate.
  - destruct (Z.eqb_spec (pts (packet l)) AV_NOPTS_VALUE) as [Hno|Hpts];
      cbn [negb].
    + destruct NDEBUG; [auto | discriminate].
    + destruct (pe_seeking_108 pe); [discriminate|].
      unfold handle_popped.
      destruct (size (packet (set_initialized l true)) =? 0);
        [discriminate|].
      destruct (handleAudioPacket NDEBUG _ _ _ (pe_handle pe))
        as [[[r d1] rb1] ev1].
      destruct r as [handled| | |]; try discriminate.
      unfold av_packet_unref.
      destruct (negb handled
                || pe_isPaused_128 pe && negb (pe_seeking_128 pe));
        discriminate.
Qed.

Lemma inner_loop_returns NDEBUG pops : forall d l,
  let '(o, _, l', ev) := inner_loop NDEBUG d l pops in
  o = InnerReturn ->
  NDEBUG = true /\ initialized l' = false
  /\ exists pre p, ev = pre ++ [EvPop (Some p)]
                   /\ pts p = AV_NOPTS_VALUE.
Proof.
  induction pops as [|pe pops IH]; intros d l; [discriminate|].
  cbn [inner_loop]. destruct (pe_pop pe) as [p|]; [|discriminate].
  pose proof (turn_returns NDEBUG d (set_packet l p) pe) as Ht.
  destruct (turn_with_packet NDEBUG d (set_packet l p) pe)
    as [[[o d1] l1] ev1].
  destruct o as [|o].
  - specialize (IH d1 l1).
    destruct (inner_loop NDEBUG d1 l1 pops) as [[[o2 d2] l2] ev2].
    intros Ho. destruct (IH Ho) as (HN & Hinit & pre & q & -> & Hq).
    split; [exact HN|]. split; [exact Hinit|].
    exists (EvPop (Some p) :: ev1 ++ pre), q.
    split; [|exact Hq]. cbn [app]. now rewrite app_assoc.
  - intros ->. destruct (Ht eq_refl) as (HN & Hp & Hinit & ->).
    split; [exact HN|]. split; [exact Hinit|].
    exists [], p. now split.
Qed.

Lemma pass_returns NDEBUG d l pa :
  let '(o, _, l', ev) := pass NDEBUG d l pa in
  o = PassReturn ->
  NDEBUG = true /\ initialized l' = false
  /\ exists pre p, ev = pre ++ [EvPop (Some p)]
                   /\ pts p = AV_NOPTS_VALUE.
Proof.
  unfold pass.
  destruct (pa_isPaused_49 pa && negb (pa_seeking_49 pa)).
  { destruct (pa_interrupted_57 pa), (pa_wait pa); discriminate. }
  destruct (if m_audioPaused d && negb (pa_seeking_67 pa)
            then (set_audioPaused d false, [EvWaveOutRestart])
            else (d, [])) as [d1 ev1].
  unfold handle_postponed.
  destruct (handlePacketPostponed l).
  - destruct (if negb (pa_seeking_76 pa)
              then handleAudioPacket NDEBUG d1
                     (packet (set_handlePacketPostponed l false))
                     (resampleBuffer (set_handlePacketPostponed l false))
                     (pa_postponed pa)
              else (Returned true, d1,
                    resampleBuffer (set_handlePacketPostponed l false), []))
      as [[[r d2] rb2] ev2].
    destruct r; try discriminate.
    unfold av_packet_unref.
    pose proof (inner_loop_returns NDEBUG (pa_pops pa) d2
                  (set_packet
                     (set_resampleBuffer
                        (set_handlePacketPostponed l false) rb2)
                     blank_packet)) as Hi.
    destruct (inner_loop NDEBUG d2 _ (pa_pops pa)) as [[[o d3] l3] ev3].
    destruct o; try (destruct (pa_interrupted_135 pa); discriminate);
      try discriminate.
    intros _. destruct (Hi eq_refl) as (HN & Hinit & pre & p & -> & Hp).
    split; [exact HN|]. split; [exact Hinit|].
    exists (ev1 ++ (ev2 ++ [EvUnref (packet (set_resampleBuffer
              (set_handlePacketPostponed l false) rb2))]) ++ pre), p.
    split; [|exact Hp]. now rewrite <- !app_assoc.
  - pose proof (inner_loop_returns NDEBUG (pa_pops pa) d1 l) as Hi.
    destruct (inner_loop NDEBUG d1 l (pa_pops pa)) as [[[o d3] l3] ev3].
    destruct o; try (destruct (pa_interrupted_135 pa); discriminate);
      try discriminate.
    intros _. destruct (Hi eq_refl) as (HN & Hinit & pre & p & -> & Hp).
    split; [exact HN|]. split; [exact Hinit|].
    exists (ev1 ++ pre), p. split; [|exact Hp].
    cbn [app]. now rewrite <- app_assoc.
Qed.

Lemma run_passes_returns NDEBUG script : forall d l,
  let '(o, _, l', ev) := run_passes NDEBUG d l script in
  o = ThreadReturned ->
  NDEBUG = true /\ initialized l' = false
  /\ exists pre p, ev = pre ++ [EvPop (Some p); EvDeinitializeThread]
                   /\ pts p = AV_NOPTS_VALUE.
Proof.
  induction script as [|pa script IH]; intros d l; [discriminate|].
  cbn [run_passes].
  pose proof (pass_returns NDEBUG d l pa) as Hp.
  destruct (pass NDEBUG d l pa) as [[[o d1] l1] ev1].
  destruct o; try discriminate.
  - specialize (IH d1 l1).
    destruct (run_passes NDEBUG d1 l1 script) as [[[o2 d2] l2] ev2].
    intros Ho. destruct (IH Ho) as (HN & Hinit & pre & p & -> & Hq).
    split; [exact HN|]. split; [exact Hinit|].
    exists (ev1 ++ pre), p. split; [|exact Hq]. now rewrite app_assoc.
  - intros _. destruct (Hp eq_refl) as (HN & Hinit & pre & p & -> & Hq).
    split; [exact HN|]. split; [exact Hinit|].
    exists pre, p. split; [|exact Hq]. now rewrite <- app_assoc.
  - destruct (catch_all l1). discriminate.
Qed.

End Returns.

(** X15: The thread returns from its loop for one reason only: a packet
    without a timestamp was popped while no packet had yet got past the
    first-packet block. The pop of that packet and the guard's
    [DeinitializeThread] are then the last two events (and the build is
    one without assertions). *)
Theorem thread_returns_only_without_timestamp
    {lib : AVUtil} NDEBUG d script d' l' ev :
  audioParseRunnable NDEBUG d script = (ThreadReturned, d', l', ev) ->
  NDEBUG = true /\ initialized l' = false
  /\ exists pre p, ev = pre ++ [EvPop (Some p); EvDeinitializeThread]
                   /\ pts p = AV_NOPTS_VALUE.
Proof.
  unfold audioParseRunnable.
  pose proof (run_passes_returns NDEBUG script d initial_locals) as H.
  destruct (run_passes NDEBUG d initial_locals script)
    as [[[o d1] l1] ev1].
  intros [= -> _ <- <-].
  destruct (H eq_refl) as (HN & Hinit & pre & p & -> & Hp).
  split; [exact HN|]. split; [exact Hinit|].
  exists (EvInitializeThread :: pre), p. now split.
Qed.

Lemma thread_returns_only_without_timestamp_witness :
  let p := Sample.packet_of 0 AV_NOPTS_VALUE 100 in
  true = true /\ initialized (set_packet initial_locals p) = false
  /\ exists pre q,
       [EvInitializeThread; EvPop None; EvPop (Some p);
        EvDeinitializeThread]
       = pre ++ [EvPop (Some q); EvDeinitializeThread]
       /\ pts q = AV_NOPTS_VALUE.
Proof.
  apply (@thread_returns_only_without_timestamp Sample.libavutil true
           (Sample.decoder None Sample.settings)
           [ Sample.pass_env [Sample.pop_env None (Sample.handle_env [])]
                             false;
             Sample.pass_env
               [Sample.pop_env
                  (Some (Sample.packet_of 0 AV_NOPTS_VALUE 100))
                  (Sample.handle_env [])] false ]
           (Sample.decoder None Sample.settings)).
  vm_compute. reflexivity.
Defined.

(** X9: After a switch to another stream has failed, [m_audioStream] is the
    new stream all the same, so the next packet of that stream is not
    taken for a switch: it is sent to the decoder with no new attempt to
    open it. (The table of streams is taken to hold, at each index, the
    stream of that index.) *)
Theorem failed_switch_is_not_retried
    {lib : AVUtil} NDEBUG d p p2 rb he he2 :
  stream_index p <> index (m_audioStream d) ->
  he_parameters_to_context he < 0 \/ he_find_decoder he = false
    \/ he_open2 he < 0 ->
  index (m_formatContext_streams d (stream_index p)) = stream_index p ->
  stream_index p2 = stream_index p ->
  let '(r, d1, rb1, _) := handleAudioPacket NDEBUG d p rb he in
  r = Returned false
  /\ hd_error (snd (handleAudioPacket NDEBUG d1 p2 rb1 he2))
     = Some (EvSendPacket p2).
Proof.
  intros Hidx Hfail Htable Hsame. unfold handleAudioPacket at 1.
  destruct (submit_packet_switch_failure d p he Hidx Hfail)
    as (ev & -> & _).
  split; [reflexivity|].
  unfold handleAudioPacket, submit_packet.
  cbn [m_audioStream set_audioStream]. rewrite Hsame, Htable, Z.eqb_refl.
  cbn [negb andb app].
  destruct (he_send_packet he2 <? 0); [reflexivity|].
  destruct (handle_frames NDEBUG _ rb (he_frames he2)) as [[[r d2] rb2] ev2].
  reflexivity.
Qed.

Lemma failed_switch_is_not_retried_witness :
  let d := Sample.decoder None Sample.settings in
  let p := Sample.packet_of 1 0 100 in
  let p2 := Sample.packet_of 1 1024 100 in
  let he :=
    {| he_parameters_to_context := 0;
       he_find_decoder := false;
       he_open2 := 0;
       he_send_packet := 0;
       he_frames := [] |} in
  let '(r, d1, rb1, _) := @handleAudioPacket Sample.libavutil true d p 0 he in
  r = Returned false
  /\ hd_error (snd (@handleAudioPacket Sample.libavutil true d1 p2 rb1
                      (Sample.handle_env [])))
     = Some (EvSendPacket p2).
Proof.
  apply (@failed_switch_is_not_retried Sample.libavutil true
           (Sample.decoder None Sample.settings)
           (Sample.packet_of 1 0 100) (Sample.packet_of 1 1024 100) 0
           {| he_parameters_to_context := 0;
              he_find_decoder := false;
              he_open2 := 0;
              he_send_packet := 0;
              he_frames := [] |}
           (Sample.handle_env [])).
  - discriminate.
  - right; left; reflexivity.
  - reflexivity.
  - reflexivity.
Defined.

(* ================================================================== *)
(** ** The assertion of line 257 *)

(** X1: With a positive number of bytes per sample frame and sizes that fit
    an [int], the assertion [write_size < buffer_size] holds for a
    conversion that stays below the capacity it was given and fails for
    one that fills it: it is the test [converted_size < out_count]. *)
Theorem assertion_holds_iff_below_capacity
    {lib : AVUtil} d f converted_size :
  0 <= converted_size <= out_count d f ->
  0 < size_multiplier d ->
  CInt.in_int (out_count d f * size_multiplier d) ->
  write_size_assertion (converted_write_size d converted_size)
                       (buffer_size d f) = true
  <-> converted_size < out_count d f.
Proof.
  intros Hc Hm Hin. split.
  - intros Ha.
    destruct (Z.eq_dec converted_size (out_count d f)) as [E|E]; [|lia].
    subst converted_size.
    assert (H0 : 0 <= out_count d f * size_multiplier d)
      by (apply Z.mul_nonneg_nonneg; lia).
    destruct (write_size_at_capacity d f H0 Hin) as (_ & Hf).
    congruence.
  - intros Hlt. apply write_size_below_capacity; [lia | exact Hm | exact Hin].
Qed.

Lemma assertion_holds_iff_below_capacity_witness :
  let d := Sample.decoder (Some (Sample.context_of 48000 3 true))
                          (Sample.params_of 48000 3) in
  let f := Sample.frame 1024 48000 Sample.AV_SAMPLE_FMT_FLT in
  write_size_assertion (@converted_write_size Sample.libavutil d 940)
                       (@buffer_size Sample.libavutil d f) = true
  <-> 940 < @out_count d f.
Proof.
  apply (@assertion_holds_iff_below_capacity Sample.libavutil
           (Sample.decoder (Some (Sample.context_of 48000 3 true))
                           (Sample.params_of 48000 3))
           (Sample.frame 1024 48000 Sample.AV_SAMPLE_FMT_FLT) 940).
  - vm_compute. split; discriminate.
  - reflexivity.
  - vm_compute. split; discriminate.
Defined.

(* ================================================================== *)
(** ** Once a packet has passed the first-packet block *)

Section Initialized.

Context {lib : AVUtil}.






End Initialized.


